(** * chroma-search: the upload and chat pipelines of [main.py]

    A shallow embedding of the two request handlers of [src/main.py]
    ([upload_file] and [chat_endpoint]) together with the small part of
    Python, pandas, the embedding provider and the vector store that the
    handlers rely on, followed by the properties stated about them.

    Conventions.
    - Python [str] is [string]; only ASCII letters are touched by [lower].
    - Python [float] is the binary64 type [float] of the kernel, so
      [1 - distance] rounds as it does in Python.
    - A handler is a computation in the monad [M]: it threads a [world]
      (the persistent store, the identifier supply and the log of calls
      made to the provider and to the store) and ends in a value or in a
      raised exception.  State written before an exception is kept, as in
      Python. *)

From Stdlib Require Import ZArith List String Ascii Bool Lia Arith.
From Stdlib Require Import PrimFloat FloatOps SpecFloat.
From Stdlib Require Import DecimalString.
From Stdlib Require Uint63.
Import ListNotations.
Local Open Scope string_scope.
Local Open Scope list_scope.

Set Implicit Arguments.

(** ** Python strings *)

Module PyStr.

(** [s.endswith(suffix)] *)
Fixpoint endswith (s suffix : string) : bool :=
  if String.eqb s suffix then true
  else match s with
       | EmptyString => false
       | String _ s' => endswith s' suffix
       end.

(** [s.replace(old, new)] for a non-empty [old]: occurrences are found
    from left to right and do not overlap.  [skip] counts the characters
    of a match that are still to be dropped. *)
Fixpoint replace_from (skip : nat) (old new s : string) : string :=
  match s with
  | EmptyString => EmptyString
  | String c s' =>
      match skip with
      | S k => replace_from k old new s'
      | O =>
          if String.prefix old s
          then new ++ replace_from (String.length old - 1) old new s'
          else String c (replace_from 0 old new s')
      end
  end.

Definition replace (old new s : string) : string := replace_from 0 old new s.

Definition lower_ascii (c : ascii) : ascii :=
  let n := nat_of_ascii c in
  if andb (Nat.leb 65 n) (Nat.leb n 90) then ascii_of_nat (n + 32) else c.

(** [s.lower()] *)
Fixpoint lower (s : string) : string :=
  match s with
  | EmptyString => EmptyString
  | String c s' => String (lower_ascii c) (lower s')
  end.

(** [sep.join(parts)] *)
Definition join (sep : string) (parts : list string) : string :=
  String.concat sep parts.

(** [str(n)] for an integer *)
Definition str_Z (z : Z) : string := NilZero.string_of_int (Z.to_int z).

(** The line feed, written [\n] in the source. *)
Definition nl : string := String (ascii_of_nat 10) EmptyString.

End PyStr.

(** ** Python floats and the [.2%] format *)

Module PyFloat.

(** Nearest integer to [num / den], ties to even ([0 <= num], [0 < den]). *)
Definition round_half_even (num den : Z) : Z :=
  let q := (num / den)%Z in
  let r := (num mod den)%Z in
  match (2 * r ?= den)%Z with
  | Lt => q
  | Gt => (q + 1)%Z
  | Eq => if Z.even q then q else (q + 1)%Z
  end.

(** The hundredths of [m * 2^e], correctly rounded. *)
Definition hundredths (m : positive) (e : Z) : Z :=
  if (0 <=? e)%Z then (Z.pos m * 2 ^ e * 100)%Z
  else round_half_even (Z.pos m * 100) (2 ^ (- e)).

Definition two_digits (n : Z) : string :=
  if (n <? 10)%Z then "0" ++ PyStr.str_Z n else PyStr.str_Z n.

(** [format(x, '.2f')]: fixed notation, two decimals, correctly rounded;
    the sign bit is printed also when the digits are all zero. *)
Definition format_fixed2 (x : float) : string :=
  match Prim2SF x with
  | S754_nan => "nan"
  | S754_infinity s => if s then "-inf" else "inf"
  | S754_zero s => if s then "-0.00" else "0.00"
  | S754_finite s m e =>
      let h := hundredths m e in
      (if s then "-" else "") ++
      PyStr.str_Z (h / 100) ++ "." ++ two_digits (h mod 100)
  end.

(** [format(x, '.2%')]: the value is multiplied by 100 as a float and
    printed in fixed notation, followed by a percent sign. *)
Definition format_percent2 (x : float) : string :=
  format_fixed2 (x * 100)%float ++ "%".

End PyFloat.

(** ** Python values, exceptions and the handler monad *)

(** Values that a decoded JSON body can hold. *)
#[warnings="-register-all"]
Inductive pyval : Type :=
| PNone
| PBool (b : bool)
| PInt (z : Z)
| PFloat (f : float)
| PStr (s : string)
| PList (l : list pyval)
| PDict (kv : list (string * pyval)).

(** Truth value of an object, as tested by [if not x]. *)
Definition truthy (v : pyval) : bool :=
  match v with
  | PNone => false
  | PBool b => b
  | PInt z => negb (Z.eqb z 0)
  | PFloat f => negb (PrimFloat.eqb f 0)
  | PStr s => negb (String.eqb s "")
  | PList l => match l with [] => false | _ => true end
  | PDict kv => match kv with [] => false | _ => true end
  end.

(** Exceptions.  [HTTPException] is the framework's exception carrying a
    status code; [PyExc] stands for every other subclass of [Exception],
    with its class name and its message. *)
Inductive exn : Type :=
| HTTPException (status_code : Z) (detail : string)
| PyExc (cls : string) (msg : string).

(** [str(e)].  The framework prints an [HTTPException] as its status
    code, a colon and its detail. *)
Definition str_exn (e : exn) : string :=
  match e with
  | HTTPException c d => PyStr.str_Z c ++ ": " ++ d
  | PyExc _ msg => msg
  end.

Inductive outcome (A : Type) : Type :=
| Ok (a : A)
| Raise (e : exn).
Arguments Ok {A} a.
Arguments Raise {A} e.

(** ** Records, collections and the store *)

(** A metadata mapping is an insertion-ordered [dict] with string keys
    and string values. *)
Definition metadata := list (string * string).

Fixpoint dict_get (A : Type) (k : string) (d : list (string * A)) : option A :=
  match d with
  | [] => None
  | (k', v) :: d' => if String.eqb k k' then Some v else dict_get k d'
  end.

(** [d[k] = v]: an existing key keeps its place, a new key goes last. *)
Fixpoint dict_set (A : Type) (k : string) (v : A) (d : list (string * A))
  : list (string * A) :=
  match d with
  | [] => [(k, v)]
  | (k', v') :: d' =>
      if String.eqb k k' then (k, v) :: d' else (k', v') :: dict_set k v d'
  end.

(** The dict built from a sequence of items, later items winning. *)
Definition dict_of_items (A : Type) (items : list (string * A))
  : list (string * A) :=
  fold_left (fun d kv => dict_set (fst kv) (snd kv) d) items [].

Record record : Type := mkRecord {
  rec_id : string;
  rec_embedding : list float;
  rec_document : string;
  rec_metadata : metadata
}.

(** The store: its collections in listing order, each with its records in
    insertion order. *)
Definition store := list (string * list record).

(** What [collection.query] returns for the three included fields: one
    inner list per query embedding. *)
Record query_result : Type := mkQueryResult {
  documents : list (list string);
  metadatas : list (list (option metadata));
  distances : list (list float)
}.

(** Calls made to the vector store. *)
Inductive store_op : Type :=
| OpList
| OpCreate (name : string)
| OpGet (name : pyval)
| OpAdd (name : string) (n : nat)
| OpQuery (name : string) (n_results : nat).

(** Calls made to the external collaborators, in the order made. *)
Inductive event : Type :=
| EvStore (op : store_op)
| EvEncode (texts : list pyval).

Record world : Type := mkWorld {
  chroma_db : store;
  uuid_next : nat;
  trace : list event
}.

Definition M (A : Type) : Type := world -> outcome A * world.

Definition ret (A : Type) (a : A) : M A := fun w => (Ok a, w).

Definition bind (A B : Type) (m : M A) (k : A -> M B) : M B :=
  fun w => match m w with
           | (Ok a, w') => k a w'
           | (Raise e, w') => (Raise e, w')
           end.

Definition raise (A : Type) (e : exn) : M A := fun w => (Raise e, w).
Arguments raise {A} e.

(** [try: m  except Exception as e: h e] *)
Definition try_except (A : Type) (m : M A) (h : exn -> M A) : M A :=
  fun w => match m w with
           | (Ok a, w') => (Ok a, w')
           | (Raise e, w') => h e w'
           end.

Definition lift (A : Type) (o : outcome A) : M A := fun w => (o, w).

Definition log (ev : event) : M unit :=
  fun w => (Ok tt, mkWorld (chroma_db w) (uuid_next w) (trace w ++ [ev])).

Declare Scope py_scope.
Delimit Scope py_scope with py.
Notation "x <- m ;; k" := (bind m (fun x => k))
  (at level 61, m at next level, right associativity) : py_scope.
Notation "m ;;; k" := (bind m (fun _ => k))
  (at level 61, right associativity) : py_scope.
Local Open Scope py_scope.

(** [for x in xs: body x] *)
Fixpoint for_each (A : Type) (xs : list A) (body : A -> M unit) : M unit :=
  match xs with
  | [] => ret tt
  | x :: xs' => body x ;;; for_each xs' body
  end.

(** [range(start, stop, step)] for a natural [step]; a zero step raises. *)
Fixpoint range_from (fuel start stop step : nat) : list nat :=
  match fuel with
  | O => []
  | S fuel' =>
      if Nat.ltb start stop
      then start :: range_from fuel' (start + step) stop step
      else []
  end.

Definition py_range (start stop step : nat) : outcome (list nat) :=
  match step with
  | O => Raise (PyExc "ValueError" "range() arg 3 must not be zero")
  | S _ => Ok (range_from stop start stop step)
  end.

(** [xs[i:j]] *)
Definition slice (A : Type) (xs : list A) (i j : nat) : list A :=
  firstn (j - i) (skipn i xs).

(** [xs[0]] *)
Definition first_item (A : Type) (xs : list A) : outcome A :=
  match xs with
  | x :: _ => Ok x
  | [] => Raise (PyExc "IndexError" "list index out of range")
  end.

(** [zip(xs, ys, zs)]: stops at the shortest. *)
Fixpoint zip3 (A B C : Type) (xs : list A) (ys : list B) (zs : list C)
  : list (A * B * C) :=
  match xs, ys, zs with
  | x :: xs', y :: ys', z :: zs' => (x, y, z) :: zip3 xs' ys' zs'
  | _, _, _ => []
  end.

(** [enumerate(xs)] counting from [i]. *)
Fixpoint enumerate_from (A : Type) (i : nat) (xs : list A) : list (nat * A) :=
  match xs with
  | [] => []
  | x :: xs' => (i, x) :: enumerate_from (S i) xs'
  end.

(** ** Tables *)

(** A cell as a row yields it: text, a number, a truth value, or nothing. *)
Inductive cell : Type :=
| CStr (s : string)
| CInt (z : Z)
| CFloat (f : float)
| CBool (b : bool)
| CNone.

(** [pd.notna(val)]: false on [None] and on the float NaN. *)
Definition notna (c : cell) : bool :=
  match c with
  | CNone => false
  | CFloat f => negb (PrimFloat.is_nan f)
  | _ => true
  end.

Record DataFrame : Type := mkDataFrame {
  columns : list string;
  rows : list (list cell)
}.

(** A frame as the reader builds it: distinct column labels, and one cell
    per column in every row. *)
Definition wf_frame (df : DataFrame) : Prop :=
  NoDup (columns df) /\
  Forall (fun r => List.length r = List.length (columns df)) (rows df).

(** [col in df.columns] *)
Definition has_column (col : string) (df : DataFrame) : bool :=
  existsb (String.eqb col) (columns df).

(** [row.items()] *)
Definition row_items (cols : list string) (r : list cell)
  : list (string * cell) :=
  combine cols r.

(** [row[col]] *)
Definition row_get (cols : list string) (r : list cell) (col : string)
  : outcome cell :=
  match dict_get col (row_items cols r) with
  | Some c => Ok c
  | None => Raise (PyExc "KeyError" ("'" ++ col ++ "'"))
  end.

(** [str(val)] for a cell.  The shortest round-trip digits of a float are
    left to [float_repr]. *)
Definition str_cell (float_repr : float -> string) (c : cell) : string :=
  match c with
  | CStr s => s
  | CInt z => PyStr.str_Z z
  | CFloat f => float_repr f
  | CBool b => if b then "True" else "False"
  | CNone => "None"
  end.

(** ** Requests and responses *)

(** A chat request: [json] is what awaiting [request.json()] gives, a
    decoded body or the decoder's exception. *)
Record Request : Type := mkRequest {
  json : outcome pyval
}.

Record ChatResponse : Type := mkChatResponse {
  response : string
}.

Record UploadFile : Type := mkUploadFile {
  filename : string;
  file : string
}.

Record UploadResponse : Type := mkUploadResponse {
  collection_name : string;
  count : nat;
  message : string
}.

(** The text of a chat response, when the handler returned one. *)
Definition response_of (o : outcome ChatResponse) : option string :=
  match o with
  | Ok r => Some (response r)
  | Raise _ => None
  end.

(** The status line the framework sends for a handler's outcome: 200 for
    a returned value, the carried code for an [HTTPException], and 500
    for any other exception that leaves the handler. *)
Definition http_status (A : Type) (o : outcome A) : Z :=
  match o with
  | Ok _ => 200%Z
  | Raise (HTTPException c _) => c
  | Raise (PyExc _ _) => 500%Z
  end.

(** [type(v).__name__] *)
Definition type_name (v : pyval) : string :=
  match v with
  | PNone => "NoneType"
  | PBool _ => "bool"
  | PInt _ => "int"
  | PFloat _ => "float"
  | PStr _ => "str"
  | PList _ => "list"
  | PDict _ => "dict"
  end.

(** [data.get(key, default)]: only a dict has the method. *)
Definition py_get (data : pyval) (key : string) (default : pyval)
  : outcome pyval :=
  match data with
  | PDict kv =>
      Ok (match dict_get key kv with Some v => v | None => default end)
  | _ =>
      Raise (PyExc "AttributeError"
               ("'" ++ type_name data ++ "' object has no attribute 'get'"))
  end.

(** The records a collection holds, none when it does not exist. *)
Definition stored (name : string) (s : store) : list record :=
  match dict_get name s with
  | Some rs => rs
  | None => []
  end.

(** [collection.count()] *)
Definition collection_count (name : string) (s : store) : nat :=
  List.length (stored name s).

(** The records made from four parallel lists. *)
Fixpoint make_records (ids : list string) (embeddings : list (list float))
  (docs : list string) (metas : list metadata) : list record :=
  match ids, embeddings, docs, metas with
  | i :: ids', e :: embeddings', d :: docs', m :: metas' =>
      mkRecord i e d m :: make_records ids' embeddings' docs' metas'
  | _, _, _, _ => []
  end.

(** The text column every uploaded table must have. *)
Definition Object_Text : string := "Object_Text".

(** The three lists a batch is turned into. *)
Record batch_lists : Type := mkBatch {
  b_documents : list string;
  b_metadatas : list metadata;
  b_ids : list string
}.

Definition empty_batch : batch_lists := mkBatch [] [] [].

(** ** The stated behaviour, in the words of the specification *)

Module Spec.

(** Remove [suffix] from the end of [s], and nothing else. *)
Fixpoint strip_suffix (suffix s : string) : string :=
  if String.eqb s suffix then EmptyString
  else match s with
       | EmptyString => EmptyString
       | String c s' => String c (strip_suffix suffix s')
       end.

Definition space_to_underscore (c : ascii) : ascii :=
  if Ascii.eqb c " "%char then "_"%char else c.

Fixpoint map_string (f : ascii -> ascii) (s : string) : string :=
  match s with
  | EmptyString => EmptyString
  | String c s' => String (f c) (map_string f s')
  end.

(** The collection name: the file name without its extension, in lower
    case, spaces replaced by underscores. *)
Definition collection_name_of (fname : string) : string :=
  map_string space_to_underscore
    (PyStr.lower (strip_suffix ".csv" fname)).

(** [s] contains [pat] starting at one of its first [n] positions. *)
Fixpoint occurs_within (n : nat) (pat s : string) : bool :=
  match n with
  | O => false
  | S n' =>
      orb (String.prefix pat s)
          (match s with
           | EmptyString => false
           | String _ s' => occurs_within n' pat s'
           end)
  end.

(** The metadata left once the text column's own key is put aside. *)
Definition other_metadata (md : option metadata) : metadata :=
  match md with
  | Some items =>
      filter (fun kv => negb (String.eqb (fst kv) Object_Text)) items
  | None => []
  end.

(** The character of the decimal digit [d], for [0 <= d <= 9]. *)
Definition digit (d : Z) : string :=
  String (ascii_of_nat (48 + Z.to_nat d)) EmptyString.

(** [n] is the whole number of hundredths nearest to [m * 2^e], the even
    one of the two when [m * 2^e] lies half way between them. *)
Definition nearest_hundredths (m : positive) (e : Z) (n : Z) : Prop :=
  (0 <= n)%Z
  /\ if (0 <=? e)%Z then n = (Z.pos m * 2 ^ e * 100)%Z
     else (2 * Z.abs (n * 2 ^ (- e) - Z.pos m * 100) <= 2 ^ (- e))%Z
          /\ ((2 * Z.abs (n * 2 ^ (- e) - Z.pos m * 100) = 2 ^ (- e))%Z ->
              Z.even n = true).

(** [s] shows the number [p] with two decimal places: a minus sign when
    [p] is negative, the whole part in decimal, a point and two digits,
    the number shown being the nearest to [p] that can be written so. *)
Definition two_decimals (p : float) (s : string) : Prop :=
  match Prim2SF p with
  | S754_finite negative m e =>
      exists n,
        nearest_hundredths m e n
        /\ s = ((if negative then "-" else "")
                  ++ PyStr.str_Z (n / 100) ++ "."
                  ++ digit (n / 10 mod 10) ++ digit (n mod 10))%string
  | S754_zero negative => s = ((if negative then "-" else "") ++ "0.00")%string
  | S754_infinity negative => s = if negative then "-inf" else "inf"
  | S754_nan => s = "nan"
  end.

(** [s] shows [x] as a percentage with two decimal places: the number
    of percents [x * 100], with two decimals, and a percent sign. *)
Definition is_percent2 (x : float) (s : string) : Prop :=
  exists t, two_decimals (x * 100)%float t /\ s = (t ++ "%")%string.

(** A missing (null) cell: no value, or the float that is not a number,
    which the reader puts where a field is empty. *)
Definition missing (c : cell) : Prop :=
  c = CNone \/ exists f, c = CFloat f /\ PrimFloat.is_nan f = true.

(** [s] is the cell [c] stringified: a text is itself, an integer is
    its decimal numeral, a truth value is [True] or [False], a float is
    its [repr], and no value is [None]. *)
Inductive stringified (float_repr : float -> string) : cell -> string -> Prop :=
| text_stringified : forall s, stringified float_repr (CStr s) s
| int_stringified : forall z, stringified float_repr (CInt z) (PyStr.str_Z z)
| float_stringified : forall f,
    stringified float_repr (CFloat f) (float_repr f)
| true_stringified : stringified float_repr (CBool true) "True"
| false_stringified : stringified float_repr (CBool false) "False"
| none_stringified : stringified float_repr CNone "None".

(** The header of the result of the given 1-based rank. *)
Definition header (rank : nat) (distance : float) : string :=
  ("**Result " ++ PyStr.str_Z (Z.of_nat rank) ++ "** (Similarity: "
     ++ PyFloat.format_percent2 (1 - distance)%float ++ ")")%string.

(** One result entry: header, document text and, when metadata remains,
    one line of [key: value] pairs separated by commas. *)
Definition entry (rank : nat) (doc : string) (md : option metadata)
  (distance : float) : string :=
  let rest := other_metadata md in
  (header rank distance ++ PyStr.nl ++ doc ++
   match rest with
   | [] => ""
   | _ :: _ =>
       PyStr.nl ++ "Additional info: " ++
       PyStr.join ", " (map (fun kv => fst kv ++ ": " ++ snd kv) rest)
   end)%string.

(** The entries of the results from rank [rank] on, in the given order,
    each followed by a blank line. *)
Fixpoint entries_from (rank : nat)
  (results : list (string * option metadata * float)) : list string :=
  match results with
  | [] => []
  | (doc, md, distance) :: results' =>
      entry rank doc md distance :: entries_from (S rank) results'
  end.

(** The response text: the entries separated by one blank line, and a
    final line feed. *)
Definition response_text
  (results : list (string * option metadata * float)) : string :=
  (PyStr.join (PyStr.nl ++ PyStr.nl) (entries_from 1 results)
     ++ PyStr.nl)%string.

End Spec.

(** ** Stand-ins for the collaborators, for concrete runs *)

Module Demo.

(** A model that embeds every text as the same one-dimensional vector. *)
Definition model : list pyval -> outcome (list (list float)) :=
  fun texts => Ok (map (fun _ => [0.5%float]) texts).

(** Identifiers [""], ["u"], ["uu"], ... *)
Fixpoint uuid4 (n : nat) : string :=
  match n with
  | O => EmptyString
  | S k => String "u"%char (uuid4 k)
  end.

Definition float_repr (f : float) : string := PyFloat.format_fixed2 f.

Definition no_fault : list event -> store_op -> option exn :=
  fun _ _ => None.

(** The first [n] records, each at distance 0.25. *)
Definition nearest (recs : list record) (q : list (list float)) (n : nat)
  : outcome query_result :=
  let top := firstn n recs in
  Ok (mkQueryResult [map rec_document top]
        [map (fun r => Some (rec_metadata r)) top]
        [map (fun _ => 0.25%float) top]).

Definition parts : DataFrame :=
  mkDataFrame ["Part"; "Object_Text"; "Qty"]
    [ [CStr "X123"; CStr "Brake pad model X123"; CInt 4];
      [CNone; CStr "Disc"; CFloat nan];
      [CStr "Y"; CInt 7; CBool true] ].

Definition no_text_column : DataFrame :=
  mkDataFrame ["Part"; "Qty"] [ [CStr "X123"; CInt 4] ].

Definition no_rows : DataFrame :=
  mkDataFrame ["Part"; "Object_Text"] [].

Definition more_parts : DataFrame :=
  mkDataFrame ["Object_Text"; "Part"]
    [ [CStr "Caliper"; CStr "C9"]; [CStr "Hose"; CNone] ].

(** A reader that knows four uploads by their content. *)
Definition read_csv (content : string) : outcome DataFrame :=
  if String.eqb content "parts" then Ok parts
  else if String.eqb content "more parts" then Ok more_parts
  else if String.eqb content "no text column" then Ok no_text_column
  else if String.eqb content "no rows" then Ok no_rows
  else Raise (PyExc "ParserError" "Error tokenizing data").

(** An answer of the store with two results. *)
Definition answer : query_result :=
  mkQueryResult
    [ ["Brake pad model X123"; "Disc"] ]
    [ [Some [("Part", "X123"); ("Object_Text", "Brake pad model X123")];
       Some []] ]
    [ [0.25%float; 0.5%float] ].

Definition empty_world : world := mkWorld [] 0 [].

Definition ask (text : string) : Request :=
  mkRequest (Ok (PDict [("message", PStr text)])).

End Demo.

(** ** Properties of the calls a computation makes *)

(** [emits P m]: running [m] only adds events to the log, and every event
    it adds satisfies [P]. *)
Definition emits (P : event -> Prop) (A : Type) (m : M A) : Prop :=
  forall w, exists evs,
    trace (snd (m w)) = trace w ++ evs /\ Forall P evs.

(** An event that, if it is a query, asks for [n] results. *)
Definition asks_for (n : nat) (ev : event) : Prop :=
  match ev with
  | EvStore (OpQuery _ k) => k = n
  | _ => True
  end.

(** ** The deployment checker ([check_model_for_docker.py])

    The script looks at the files of the host and prints a report.  The
    host is a parameter; what the script prints is kept, one string per
    call of [print]; strings are UTF-8 bytes. *)

Module DockerCheck.

(** What the script asks of the host. *)
Record host : Type := mkHost {
  (** [Path.exists()] and [os.path.exists] *)
  path_exists : string -> bool;
  (** [path.stat().st_size], a size in bytes below 2^53 *)
  st_size : string -> Z;
  (** [os.path.abspath] *)
  abspath : string -> string;
  (** [list(Path("static").glob("*.html"))] *)
  html_files : list string;
  (** Lines 67-70 on the model directory: the text of [embedding.shape],
      or the exception raised by the import, the load or the encode. *)
  load_model : string -> outcome string
}.

(** [dir / name] on paths. *)
Definition path_join (dir name : string) : string :=
  (dir ++ "/" ++ name)%string.

(** [s * n] on strings. *)
Fixpoint repeat_string (s : string) (n : nat) : string :=
  match n with
  | O => EmptyString
  | S n' => (s ++ repeat_string s n')%string
  end.

(** [float(n)] for a natural number below 2^53. *)
Definition float_of_Z (z : Z) : float := PrimFloat.of_uint63 (Uint63.of_Z z).

(** [format(x, '.1f')] *)
Definition format_fixed1 (x : float) : string :=
  match Prim2SF x with
  | S754_nan => "nan"
  | S754_infinity s => if s then "-inf" else "inf"
  | S754_zero s => if s then "-0.0" else "0.0"
  | S754_finite s m e =>
      let t :=
        if (0 <=? e)%Z then (Z.pos m * 2 ^ e * 10)%Z
        else PyFloat.round_half_even (Z.pos m * 10) (2 ^ (- e)) in
      ((if s then "-" else "") ++
       PyStr.str_Z (t / 10) ++ "." ++ PyStr.str_Z (t mod 10))%string
  end.

(** Lines 31-39. *)
Definition required_files : list string :=
  [ "config.json";
    "pytorch_model.bin";
    "sentence_bert_config.json";
    "special_tokens_map.json";
    "tokenizer_config.json";
    "tokenizer.json";
    "vocab.txt" ].

(** The variables of the loop of lines 45-53, and what it has printed. *)
Record scan : Type := mkScan {
  missing_files : list string;
  total_size : float;
  scan_printed : list string
}.

(** The loop of lines 45-53. *)
Fixpoint scan_files (h : host) (model_path : string) (files : list string)
  (st : scan) : scan :=
  match files with
  | [] => st
  | file_name :: files' =>
      let file_path := path_join model_path file_name in
      if path_exists h file_path
      then
        let size_mb := (float_of_Z (st_size h file_path) / 1048576)%float in
        scan_files h model_path files'
          (mkScan (missing_files st)
             (total_size st + size_mb)%float
             (scan_printed st
                ++ [ ("   ✅ " ++ file_name ++ ": "
                        ++ format_fixed1 size_mb ++ " MB")%string ]))
      else
        scan_files h model_path files'
          (mkScan (missing_files st ++ [file_name])
             (total_size st)
             (scan_printed st
                ++ [ ("   ❌ " ++ file_name ++ ": MISSING")%string ]))
  end.

(** [check_model()] (lines 9-76): the verdict and what was printed. *)
Definition check_model (h : host) : bool * list string :=
  let out0 :=
    [ "🔍 Checking local model for Docker deployment...";
      repeat_string "=" 50 ] in
  let models_dir := "models" in
  if negb (path_exists h models_dir)
  then (false,
        out0 ++ [ "❌ Models directory not found";
                  "💡 Run 'python download_model.py' to download the model" ])
  else
    let model_path := path_join models_dir "all-MiniLM-L6-v2" in
    if negb (path_exists h model_path)
    then (false,
          out0 ++ [ "❌ Model directory not found";
                    ("💡 Expected path: " ++ model_path)%string;
                    "💡 Run 'python download_model.py' to download the model" ])
    else
      let st :=
        scan_files h model_path required_files
          (mkScan [] 0%float (out0 ++ [ "📁 Checking model files..." ])) in
      match missing_files st with
      | _ :: _ =>
          (false,
           scan_printed st
             ++ [ (PyStr.nl ++ "❌ Missing files: "
                     ++ PyStr.join ", " (missing_files st))%string;
                  "💡 Model appears to be incomplete" ])
      | [] =>
          let out1 :=
            scan_printed st
              ++ [ (PyStr.nl ++ "✅ Model is complete!")%string;
                   ("📊 Total size: " ++ format_fixed1 (total_size st)
                      ++ " MB")%string;
                   ("📁 Model location: " ++ abspath h model_path)%string;
                   (PyStr.nl ++ "🧪 Testing model loading...")%string ] in
          match load_model h model_path with
          | Ok shape =>
              (true,
               out1 ++ [ "✅ Model loads successfully!";
                         ("📊 Embedding shape: " ++ shape)%string ])
          | Raise e =>
              (false,
               out1 ++ [ ("❌ Error loading model: " ++ str_exn e)%string ])
          end
      end.

(** The loop of lines 86-91 over the Docker files: what it prints, and
    whether it went through. *)
Fixpoint check_docker_files (h : host) (files : list string)
  (printed : list string) : bool * list string :=
  match files with
  | [] => (true, printed)
  | file_name :: files' =>
      if path_exists h file_name
      then check_docker_files h files'
             (printed ++ [ ("✅ " ++ file_name)%string ])
      else (false, printed ++ [ ("❌ " ++ file_name ++ " - MISSING")%string ])
  end.

(** [check_docker_ready()] (lines 78-113). *)
Definition check_docker_ready (h : host) : bool * list string :=
  let out0 :=
    [ (PyStr.nl ++ "🐳 Checking Docker readiness...")%string;
      repeat_string "=" 30 ] in
  match check_docker_files h ["Dockerfile"; "docker-compose.yml"] out0 with
  | (false, out1) => (false, out1)
  | (true, out1) =>
      if path_exists h "static"
      then
        match html_files h with
        | [] => (false, out1 ++ [ "❌ No HTML files in static directory" ])
        | _ :: _ =>
            let out2 :=
              out1
                ++ [ ("✅ Static files ("
                        ++ PyStr.str_Z (Z.of_nat (List.length (html_files h)))
                        ++ " HTML files)")%string ] in
            if path_exists h "main.py"
            then (true, out2 ++ [ "✅ main.py" ])
            else (false, out2 ++ [ "❌ main.py - MISSING" ])
        end
      else (false, out1 ++ [ "❌ Static directory not found" ])
  end.

(** The script run as a program (lines 115-134): what it prints. *)
Definition main (h : host) : list string :=
  let out0 := [ "🚀 Docker Model Checker"; repeat_string "=" 30 ] in
  let (model_ok, out_model) := check_model h in
  let (docker_ok, out_docker) := check_docker_ready h in
  out0 ++ out_model ++ out_docker
  ++ [ (PyStr.nl ++ repeat_string "=" 50)%string ]
  ++ (if andb model_ok docker_ok
      then [ "🎉 Everything is ready for Docker deployment!";
             (PyStr.nl ++ "💡 Next steps:")%string;
             "   1. Run: docker-compose up --build";
             "   2. Open: http://localhost:8000";
             "   3. Upload your CSV files and start searching!" ]
      else
        [ "❌ Some issues need to be fixed before Docker deployment" ]
        ++ (if negb model_ok then [ "   - Model needs to be downloaded" ]
            else [])
        ++ (if negb docker_ok then [ "   - Docker files are missing" ]
            else [])).

(** The line that announces a deployable state. *)
Definition ready_line : string :=
  "🎉 Everything is ready for Docker deployment!".

(** A line that does not open like [ready_line]. *)
Definition other_line (line : string) : Prop :=
  String.prefix "🎉" line = false.

(** The required files that the host does not have, in the order of the
    list. *)
Definition absent (h : host) (model_path : string) (files : list string)
  : list string :=
  filter (fun n => negb (path_exists h (path_join model_path n))) files.

(** The host [h] with another outcome of the model load. *)
Definition with_load (h : host) (load : string -> outcome string) : host :=
  mkHost (path_exists h) (st_size h) (abspath h) (html_files h) load.

End DockerCheck.

(** ** The management endpoints and invariants of the store *)

(** Calls that only the management endpoints make to the vector store. *)
Inductive admin_op : Type :=
| OpCount (name : string)
| OpDelete (name : string).

(** [del d[k]] on a dict whose keys are distinct. *)
Definition dict_remove (A : Type) (k : string) (d : list (string * A))
  : list (string * A) :=
  filter (fun kv => negb (String.eqb (fst kv) k)) d.

(** One entry of the list [GET /collections] returns. *)
Record CollectionInfo : Type := mkCollectionInfo {
  info_name : string;
  info_count : nat
}.

(** The dict [DELETE /collections/{name}] returns. *)
Record MessageResponse : Type := mkMessageResponse {
  message_text : string
}.

(** The entry for a stored collection. *)
Definition info_of (c : string * list record) : CollectionInfo :=
  mkCollectionInfo (fst c) (List.length (snd c)).

(** [keeps J R m]: whatever way [m] ends, a store that satisfies [J]
    before satisfies it after, and a value [m] returns satisfies [R]. *)
Definition keeps (J : store -> Prop) (A : Type) (R : A -> Prop) (m : M A)
  : Prop :=
  forall w,
    J (chroma_db w) ->
    J (chroma_db (snd (m w)))
    /\ forall a, fst (m w) = Ok a -> R a.

(** No condition on the value. *)
Definition anything (A : Type) : A -> Prop := fun _ => True.

(** A call to the provider carries at most [n] texts. *)
Definition encodes_at_most (n : nat) (ev : event) : Prop :=
  match ev with
  | EvEncode texts => List.length texts <= n
  | EvStore _ => True
  end.

(** Every character of [s] satisfies [p]. *)
Fixpoint string_forall (p : ascii -> bool) (s : string) : bool :=
  match s with
  | EmptyString => true
  | String c s' => andb (p c) (string_forall p s')
  end.

(** A character allowed in a derived collection name as far as case and
    spaces go: not a space, not an ASCII capital. *)
Definition normal_char (c : ascii) : bool :=
  andb (negb (Ascii.eqb c " "))
       (negb (andb (Nat.leb 65 (nat_of_ascii c)) (Nat.leb (nat_of_ascii c) 90))).

(** The collections have distinct names. *)
Definition unique_names (s : store) : Prop := NoDup (map fst s).

(** ** More stand-ins, for the runs of the other endpoints *)

Module Scenario.

Definition no_admin_fault : list event -> admin_op -> option exn :=
  fun _ _ => None.

(** A provider that fails on any call that carries the text "7". *)
Definition flaky_model : list pyval -> outcome (list (list float)) :=
  fun texts =>
    if existsb (fun t => match t with
                         | PStr s => String.eqb s "7"
                         | _ => false
                         end) texts
    then Raise (PyExc "RuntimeError" "provider failed")
    else Demo.model texts.

Definition brake_pad : record :=
  mkRecord "id-1" [0.5%float] "Brake pad model X123" [("Part", "X123")].

(** A store with two collections. *)
Definition two_collections : world :=
  mkWorld [("parts", [brake_pad]); ("tools", [])] 0 [].

(** A store that fails the count of the collection "tools". *)
Definition count_fault : list event -> admin_op -> option exn :=
  fun _ op =>
    match op with
    | OpCount name =>
        if String.eqb name "tools"
        then Some (PyExc "ConnectionError" "store is down")
        else None
    | OpDelete _ => None
    end.

(** A store that answers the lookup of "nope" with its own error. *)
Definition lookup_fault : list event -> store_op -> option exn :=
  fun _ op =>
    match op with
    | OpGet (PStr name) =>
        if String.eqb name "nope"
        then Some (PyExc "NotFoundError" "Collection [nope] does not exist")
        else None
    | _ => None
    end.

(** A table in which every row keeps some metadata; two rows have an
    empty field, which the reader gives as the float that is not a
    number. *)
Definition catalog : DataFrame :=
  mkDataFrame ["Part"; "Object_Text"; "Qty"; "In stock"]
    [ [CStr "X123"; CStr "Brake pad model X123"; CInt 4; CFloat nan];
      [CStr "D9"; CStr "Disc"; CInt 12; CBool true];
      [CFloat nan; CStr "Hose"; CInt (-2); CBool false] ].

(** A reader that knows the catalog. *)
Definition read_csv (content : string) : outcome DataFrame :=
  if String.eqb content "catalog" then Ok catalog
  else Demo.read_csv content.

(** A search that finds nothing. *)
Definition nothing_near (recs : list record) (q : list (list float)) (n : nat)
  : outcome query_result :=
  Ok (mkQueryResult [[]] [[]] [[]]).

(** A host whose model directory lacks two of the required files. *)
Definition incomplete_host : DockerCheck.host :=
  DockerCheck.mkHost
    (fun path =>
       negb (orb (String.eqb path "models/all-MiniLM-L6-v2/pytorch_model.bin")
                 (String.eqb path "models/all-MiniLM-L6-v2/vocab.txt")))
    (fun _ => 1048576%Z)
    (fun path => ("/app/" ++ path)%string)
    ["chat.html"; "upload.html"]
    (fun _ => Ok "(384,)").

End Scenario.

(** ** The service *)

Section Service.

(** The process-wide embedding model: [None] when loading it failed at
    start-up, otherwise [encode(texts).tolist()], which may raise. *)
Variable embedding_model : option (list pyval -> outcome (list (list float))).

(** [pd.read_csv] on the uploaded bytes. *)
Variable read_csv : string -> outcome DataFrame.

(** The identifiers [str(uuid.uuid4())] yields, in the order drawn. *)
Variable uuid4 : nat -> string.

(** [repr] of a float. *)
Variable float_repr : float -> string.

(** Failures of the vector store that do not depend on its content
    (unreachable, rejected argument): given the calls made so far and
    the call attempted, the exception it answers with, if any. *)
Variable store_fault : list event -> store_op -> option exn.

(** Nearest-neighbour search over the records of a collection. *)
Variable nearest :
  list record -> list (list float) -> nat -> outcome query_result.

(** *** The vector store client

    The vector store is the chromadb library, which lies outside the
    repository.  The handlers are run against the model of it below:
    named collections in listing order, each holding its records in
    insertion order. *)

(** Modelled from the spec: a call to the Vector Store ("a black-box
    service providing collection CRUD, vector upsert, and
    nearest-neighbor query").  The call is logged, then either the store
    faults or [run] is applied to the stored collections. *)
Definition store_call (A : Type) (op : store_op)
  (run : store -> outcome A * store) : M A :=
  fun w =>
    let t := trace w ++ [EvStore op] in
    match store_fault (trace w) op with
    | Some e => (Raise e, mkWorld (chroma_db w) (uuid_next w) t)
    | None =>
        let (o, s') := run (chroma_db w) in
        (o, mkWorld s' (uuid_next w) t)
    end.

(** Modelled from the spec: the Vector Store's "list".
    [chroma_client.list_collections()], as the names in listing order. *)
Definition list_collections : M (list string) :=
  store_call OpList (fun s => (Ok (map fst s), s)).

(** Modelled from the spec: the Vector Store's "create" ("names are
    unique within the store").  [chroma_client.create_collection(name=name)]
    raises when the name is taken.  The handle returned is the name. *)
Definition create_collection (name : string) : M string :=
  store_call (OpCreate name) (fun s =>
    match dict_get name s with
    | Some _ =>
        (Raise (PyExc "UniqueConstraintError"
                  ("Collection " ++ name ++ " already exists")), s)
    | None => (Ok name, s ++ [(name, [])])
    end).

(** Modelled from the spec: the Vector Store's lookup of a collection.
    [chroma_client.get_collection(name=name)] raises when there is no
    such collection, or when the name is not a string. *)
Definition get_collection (name : pyval) : M string :=
  store_call (OpGet name) (fun s =>
    match name with
    | PStr n =>
        match dict_get n s with
        | Some _ => (Ok n, s)
        | None =>
            (Raise (PyExc "ValueError"
                      ("Collection " ++ n ++ " does not exist.")), s)
        end
    | _ => (Raise (PyExc "TypeError" "Expected collection name to be a str"), s)
    end).

(** Modelled from the spec: the Vector Store's "upsert-batch" of records
    of (id, vector, document text, metadata).
    [collection.add(embeddings=.., documents=.., metadatas=.., ids=..)]:
    the four lists must have one length; the records go after those the
    collection already holds. *)
Definition collection_add (collection : string)
  (embeddings : list (list float)) (docs : list string)
  (metas : list metadata) (ids : list string) : M unit :=
  store_call (OpAdd collection (List.length ids)) (fun s =>
    if negb (andb (Nat.eqb (List.length embeddings) (List.length ids))
            (andb (Nat.eqb (List.length docs) (List.length ids))
                  (Nat.eqb (List.length metas) (List.length ids))))
    then (Raise (PyExc "ValueError" "Unequal lengths for fields"), s)
    else
      match dict_get collection s with
      | None =>
          (Raise (PyExc "ValueError"
                    ("Collection " ++ collection ++ " does not exist.")), s)
      | Some old =>
          (Ok tt,
           dict_set collection
             (old ++ make_records ids embeddings docs metas) s)
      end).

(** Modelled from the spec: the Vector Store's "nearest-neighbor query
    by vector with a result count limit"; the search itself is [nearest].
    [collection.query(query_embeddings=.., n_results=n, include=[..])] *)
Definition collection_query (collection : string)
  (query_embeddings : list (list float)) (n_results : nat)
  : M query_result :=
  store_call (OpQuery collection n_results) (fun s =>
    match dict_get collection s with
    | None =>
        (Raise (PyExc "ValueError"
                  ("Collection " ++ collection ++ " does not exist.")), s)
    | Some recs => (nearest recs query_embeddings n_results, s)
    end).

(** *** The embedding provider and the identifier supply *)

(** [model.encode(texts).tolist()] *)
Definition encode (model : list pyval -> outcome (list (list float)))
  (texts : list pyval) : M (list (list float)) :=
  log (EvEncode texts) ;;; lift (model texts).

(** [str(uuid.uuid4())] *)
Definition uuid4_str : M string :=
  fun w =>
    (Ok (uuid4 (uuid_next w)),
     mkWorld (chroma_db w) (S (uuid_next w)) (trace w)).

(** *** POST /chat ([chat_endpoint], main.py lines 49-111) *)

(** The lines one result contributes to [response_parts] (one turn of
    the loop of lines 92-106). *)
Definition result_parts (i : nat)
  (doc : string) (md : option metadata) (distance : float) : list string :=
  let similarity := (1 - distance)%float in
  [ ("**Result " ++ PyStr.str_Z (Z.of_nat (i + 1)) ++ "** (Similarity: "
       ++ PyFloat.format_percent2 similarity ++ ")" ++ PyStr.nl ++ doc)%string ]
  ++ match md with
     | Some ((_ :: _) as items) =>
         let metadata_str :=
           PyStr.join ", "
             (map (fun kv => (fst kv ++ ": " ++ snd kv)%string)
                  (filter (fun kv => negb (String.eqb (fst kv) Object_Text))
                          items)) in
         if String.eqb metadata_str "" then []
         else [ ("Additional info: " ++ metadata_str)%string ]
     | _ => []
     end
  ++ [ "" ].

(** The formatting loop and the final join (lines 91-108). *)
Definition format_results (docs : list string)
  (mds : list (option metadata)) (dists : list float) : string :=
  PyStr.join PyStr.nl
    (flat_map (fun ix =>
                 match ix with
                 | (i, (doc, md, distance)) => result_parts i doc md distance
                 end)
              (enumerate_from 0 (zip3 docs mds dists))).

(** What the handler makes of the answer to its query (lines 87-108):
    the test for an empty answer, the formatting loop and the final
    join. *)
Definition render_results (results : query_result) : outcome ChatResponse :=
  match documents results with
  | [] => Ok (mkChatResponse "No relevant results found for your query.")
  | [] :: _ => Ok (mkChatResponse "No relevant results found for your query.")
  | docs :: _ =>
      match first_item (metadatas results) with
      | Raise e => Raise e
      | Ok mds =>
          match first_item (distances results) with
          | Raise e => Raise e
          | Ok dists => Ok (mkChatResponse (format_results docs mds dists))
          end
      end
  end.

(** The body of the [try] block of [chat_endpoint] (lines 64-108). *)
Definition search (model : list pyval -> outcome (list (list float)))
  (message collection_name : pyval) : M ChatResponse :=
  collections <- list_collections ;;
  match collections with
  | [] =>
      ret (mkChatResponse
             "No data collections available. Please upload a CSV file first.")
  | first :: _ =>
      let collection_name :=
        if negb (truthy collection_name) then PStr first
        else collection_name in
      collection <- get_collection collection_name ;;
      vectors <- encode model [message] ;;
      query_embedding <- lift (first_item vectors) ;;
      results <- collection_query collection [query_embedding] 5 ;;
      lift (render_results results)
  end.

Definition chat_endpoint (request : Request) : M ChatResponse :=
  data <- lift (json request) ;;
  message <- lift (py_get data "message" (PStr "")) ;;
  if negb (truthy message)
  then ret (mkChatResponse "Please provide a message to search.")
  else
    match embedding_model with
    | None =>
        ret (mkChatResponse
               "Embedding model not loaded. Please check the server logs.")
    | Some model =>
        collection_name <- lift (py_get data "collection" PNone) ;;
        try_except (search model message collection_name)
          (fun e => ret (mkChatResponse ("Error searching: " ++ str_exn e)))
    end.

(** *** POST /upload ([upload_file], main.py lines 113-179) *)

(** The metadata of a row (line 153): every column but the text column
    whose cell is not missing, stringified. *)
Definition row_metadata (cols : list string) (row : list cell) : metadata :=
  dict_of_items
    (map (fun cv => (fst cv, str_cell float_repr (snd cv)))
         (filter (fun cv =>
                    andb (negb (String.eqb (fst cv) Object_Text))
                         (notna (snd cv)))
                 (row_items cols row))).

(** The inner loop over the rows of a batch (lines 147-157). *)
Fixpoint prepare_rows (cols : list string) (batch : list (list cell))
  (acc : batch_lists) : M batch_lists :=
  match batch with
  | [] => ret acc
  | row :: batch' =>
      let md := row_metadata cols row in
      text <- lift (row_get cols row Object_Text) ;;
      id <- uuid4_str ;;
      prepare_rows cols batch'
        (mkBatch (b_documents acc ++ [str_cell float_repr text])
                 (b_metadatas acc ++ [md])
                 (b_ids acc ++ [id]))
  end.

(** The name of the collection a file goes to (line 130). *)
Definition derive_collection_name (fname : string) : string :=
  PyStr.lower (PyStr.replace " " "_" (PyStr.replace ".csv" "" fname)).

(** One turn of the batch loop (lines 144-170), for the batch starting
    at row [i].  The counter [processed_records] is written and never
    read; it is left out. *)
Definition process_batch
  (model : list pyval -> outcome (list (list float)))
  (df : DataFrame) (collection : string) (batch_size i : nat) : M unit :=
  let batch_df := slice (rows df) i (i + batch_size) in
  lists <- prepare_rows (columns df) batch_df empty_batch ;;
  embeddings <- encode model (map PStr (b_documents lists)) ;;
  collection_add collection embeddings
    (b_documents lists) (b_metadatas lists) (b_ids lists).

(** The dict returned on success (lines 172-176). *)
Definition upload_summary (collection_name : string) (total_records : nat)
  : UploadResponse :=
  mkUploadResponse collection_name total_records
    ("Successfully uploaded "
       ++ PyStr.str_Z (Z.of_nat total_records)
       ++ " records to collection '" ++ collection_name ++ "'").

(** The body of the [try] block of [upload_file] (lines 122-176).  The
    inner [try] creates the collection and, on any exception, gets it. *)
Definition ingest (model : list pyval -> outcome (list (list float)))
  (batch_size : nat) (f : UploadFile) : M UploadResponse :=
  df <- lift (read_csv (file f)) ;;
  if negb (has_column Object_Text df)
  then raise (HTTPException 400 "CSV must contain 'Object_Text' column")
  else
    let collection_name := derive_collection_name (filename f) in
    collection <-
      try_except (create_collection collection_name)
        (fun _ => get_collection (PStr collection_name)) ;;
    let total_records := List.length (rows df) in
    starts <- lift (py_range 0 total_records batch_size) ;;
    for_each starts (process_batch model df collection batch_size) ;;;
    ret (upload_summary collection_name total_records).

(** [upload_file] with the local constant [batch_size] (line 139) as a
    parameter. *)
Definition upload_file_with (batch_size : nat) (f : UploadFile)
  : M UploadResponse :=
  if negb (PyStr.endswith (filename f) ".csv")
  then raise (HTTPException 400 "Only CSV files are supported")
  else
    match embedding_model with
    | None => raise (HTTPException 500 "Embedding model not loaded")
    | Some model =>
        try_except (ingest model batch_size f)
          (fun e =>
             raise (HTTPException 500
                      ("Error processing file: " ++ str_exn e)))
    end.

(** The handler as written: [batch_size = 100]. *)
Definition upload_file (f : UploadFile) : M UploadResponse :=
  upload_file_with 100 f.

(** The document a row gives: its text cell, stringified (the empty
    string stands in when the row has no such cell, which [prepare_rows]
    never reaches). *)
Definition row_document (cols : list string) (row : list cell) : string :=
  match row_get cols row Object_Text with
  | Ok c => str_cell float_repr c
  | Raise _ => EmptyString
  end.

(** The store once the collection [name] is there: created empty when
    it was missing. *)
Definition ensure_collection (name : string) (s : store) : store :=
  match dict_get name s with
  | Some _ => s
  | None => s ++ [(name, [])]
  end.

(** [recs] are the records of the rows [batch], in order, the first
    identifier being the one drawn at position [u] of the supply. *)
Definition records_of (cols : list string) (u : nat)
  (batch : list (list cell)) (recs : list record) : Prop :=
  map rec_document recs = map (row_document cols) batch
  /\ map rec_metadata recs = map (row_metadata cols) batch
  /\ map rec_id recs = map uuid4 (seq u (List.length batch)).

(** An event that is neither a call to the provider nor a write of
    records to the store. *)
Definition no_embedding_no_write (ev : event) : Prop :=
  match ev with
  | EvEncode _ => False
  | EvStore (OpAdd _ _) => False
  | _ => True
  end.

(** The value [data.get("message", "")] of a dict body. *)
Definition message_of (kv : list (string * pyval)) : pyval :=
  match dict_get "message" kv with Some v => v | None => PStr "" end.

(** The value [data.get("collection", None)] of a dict body. *)
Definition collection_of (kv : list (string * pyval)) : pyval :=
  match dict_get "collection" kv with Some v => v | None => PNone end.

(** *** Collection management (main.py lines 181-204) *)

(** Failures of the store on the calls of the management endpoints that
    do not depend on its content. *)
Variable admin_fault : list event -> admin_op -> option exn.

(** Modelled from the spec: a call to the Vector Store made by a
    management endpoint ("count", "delete"): either the store faults or
    [run] is applied to the stored collections.  These calls are not
    entered in the log of the two pipelines. *)
Definition admin_call (A : Type) (op : admin_op)
  (run : store -> outcome A * store) : M A :=
  fun w =>
    match admin_fault (trace w) op with
    | Some e => (Raise e, w)
    | None =>
        let (o, s') := run (chroma_db w) in
        (o, mkWorld s' (uuid_next w) (trace w))
    end.

(** Modelled from the spec: the Vector Store's "count".
    [collection.count()] *)
Definition count_call (collection : string) : M nat :=
  admin_call (OpCount collection) (fun s =>
    match dict_get collection s with
    | Some recs => (Ok (List.length recs), s)
    | None =>
        (Raise (PyExc "ValueError"
                  ("Collection " ++ collection ++ " does not exist.")), s)
    end).

(** Modelled from the spec: the Vector Store's "delete", which raises
    when there is no such collection.
    [chroma_client.delete_collection(name=name)] *)
Definition client_delete_collection (name : string) : M unit :=
  admin_call (OpDelete name) (fun s =>
    match dict_get name s with
    | Some _ => (Ok tt, dict_remove name s)
    | None =>
        (Raise (PyExc "ValueError"
                  ("Collection " ++ name ++ " does not exist.")), s)
    end).

(** The loop of [get_collections] (lines 187-192). *)
Fixpoint count_each (collections : list string) (result : list CollectionInfo)
  : M (list CollectionInfo) :=
  match collections with
  | [] => ret result
  | collection :: collections' =>
      n <- count_call collection ;;
      count_each collections' (result ++ [mkCollectionInfo collection n])
  end.

(** GET /collections (lines 181-196). *)
Definition get_collections : M (list CollectionInfo) :=
  try_except
    (collections <- list_collections ;;
     count_each collections [])
    (fun e =>
       raise (HTTPException 500
                ("Error getting collections: " ++ str_exn e))).

(** DELETE /collections/{collection_name} (lines 198-204). *)
Definition delete_collection (collection_name : string) : M MessageResponse :=
  try_except
    (client_delete_collection collection_name ;;;
     ret (mkMessageResponse
            ("Collection '" ++ collection_name ++ "' deleted successfully")))
    (fun e =>
       raise (HTTPException 500
                ("Error deleting collection: " ++ str_exn e))).

(** The exception of the first count, in the order of [names], that
    the store fails, when the calls made before are [t]. *)
Fixpoint first_count_fault (t : list event) (names : list string)
  : option exn :=
  match names with
  | [] => None
  | name :: names' =>
      match admin_fault t (OpCount name) with
      | Some e => Some e
      | None => first_count_fault t names'
      end
  end.

(** The exception of the first call of a listing that the store fails:
    that of the call that lists the collections or else that of the
    first count that fails, in listing order; [None] when no call
    fails. *)
Definition listing_fault (w : world) : option exn :=
  match store_fault (trace w) OpList with
  | Some e => Some e
  | None =>
      first_count_fault (trace w ++ [EvStore OpList]) (map fst (chroma_db w))
  end.

(** *** The batches of an upload *)

(** The rows of the batch that starts at row [i] (line 144). *)
Definition batch_at (df : DataFrame) (batch_size i : nat) : list (list cell) :=
  slice (rows df) i (i + batch_size).

(** The batches the loop of lines 143-144 goes through, in order. *)
Definition batches (batch_size : nat) (df : DataFrame)
  : list (list (list cell)) :=
  map (batch_at df batch_size)
      (range_from (List.length (rows df)) 0 (List.length (rows df))
         batch_size).

(** The texts sent to the provider for a batch (lines 155, 160). *)
Definition batch_texts (cols : list string) (batch : list (list cell))
  : list pyval :=
  map PStr (map (row_document cols) batch).

(** The two calls a batch makes: one to the provider, one to the store. *)
Definition batch_events (cols : list string) (name : string)
  (batch : list (list cell)) : list event :=
  [ EvEncode (batch_texts cols batch);
    EvStore (OpAdd name (List.length batch)) ].

(** The provider answers a batch with one vector per row. *)
Definition answers (model : list pyval -> outcome (list (list float)))
  (cols : list string) (batch : list (list cell)) : Prop :=
  exists vectors,
    model (batch_texts cols batch) = Ok vectors
    /\ List.length vectors = List.length batch.

(** The calls that make sure the collection is there (lines 133-136). *)
Definition create_events (name : string) (s : store) : list event :=
  match dict_get name s with
  | None => [EvStore (OpCreate name)]
  | Some _ => [EvStore (OpCreate name); EvStore (OpGet (PStr name))]
  end.

(** ** Facts about the chat handler *)

Ltac run_monad :=
  unfold bind, ret, raise, lift, try_except, log; simpl.

Lemma py_get_dict : forall data key default v,
  py_get data key default = Ok v -> exists kv, data = PDict kv.
Proof.
  intros data key default v H.
  destruct data; simpl in H; try discriminate.
  eexists; reflexivity.
Qed.

(** A falsy message ends the handler at once, whatever the state of
    the model and of the store. *)
Lemma chat_falsy_message : forall request data message w,
  json request = Ok data ->
  py_get data "message" (PStr "") = Ok message ->
  truthy message = false ->
  chat_endpoint request w
  = (Ok (mkChatResponse "Please provide a message to search."), w).
Proof.
  intros request data message w Hj Hm Ht.
  unfold chat_endpoint. run_monad.
  rewrite Hj, Hm, Ht. reflexivity.
Qed.

(** C9: a body without the "message" key is answered like an empty
    message, "Please provide a message to search.", and the world is
    left as it was: no call reaches the provider or the store. *)
Theorem chat_missing_message_key : forall kv w,
  dict_get "message" kv = None ->
  chat_endpoint (mkRequest (Ok (PDict kv))) w
  = (Ok (mkChatResponse "Please provide a message to search."), w).
Proof.
  intros kv w Hnone.
  apply chat_falsy_message with (data := PDict kv) (message := PStr "").
  - reflexivity.
  - simpl. now rewrite Hnone.
  - reflexivity.
Qed.

(** C8: the three preconditions are tested in the order message, model,
    collections; each has its own text; an empty message is answered
    before any call to the provider or the store. *)
Theorem chat_preconditions_in_order : forall request data message w,
  json request = Ok data ->
  py_get data "message" (PStr "") = Ok message ->
  (truthy message = false ->
     chat_endpoint request w
     = (Ok (mkChatResponse "Please provide a message to search."), w))
  /\ (message = PStr "" ->
     chat_endpoint request w
     = (Ok (mkChatResponse "Please provide a message to search."), w))
  /\ (truthy message = true -> embedding_model = None ->
     chat_endpoint request w
     = (Ok (mkChatResponse
              "Embedding model not loaded. Please check the server logs."),
        w))
  /\ (truthy message = true ->
      (exists model, embedding_model = Some model) ->
      store_fault (trace w) OpList = None ->
      chroma_db w = [] ->
      chat_endpoint request w
      = (Ok (mkChatResponse
               "No data collections available. Please upload a CSV file first."),
         mkWorld [] (uuid_next w) (trace w ++ [EvStore OpList])))
  /\ "Please provide a message to search."
       <> "Embedding model not loaded. Please check the server logs."
  /\ "Please provide a message to search."
       <> "No data collections available. Please upload a CSV file first."
  /\ "Embedding model not loaded. Please check the server logs."
       <> "No data collections available. Please upload a CSV file first.".
Proof.
  intros request data message w Hj Hm.
  destruct (py_get_dict _ _ _ Hm) as [kv ->].
  repeat split; try discriminate.
  - intros Ht. eapply chat_falsy_message; eauto.
  - intros ->. eapply chat_falsy_message; eauto.
  - intros Ht Hnone.
    unfold chat_endpoint. run_monad.
    rewrite Hj. simpl in *. injection Hm as Hm. rewrite Hm, Ht, Hnone.
    reflexivity.
  - intros Ht [model Hsome] Hfault Hempty.
    unfold chat_endpoint. run_monad.
    rewrite Hj. simpl in *. injection Hm as Hm. rewrite Hm, Ht, Hsome.
    simpl. unfold search, list_collections, store_call. run_monad.
    rewrite Hfault, Hempty. reflexivity.
Qed.

(** C7, as amended: when the body decodes to a JSON object the handler
    returns normally (status 200) with a response text, and an
    exception raised by the search is turned into that text. *)
Theorem chat_object_body_is_200 : forall request kv w,
  json request = Ok (PDict kv) ->
  exists text w',
    chat_endpoint request w = (Ok (mkChatResponse text), w')
    /\ http_status (fst (chat_endpoint request w)) = 200%Z
    /\ (forall model e w1,
          embedding_model = Some model ->
          truthy (message_of kv) = true ->
          search model (message_of kv) (collection_of kv) w = (Raise e, w1) ->
          text = ("Error searching: " ++ str_exn e)%string /\ w' = w1).
Proof.
  intros request kv w Hj.
  unfold chat_endpoint. run_monad. rewrite Hj. simpl.
  fold (message_of kv). fold (collection_of kv).
  destruct (truthy (message_of kv)) eqn:Ht; simpl.
  - destruct embedding_model as [model|] eqn:Hm.
    + destruct (search model (message_of kv) (collection_of kv) w)
        as [[[text]|e] w1] eqn:Hs.
      * exists text, w1. split; [reflexivity | split; [reflexivity |]].
        intros model' e' w2 Heq _ Hs'. injection Heq as <-.
        rewrite Hs in Hs'. discriminate.
      * exists ("Error searching: " ++ str_exn e)%string, w1. split; [reflexivity | split; [reflexivity |]].
        intros model' e' w2 Heq _ Hs'. injection Heq as <-.
        rewrite Hs in Hs'. injection Hs' as <- <-. split; reflexivity.
    + eexists _, w. split; [reflexivity | split; [reflexivity |]].
      intros; discriminate.
  - eexists _, w. split; [reflexivity | split; [reflexivity |]].
    intros; discriminate.
Qed.

(** ** Facts about strings and joins *)

Lemma append_assoc : forall a b c : string,
  ((a ++ b) ++ c)%string = (a ++ (b ++ c))%string.
Proof.
  induction a as [|x a IH]; intros b c; simpl; [reflexivity|].
  now rewrite IH.
Qed.

Lemma append_nil_r : forall a : string, (a ++ "")%string = a.
Proof.
  induction a as [|x a IH]; simpl; [reflexivity|]. now rewrite IH.
Qed.

Lemma join_cons2 : forall sep x y l,
  PyStr.join sep (x :: y :: l)
  = (x ++ sep ++ PyStr.join sep (y :: l))%string.
Proof. reflexivity. Qed.

(** Joining two non-empty lists of parts. *)
Lemma join_app : forall sep l1 l2,
  l1 <> [] -> l2 <> [] ->
  PyStr.join sep (l1 ++ l2)
  = (PyStr.join sep l1 ++ sep ++ PyStr.join sep l2)%string.
Proof.
  intros sep l1 l2 H1 H2.
  induction l1 as [|x l1 IH]; [congruence|].
  destruct l1 as [|y l1].
  - destruct l2 as [|z l2]; [congruence|]. reflexivity.
  - change ((x :: y :: l1) ++ l2) with (x :: y :: (l1 ++ l2)).
    rewrite !join_cons2.
    change (y :: l1 ++ l2) with ((y :: l1) ++ l2).
    rewrite IH by discriminate.
    now rewrite !append_assoc.
Qed.

(** A join whose first part is not empty is not empty. *)
Lemma join_nonempty : forall sep x l,
  x <> "" -> PyStr.join sep (x :: l) <> "".
Proof.
  intros sep x l Hx.
  destruct x as [|c x]; [congruence|].
  destruct l; simpl; discriminate.
Qed.

Lemma pair_text_nonempty : forall k v : string,
  (k ++ ": " ++ v)%string <> "".
Proof. intros [|c k] v; simpl; discriminate. Qed.

(** The metadata line is empty exactly when no metadata remains. *)
Lemma metadata_line_empty : forall items : metadata,
  String.eqb
    (PyStr.join ", " (map (fun kv => (fst kv ++ ": " ++ snd kv)%string) items))
    "" = match items with [] => true | _ :: _ => false end.
Proof.
  intros [|kv items]; [reflexivity|].
  apply String.eqb_neq. simpl map.
  apply join_nonempty, pair_text_nonempty.
Qed.

(** The first part of a result is the header line and the document. *)
Lemma header_part : forall i doc distance,
  ("**Result " ++ PyStr.str_Z (Z.of_nat (i + 1)) ++ "** (Similarity: "
     ++ PyFloat.format_percent2 (1 - distance)%float ++ ")"
     ++ PyStr.nl ++ doc)%string
  = (Spec.header (i + 1) distance ++ PyStr.nl ++ doc)%string.
Proof.
  intros. unfold Spec.header. now rewrite !append_assoc.
Qed.

(** The parts of one result, joined by line feeds, are its entry
    followed by an empty line. *)
Lemma result_parts_entry : forall i doc md distance,
  PyStr.join PyStr.nl (result_parts i doc md distance)
  = (Spec.entry (i + 1) doc md distance ++ PyStr.nl)%string.
Proof.
  intros i doc md distance.
  unfold result_parts, Spec.entry. cbv zeta.
  rewrite header_part.
  generalize (Spec.header (i + 1) distance) as h. intros h.
  destruct md as [[|kv items]|]; unfold Spec.other_metadata.
  - cbn [app PyStr.join String.concat filter].
    now rewrite !append_assoc, append_nil_r.
  - rewrite metadata_line_empty.
    destruct (filter _ (kv :: items)) as [|kv' rest] eqn:Hf.
    + cbn [app PyStr.join String.concat].
      now rewrite !append_assoc, append_nil_r.
    + cbn [app PyStr.join String.concat].
      now rewrite !append_assoc, append_nil_r.
  - cbn [app PyStr.join String.concat].
    now rewrite !append_assoc, append_nil_r.
Qed.

Lemma result_parts_nonempty : forall i doc md distance,
  result_parts i doc md distance <> [].
Proof. intros; unfold result_parts; discriminate. Qed.

(** The formatting loop from index [i] on, against the entries from
    rank [i + 1] on. *)
Lemma format_from : forall results i,
  results <> [] ->
  PyStr.join PyStr.nl
    (flat_map (fun ix =>
                 match ix with
                 | (i, (doc, md, distance)) => result_parts i doc md distance
                 end)
              (enumerate_from i results))
  = (PyStr.join (PyStr.nl ++ PyStr.nl) (Spec.entries_from (i + 1) results)
       ++ PyStr.nl)%string.
Proof.
  set (f := fun ix : nat * (string * option metadata * float) =>
              match ix with
              | (i, (doc, md, distance)) => result_parts i doc md distance
              end).
  assert (Hstep : forall i x l,
             flat_map f (enumerate_from i (x :: l))
             = f (i, x) ++ flat_map f (enumerate_from (S i) l))
    by reflexivity.
  assert (Hf : forall i x, f (i, x) <> [])
    by (intros i [[d m] x]; apply result_parts_nonempty).
  induction results as [|[[doc md] distance] results IH]; intros i Hne;
    [congruence|].
  rewrite Hstep.
  destruct results as [|r results].
  - cbn [enumerate_from flat_map]. rewrite app_nil_r.
    unfold f. apply result_parts_entry.
  - rewrite join_app.
    + rewrite (IH (S i)) by discriminate.
      unfold f at 1. rewrite result_parts_entry.
      replace (S i + 1) with (S (i + 1)) by lia.
      destruct r as [[d m] x].
      cbn [Spec.entries_from]. rewrite join_cons2.
      now rewrite !append_assoc.
    + apply Hf.
    + rewrite Hstep. intros Happ. apply app_eq_nil in Happ.
      destruct Happ as [Happ _]. revert Happ. apply Hf.
Qed.

Lemma zip3_nonempty : forall (docs : list string)
  (mds : list (option metadata)) (dists : list float),
  docs <> [] ->
  List.length mds = List.length docs ->
  List.length dists = List.length docs ->
  zip3 docs mds dists <> [].
Proof.
  intros [|d docs] [|m mds] [|x dists] Hne Hm Hd;
    try congruence; try discriminate.
Qed.

Lemma zip3_length : forall (docs : list string)
  (mds : list (option metadata)) (dists : list float),
  List.length mds = List.length docs ->
  List.length dists = List.length docs ->
  List.length (zip3 docs mds dists) = List.length docs.
Proof.
  induction docs as [|d docs IH]; intros [|m mds] [|x dists] Hm Hd;
    simpl in *; try discriminate; try reflexivity.
  f_equal. apply IH; lia.
Qed.

Lemma entries_from_length : forall results rank,
  List.length (Spec.entries_from rank results) = List.length results.
Proof.
  induction results as [|[[d m] x] results IH]; intros rank; simpl;
    [reflexivity|]. now rewrite IH.
Qed.

(** *** The log of calls *)

Lemma emits_ret : forall P (A : Type) (a : A), emits P (ret a).
Proof.
  intros P A a w. exists []. simpl. split; [now rewrite app_nil_r | constructor].
Qed.

Lemma emits_raise : forall P (A : Type) e, emits P (@raise A e).
Proof.
  intros P A e w. exists []. simpl. split; [now rewrite app_nil_r | constructor].
Qed.

Lemma emits_lift : forall P (A : Type) (o : outcome A), emits P (lift o).
Proof.
  intros P A o w. exists []. simpl. split; [now rewrite app_nil_r | constructor].
Qed.

Lemma emits_bind : forall P (A B : Type) (m : M A) (k : A -> M B),
  emits P m -> (forall a, emits P (k a)) -> emits P (bind m k).
Proof.
  intros P A B m k Hm Hk w. unfold bind.
  destruct (Hm w) as [evs [Ht Hp]].
  destruct (m w) as [[a|e] w1]; simpl in Ht.
  - destruct (Hk a w1) as [evs' [Ht' Hp']].
    exists (evs ++ evs'). rewrite Ht', Ht, app_assoc.
    split; [reflexivity | now apply Forall_app].
  - exists evs. now split.
Qed.

Lemma emits_try : forall P (A : Type) (m : M A) (h : exn -> M A),
  emits P m -> (forall e, emits P (h e)) -> emits P (try_except m h).
Proof.
  intros P A m h Hm Hh w. unfold try_except.
  destruct (Hm w) as [evs [Ht Hp]].
  destruct (m w) as [[a|e] w1]; simpl in Ht.
  - exists evs. now split.
  - destruct (Hh e w1) as [evs' [Ht' Hp']].
    exists (evs ++ evs'). rewrite Ht', Ht, app_assoc.
    split; [reflexivity | now apply Forall_app].
Qed.

Lemma emits_store_call : forall (P : event -> Prop) (A : Type) op
  (run : store -> outcome A * store),
  P (EvStore op) -> emits P (store_call op run).
Proof.
  intros P A op run Hop w. exists [EvStore op]. unfold store_call.
  destruct (store_fault (trace w) op); [| destruct (run (chroma_db w))];
    simpl; (split; [reflexivity | now constructor]).
Qed.

Lemma emits_encode : forall (P : event -> Prop) model texts,
  P (EvEncode texts) -> emits P (encode model texts).
Proof.
  intros P model texts Hp w. exists [EvEncode texts].
  unfold encode. run_monad. split; [reflexivity | now constructor].
Qed.

Ltac emits_step :=
  first
    [ apply emits_ret | apply emits_raise | apply emits_lift
    | apply emits_store_call; simpl; trivial
    | apply emits_encode; simpl; trivial
    | apply emits_bind; [| intros ]
    | apply emits_try; [| intros ]
    | match goal with
      | |- emits _ (match ?x with _ => _ end) => destruct x
      end ].

(** Every query the chat handler sends to the store asks for five
    results. *)
Lemma chat_queries_five : forall request,
  emits (asks_for 5) (chat_endpoint request).
Proof.
  intros request.
  unfold chat_endpoint, search, list_collections, get_collection,
    collection_query.
  repeat emits_step.
Qed.

(** The collection the handler queries: the one named in the request,
    or the first one listed when the request names none. *)
Lemma chat_renders_answer :
  forall model kv w first recs0 rest name recs vec vecs results,
  embedding_model = Some model ->
  truthy (message_of kv) = true ->
  (forall t op, store_fault t op = None) ->
  chroma_db w = (first, recs0) :: rest ->
  (if negb (truthy (collection_of kv)) then PStr first else collection_of kv)
  = PStr name ->
  dict_get name (chroma_db w) = Some recs ->
  model [message_of kv] = Ok (vec :: vecs) ->
  nearest recs [vec] 5 = Ok results ->
  fst (chat_endpoint (mkRequest (Ok (PDict kv))) w)
  = match render_results results with
    | Ok r => Ok r
    | Raise e => Ok (mkChatResponse ("Error searching: " ++ str_exn e))
    end.
Proof.
  intros model kv w first recs0 rest name recs vec vecs results
    Hmodel Hmsg Hup Hdb Htarget Hrecs Henc Hnear.
  unfold chat_endpoint. run_monad.
  fold (message_of kv). fold (collection_of kv).
  rewrite Hmsg, Hmodel. cbn [negb].
  unfold search, list_collections, get_collection, encode, collection_query,
    store_call.
  run_monad. rewrite Hup. rewrite Hdb in *. cbn [map fst].
  rewrite Htarget.
  repeat (progress (cbn [map fst snd negb first_item
                          chroma_db trace uuid_next];
                    rewrite ?Hup, ?Hrecs, ?Henc, ?Hnear)).
  destruct (render_results results); reflexivity.
Qed.

(** *** The percentage shown for a similarity *)

Lemma round_half_even_nearest : forall num den,
  (0 <= num)%Z -> (0 < den)%Z ->
  (0 <= PyFloat.round_half_even num den)%Z
  /\ (2 * Z.abs (PyFloat.round_half_even num den * den - num) <= den)%Z
  /\ ((2 * Z.abs (PyFloat.round_half_even num den * den - num) = den)%Z ->
      Z.even (PyFloat.round_half_even num den) = true).
Proof using Type.
  clear.
  intros num den Hnum Hden. unfold PyFloat.round_half_even.
  pose proof (Z.div_mod num den ltac:(lia)) as Hdiv.
  pose proof (Z.mod_pos_bound num den Hden) as Hmod.
  pose proof (Z.div_pos num den Hnum Hden) as Hq.
  set (q := (num / den)%Z) in *. set (r := (num mod den)%Z) in *.
  assert (Hn : (q * den - num = - r)%Z) by lia.
  assert (Hs : ((q + 1) * den - num = den - r)%Z) by lia.
  destruct (Z.compare_spec (2 * r) den) as [Heq | Hlt | Hgt].
  - destruct (Z.even q) eqn:Heven.
    + rewrite Hn. split; [lia|]. split; [lia|]. now intros _.
    + rewrite Hs. split; [lia|]. split; [lia|]. intros _.
      rewrite Z.add_1_r, Z.even_succ, <- Z.negb_even, Heven. reflexivity.
  - rewrite Hn. split; [lia|]. split; lia.
  - rewrite Hs. split; [lia|]. split; lia.
Qed.

Lemma two_digits_digits : forall n,
  (0 <= n < 100)%Z ->
  PyFloat.two_digits n = (Spec.digit (n / 10) ++ Spec.digit (n mod 10))%string.
Proof using Type.
  clear.
  intros n Hn.
  assert (H : forallb
                (fun k =>
                   String.eqb (PyFloat.two_digits (Z.of_nat k))
                     (Spec.digit (Z.of_nat k / 10)
                        ++ Spec.digit (Z.of_nat k mod 10)))
                (seq 0 100) = true)
    by (vm_compute; reflexivity).
  rewrite forallb_forall in H. specialize (H (Z.to_nat n)).
  rewrite Z2Nat.id in H by lia.
  apply String.eqb_eq, H, in_seq. lia.
Qed.

(** What [format(x, '.2f')] prints is [x] with two decimal places. *)
Lemma format_fixed2_shown : forall p,
  Spec.two_decimals p (PyFloat.format_fixed2 p).
Proof using Type.
  clear.
  intros p. unfold Spec.two_decimals, PyFloat.format_fixed2.
  destruct (Prim2SF p) as [negative | negative | | negative m e];
    try reflexivity; [now destruct negative|].
  exists (PyFloat.hundredths m e).
  assert (Hnear : Spec.nearest_hundredths m e (PyFloat.hundredths m e)).
  { unfold Spec.nearest_hundredths, PyFloat.hundredths.
    destruct (0 <=? e)%Z eqn:He.
    - apply Z.leb_le in He. split; [| reflexivity].
      pose proof (Z.pow_nonneg 2 e ltac:(lia)). nia.
    - apply Z.leb_gt in He.
      assert (Hden : (0 < 2 ^ (- e))%Z) by (apply Z.pow_pos_nonneg; lia).
      destruct (@round_half_even_nearest (Z.pos m * 100) (2 ^ (- e))
                  ltac:(lia) Hden) as [H0 [H1 H2]].
      split; [exact H0 | split; [exact H1 | exact H2]]. }
  split; [exact Hnear|].
  destruct Hnear as [H0 _].
  set (h := PyFloat.hundredths m e) in *.
  rewrite two_digits_digits by (apply Z.mod_pos_bound; lia).
  replace (h mod 100 / 10)%Z with (h / 10 mod 10)%Z
    by (Z.to_euclidean_division_equations; lia).
  replace (h mod 100 mod 10)%Z with (h mod 10)%Z
    by (Z.to_euclidean_division_equations; lia).
  reflexivity.
Qed.

(** What [format(x, '.2%')] prints is [x] as a percentage with two
    decimal places. *)
Lemma format_percent2_shown : forall x,
  Spec.is_percent2 x (PyFloat.format_percent2 x).
Proof using Type.
  clear.
  intros x. exists (PyFloat.format_fixed2 (x * 100)%float).
  split; [apply format_fixed2_shown | reflexivity].
Qed.

(** C6: an answer of the store with at least one document and aligned
    metadata and distances is rendered as the entries of the results
    in the order given, ranks counted from 1, the metadata line present
    only when metadata other than the text key remains, a blank line
    between entries; that text is the response of the handler when the
    store gives this answer to its query; there are as many entries as
    results, and the handler asks the store for five results; the
    header of an entry shows, after the rank, the similarity
    1 - distance as a percentage with two decimal places: the number of
    percents rounded to the nearest hundredth, a point before its last
    two digits, and a percent sign. *)
Theorem chat_response_format :
  forall results docs mds dists rest1 rest2 rest3,
  documents results = docs :: rest1 ->
  docs <> [] ->
  metadatas results = mds :: rest2 ->
  distances results = dists :: rest3 ->
  List.length mds = List.length docs ->
  List.length dists = List.length docs ->
  render_results results
  = Ok (mkChatResponse (Spec.response_text (zip3 docs mds dists)))
  /\ (forall model kv w first recs0 rest name recs vec vecs,
        embedding_model = Some model ->
        truthy (message_of kv) = true ->
        (forall t op, store_fault t op = None) ->
        chroma_db w = (first, recs0) :: rest ->
        (if negb (truthy (collection_of kv)) then PStr first
         else collection_of kv) = PStr name ->
        dict_get name (chroma_db w) = Some recs ->
        model [message_of kv] = Ok (vec :: vecs) ->
        nearest recs [vec] 5 = Ok results ->
        fst (chat_endpoint (mkRequest (Ok (PDict kv))) w)
        = Ok (mkChatResponse (Spec.response_text (zip3 docs mds dists))))
  /\ List.length (Spec.entries_from 1 (zip3 docs mds dists))
     = List.length docs
  /\ (forall request, emits (asks_for 5) (chat_endpoint request))
  /\ (forall rank distance,
        exists percent,
          Spec.header rank distance
          = ("**Result " ++ PyStr.str_Z (Z.of_nat rank)
               ++ "** (Similarity: " ++ percent ++ ")")%string
          /\ Spec.is_percent2 (1 - distance)%float percent).
Proof.
  intros results docs mds dists rest1 rest2 rest3 Hd Hne Hm Hx Hlm Hlx.
  assert (Hrender : render_results results
                    = Ok (mkChatResponse
                            (Spec.response_text (zip3 docs mds dists)))).
  { unfold render_results. rewrite Hd, Hm, Hx.
    destruct docs as [|d docs]; [congruence|].
    cbn [first_item]. unfold format_results, Spec.response_text.
    rewrite (format_from (results := zip3 (d :: docs) mds dists) 0);
      [reflexivity | now apply zip3_nonempty]. }
  split; [exact Hrender|]. split; [| split; [| split]].
  - intros model kv w first recs0 rest name recs vec vecs
      Hmodel Hmsg Hup Hdb Htarget Hrecs Henc Hnear.
    rewrite (@chat_renders_answer model kv w first recs0 rest name recs
               vec vecs results Hmodel Hmsg Hup Hdb Htarget Hrecs Henc Hnear).
    now rewrite Hrender.
  - rewrite entries_from_length. now apply zip3_length.
  - apply chat_queries_five.
  - intros rank distance.
    exists (PyFloat.format_percent2 (1 - distance)%float).
    split; [reflexivity | apply format_percent2_shown].
Qed.

(** ** Facts about the upload handler *)

Lemma dict_get_combine : forall (cols : list string) (row : list cell) col,
  existsb (String.eqb col) cols = true ->
  List.length row = List.length cols ->
  exists c, dict_get col (combine cols row) = Some c.
Proof.
  induction cols as [|k cols IH]; intros row col Hin Hlen;
    [discriminate|].
  destruct row as [|c row]; [discriminate|].
  simpl in *. destruct (String.eqb col k).
  - now exists c.
  - apply IH; [assumption | lia].
Qed.

Lemma row_get_ok : forall cols row,
  existsb (String.eqb Object_Text) cols = true ->
  List.length row = List.length cols ->
  exists c, row_get cols row Object_Text = Ok c.
Proof.
  intros cols row Hin Hlen. unfold row_get, row_items.
  destruct (dict_get_combine cols row Object_Text Hin Hlen) as [c ->].
  now exists c.
Qed.

(** The inner loop on well-formed rows: one document, one metadata
    mapping and one fresh identifier per row, in row order. *)
Lemma prepare_rows_ok : forall cols batch acc w,
  existsb (String.eqb Object_Text) cols = true ->
  Forall (fun r => List.length r = List.length cols) batch ->
  prepare_rows cols batch acc w
  = (Ok (mkBatch
           (b_documents acc ++ map (row_document cols) batch)
           (b_metadatas acc ++ map (row_metadata cols) batch)
           (b_ids acc ++ map uuid4 (seq (uuid_next w) (List.length batch)))),
     mkWorld (chroma_db w) (uuid_next w + List.length batch) (trace w)).
Proof.
  intros cols batch. induction batch as [|row batch IH];
    intros acc w Hcol Hrows.
  - simpl. rewrite !app_nil_r, Nat.add_0_r. destruct acc, w; reflexivity.
  - inversion Hrows as [|? ? Hrow Hrest]; subst.
    destruct (row_get_ok cols row Hcol Hrow) as [c Hc].
    cbn [prepare_rows]. unfold bind at 1, lift at 1. rewrite Hc.
    unfold bind at 1, uuid4_str at 1.
    rewrite IH by assumption. cbn [b_documents b_metadatas b_ids].
    cbn [chroma_db uuid_next trace List.length map seq].
    unfold row_document at 2. rewrite Hc.
    rewrite <- !app_assoc. cbn [app].
    now rewrite Nat.add_succ_r.
Qed.

(** *** Dicts *)

Lemma dict_get_set_same : forall (A : Type) k (v : A) d,
  dict_get k (dict_set k v d) = Some v.
Proof.
  intros A k v d. induction d as [|[k' v'] d IH]; simpl.
  - now rewrite String.eqb_refl.
  - destruct (String.eqb k k') eqn:E; simpl.
    + now rewrite String.eqb_refl.
    + now rewrite E.
Qed.

Lemma dict_get_set_other : forall (A : Type) k k' (v : A) d,
  k' <> k -> dict_get k' (dict_set k v d) = dict_get k' d.
Proof.
  intros A k k' v d Hne. apply String.eqb_neq in Hne.
  induction d as [|[k0 v0] d IH]; simpl.
  - now rewrite Hne.
  - destruct (String.eqb k k0) eqn:E; simpl.
    + apply String.eqb_eq in E. subst k0. now rewrite Hne.
    + now rewrite IH.
Qed.

Lemma dict_set_set : forall (A : Type) k (v1 v2 : A) d,
  dict_set k v2 (dict_set k v1 d) = dict_set k v2 d.
Proof.
  intros A k v1 v2 d. induction d as [|[k' v'] d IH]; simpl.
  - now rewrite String.eqb_refl.
  - destruct (String.eqb k k') eqn:E; simpl.
    + now rewrite String.eqb_refl.
    + now rewrite E, IH.
Qed.

Lemma dict_set_keys : forall (A : Type) k (v old : A) d,
  dict_get k d = Some old -> map fst (dict_set k v d) = map fst d.
Proof.
  intros A k v old d. induction d as [|[k' v'] d IH]; simpl; intros H.
  - discriminate.
  - destruct (String.eqb k k') eqn:E; simpl.
    + apply String.eqb_eq in E. now subst.
    + now rewrite IH.
Qed.

Lemma dict_get_app_new : forall (A : Type) k k' (v : A) d,
  dict_get k d = None ->
  dict_get k' (d ++ [(k, v)])
  = if String.eqb k' k then Some v else dict_get k' d.
Proof.
  intros A k k' v d. induction d as [|[k0 v0] d IH]; simpl; intros H.
  - reflexivity.
  - destruct (String.eqb k k0) eqn:E; [discriminate|].
    destruct (String.eqb k' k0) eqn:E'.
    + destruct (String.eqb k' k) eqn:E''; [|reflexivity].
      apply String.eqb_eq in E', E''. subst.
      now rewrite String.eqb_refl in E.
    + now apply IH.
Qed.

Lemma dict_set_same_value : forall (A : Type) k (v : A) d,
  dict_get k d = Some v -> dict_set k v d = d.
Proof.
  intros A k v d. induction d as [|[k' v'] d IH]; simpl; intros H.
  - discriminate.
  - destruct (String.eqb k k') eqn:E.
    + apply String.eqb_eq in E. injection H as ->. now subst.
    + now rewrite IH.
Qed.

Lemma dict_get_none_in : forall (A : Type) k (d : list (string * A)),
  dict_get k d = None <-> ~ In k (map fst d).
Proof.
  intros A k d. induction d as [|[k' v] d IH]; simpl.
  - tauto.
  - destruct (String.eqb k k') eqn:E.
    + apply String.eqb_eq in E. subst. split; [discriminate | tauto].
    + apply String.eqb_neq in E. rewrite IH. split.
      * intros H [Hk | Hin]; [congruence | tauto].
      * tauto.
Qed.

Lemma dict_set_new : forall (A : Type) k (v : A) d,
  ~ In k (map fst d) -> dict_set k v d = d ++ [(k, v)].
Proof.
  intros A k v d. induction d as [|[k' v'] d IH]; simpl; intros Hn.
  - reflexivity.
  - destruct (String.eqb k k') eqn:E.
    + apply String.eqb_eq in E. subst. tauto.
    + rewrite IH; [reflexivity | tauto].
Qed.

(** A dict built from items with distinct keys lists the items. *)
Lemma dict_of_items_nodup : forall (A : Type) (items : list (string * A)),
  NoDup (map fst items) -> dict_of_items items = items.
Proof.
  intros A items. unfold dict_of_items.
  enough (H : forall acc,
             NoDup (map fst (acc ++ items)) ->
             fold_left (fun d kv => dict_set (fst kv) (snd kv) d) items acc
             = acc ++ items)
    by (intros Hn; apply (H [] Hn)).
  induction items as [|[k v] items IH]; intros acc Hn; simpl.
  - now rewrite app_nil_r.
  - rewrite dict_set_new.
    + rewrite IH; rewrite <- app_assoc; [reflexivity | exact Hn].
    + rewrite map_app in Hn. simpl in Hn.
      apply NoDup_remove_2 in Hn. intros Hin. apply Hn.
      apply in_app_iff. now left.
Qed.

(** *** Lists *)

Lemma Forall_firstn : forall (A : Type) (P : A -> Prop) n xs,
  Forall P xs -> Forall P (firstn n xs).
Proof.
  intros A P n. induction n as [|n IH]; intros xs H; [constructor|].
  destruct H; simpl; constructor; auto.
Qed.

Lemma Forall_skipn : forall (A : Type) (P : A -> Prop) n xs,
  Forall P xs -> Forall P (skipn n xs).
Proof.
  intros A P n. induction n as [|n IH]; intros xs H; [assumption|].
  destruct H; simpl; [constructor | auto].
Qed.

Lemma Forall_slice : forall (A : Type) (P : A -> Prop) xs i j,
  Forall P xs -> Forall P (slice xs i j).
Proof.
  intros A P xs i j H. unfold slice.
  now apply Forall_firstn, Forall_skipn.
Qed.

Lemma map_injective_nodup : forall (f : nat -> string) l,
  (forall i j, f i = f j -> i = j) -> NoDup l -> NoDup (map f l).
Proof.
  intros f l Hinj Hn. induction Hn as [|x l Hx Hn IH]; simpl;
    constructor; [|assumption].
  intros Hin. apply in_map_iff in Hin. destruct Hin as [y [Hy Hin]].
  apply Hinj in Hy. now subst.
Qed.

(** *** Records *)

Lemma make_records_fields : forall ids embeddings docs metas,
  List.length embeddings = List.length ids ->
  List.length docs = List.length ids ->
  List.length metas = List.length ids ->
  map rec_document (make_records ids embeddings docs metas) = docs
  /\ map rec_metadata (make_records ids embeddings docs metas) = metas
  /\ map rec_id (make_records ids embeddings docs metas) = ids.
Proof.
  induction ids as [|i ids IH]; intros [|e es] [|d ds] [|m ms] He Hd Hm;
    simpl in *; try discriminate; try (repeat split; reflexivity).
  destruct (IH es ds ms) as [H1 [H2 H3]]; try lia.
  now rewrite H1, H2, H3.
Qed.

Lemma records_of_length : forall cols u batch recs,
  records_of cols u batch recs -> List.length recs = List.length batch.
Proof.
  intros cols u batch recs [Hd _].
  apply (f_equal (@List.length string)) in Hd.
  now rewrite !length_map in Hd.
Qed.

Lemma records_of_nil : forall cols u, records_of cols u [] [].
Proof. intros; repeat split. Qed.

Lemma records_of_app : forall cols u b1 b2 r1 r2,
  records_of cols u b1 r1 ->
  records_of cols (u + List.length b1) b2 r2 ->
  records_of cols u (b1 ++ b2) (r1 ++ r2).
Proof.
  intros cols u b1 b2 r1 r2 [Hd1 [Hm1 Hi1]] [Hd2 [Hm2 Hi2]].
  unfold records_of. rewrite !map_app, length_app, seq_app, map_app.
  now rewrite Hd1, Hd2, Hm1, Hm2, Hi1, Hi2.
Qed.

(** *** What a row becomes *)

Lemma combine_keys : forall (cols : list string) (row : list cell) k,
  In k (map fst (combine cols row)) -> In k cols.
Proof.
  induction cols as [|c cols IH]; intros [|x row] k; simpl; try tauto.
  intros [H | H]; [now left | right; eauto].
Qed.

Lemma combine_keys_nodup : forall (cols : list string) (row : list cell),
  NoDup cols -> NoDup (map fst (combine cols row)).
Proof.
  induction cols as [|c cols IH]; intros [|x row] Hn; simpl;
    try constructor.
  - inversion Hn; subst. intros Hin. now apply combine_keys in Hin.
  - inversion Hn; subst. now apply IH.
Qed.

(** A key that no item has is not among the retained items. *)
Lemma retained_absent : forall (items : list (string * cell)) col,
  ~ In col (map fst items) ->
  dict_get col
    (map (fun cv => (fst cv, str_cell float_repr (snd cv)))
       (filter (fun cv =>
                  andb (negb (String.eqb (fst cv) Object_Text))
                       (notna (snd cv)))
               items)) = None.
Proof.
  intros items col Hk. apply dict_get_none_in. intros Hin. apply Hk.
  rewrite map_map in Hin. cbn [fst] in Hin.
  apply in_map_iff in Hin. destruct Hin as [x [Hx Hin]].
  apply filter_In in Hin. destruct Hin as [Hin _].
  apply in_map_iff. now exists x.
Qed.

(** Lookup in the retained, stringified items of a row with distinct
    keys. *)
Lemma retained_lookup : forall (items : list (string * cell)) col v,
  NoDup (map fst items) ->
  (dict_get col
     (map (fun cv => (fst cv, str_cell float_repr (snd cv)))
        (filter (fun cv =>
                   andb (negb (String.eqb (fst cv) Object_Text))
                        (notna (snd cv)))
                items)) = Some v
   <-> col <> Object_Text
       /\ exists c, dict_get col items = Some c
                    /\ notna c = true
                    /\ v = str_cell float_repr c).
Proof.
  intros items col v. induction items as [|[k c] items IH]; intros Hn.
  - simpl. split; [discriminate | intros [_ [c [H _]]]; discriminate].
  - inversion Hn as [|? ? Hk Hrest]; subst.
    cbn [filter fst snd dict_get].
    destruct (String.eqb col k) eqn:E.
    + apply String.eqb_eq in E. subst k.
      pose proof (retained_absent items col Hk) as Hnone.
      destruct (negb (String.eqb col Object_Text)) eqn:Ecol;
        destruct (notna c) eqn:Ec; cbn [andb map fst snd dict_get];
        rewrite ?String.eqb_refl.
      * apply negb_true_iff, String.eqb_neq in Ecol. split.
        -- intros H. injection H as <-. split; [assumption|].
           exists c. now repeat split.
        -- intros [_ [c' [Hc [_ ->]]]]. now injection Hc as <-.
      * split; [congruence|].
        intros [_ [c' [Hc [Hna _]]]]. injection Hc as <-. congruence.
      * apply negb_false_iff, String.eqb_eq in Ecol.
        split; [congruence | intros [Hne _]; congruence].
      * apply negb_false_iff, String.eqb_eq in Ecol.
        split; [congruence | intros [Hne _]; congruence].
    + destruct (andb (negb (String.eqb k Object_Text)) (notna c));
        cbn [map fst snd dict_get]; rewrite ?E; now apply IH.
Qed.

(** The metadata of a row of a frame with distinct column labels. *)
Lemma row_metadata_lookup : forall cols row col v,
  NoDup cols ->
  (dict_get col (row_metadata cols row) = Some v
   <-> col <> Object_Text
       /\ exists c, dict_get col (row_items cols row) = Some c
                    /\ notna c = true
                    /\ v = str_cell float_repr c).
Proof.
  intros cols row col v Hn. unfold row_metadata, row_items.
  pose proof (combine_keys_nodup row Hn) as Hkeys.
  rewrite dict_of_items_nodup.
  - now apply retained_lookup.
  - rewrite map_map. cbn [fst].
    assert (Hsub : forall (items : list (string * cell)) f,
               NoDup (map fst items) ->
               NoDup (map fst (filter f items))).
    { intros items f. induction items as [|[k c] items IH]; intros H;
        simpl; [constructor|].
      inversion H; subst.
      destruct (f (k, c)); simpl; [constructor|]; auto.
      intros Hin. apply in_map_iff in Hin. destruct Hin as [x [Hx Hin]].
      apply filter_In in Hin. destruct Hin as [Hin _].
      match goal with Hk : ~ In _ _ |- _ => apply Hk end.
      apply in_map_iff. now exists x. }
    now apply Hsub.
Qed.

(** *** Rejected uploads *)

(** C1: for a ".csv" file whose table has no 'Object_Text' column the
    handler, with the model loaded, raises its 400 inside the [try], the
    handler of that [try] catches it and raises a 500 that carries its
    text: the status sent is 500, not 400.  The world is left as it was:
    no call reaches the store. *)
Theorem upload_missing_column_is_500 : forall model f df w,
  PyStr.endswith (filename f) ".csv" = true ->
  embedding_model = Some model ->
  read_csv (file f) = Ok df ->
  has_column Object_Text df = false ->
  upload_file f w
  = (Raise (HTTPException 500
              ("Error processing file: "
                 ++ str_exn (HTTPException 400
                               "CSV must contain 'Object_Text' column"))),
     w)
  /\ http_status (fst (upload_file f w)) = 500%Z.
Proof.
  intros model f df w Hext Hmodel Hread Hcol.
  assert (Hrun : upload_file f w
                 = (Raise (HTTPException 500
                             ("Error processing file: "
                                ++ str_exn (HTTPException 400
                                     "CSV must contain 'Object_Text' column"))),
                    w)).
  { unfold upload_file, upload_file_with.
    rewrite Hext, Hmodel. cbn [negb].
    unfold try_except, ingest. unfold bind at 1, lift at 1.
    rewrite Hread, Hcol. reflexivity. }
  split; [exact Hrun | now rewrite Hrun].
Qed.

(** *** Uploads when the provider and the store answer *)

Section Healthy.

Variable model : list pyval -> outcome (list (list float)).

(** The model is loaded and returns one vector per text. *)
Hypothesis model_loaded : embedding_model = Some model.
Hypothesis encode_total : forall texts,
  exists vectors,
    model texts = Ok vectors
    /\ List.length vectors = List.length texts.

(** The store does not fault. *)
Hypothesis store_up : forall t op, store_fault t op = None.

(** One turn of the batch loop appends the records of its rows to the
    collection and draws one identifier per row. *)
Lemma process_batch_ok : forall df name batch_size i w old,
  has_column Object_Text df = true ->
  Forall (fun r => List.length r = List.length (columns df)) (rows df) ->
  dict_get name (chroma_db w) = Some old ->
  exists recs w',
    process_batch model df name batch_size i w = (Ok tt, w')
    /\ chroma_db w' = dict_set name (old ++ recs) (chroma_db w)
    /\ uuid_next w'
       = uuid_next w
         + List.length (slice (rows df) i (i + batch_size))
    /\ records_of (columns df) (uuid_next w)
         (slice (rows df) i (i + batch_size)) recs.
Proof.
  intros df name batch_size i w old Hcol Hrows Hold.
  set (batch := slice (rows df) i (i + batch_size)).
  assert (Hb : Forall (fun r => List.length r = List.length (columns df))
                 batch) by now apply Forall_slice.
  unfold process_batch. fold batch.
  unfold bind at 1.
  rewrite (@prepare_rows_ok (columns df) batch empty_batch w Hcol Hb).
  cbn [empty_batch b_documents b_metadatas b_ids app].
  set (docs := map (row_document (columns df)) batch).
  set (metas := map (row_metadata (columns df)) batch).
  set (ids := map uuid4 (seq (uuid_next w) (List.length batch))).
  destruct (encode_total (map PStr docs)) as [vectors [Henc Hlen]].
  unfold bind at 1, encode at 1. run_monad. rewrite Henc.
  unfold collection_add, store_call. cbn [trace chroma_db uuid_next].
  rewrite store_up.
  assert (Ld : List.length docs = List.length batch)
    by (unfold docs; now rewrite length_map).
  assert (Lm : List.length metas = List.length batch)
    by (unfold metas; now rewrite length_map).
  assert (Li : List.length ids = List.length batch)
    by (unfold ids; now rewrite length_map, length_seq).
  assert (Lv : List.length vectors = List.length batch)
    by (rewrite Hlen, length_map; exact Ld).
  rewrite Lv, Ld, Lm, Li, !Nat.eqb_refl. cbn [andb negb].
  rewrite Hold.
  eexists. eexists. split; [reflexivity|].
  cbn [chroma_db uuid_next]. split; [reflexivity|]. split; [reflexivity|].
  destruct (make_records_fields ids vectors docs metas) as [H1 [H2 H3]];
    try congruence.
  unfold records_of. now rewrite H1, H2, H3.
Qed.

(** The batch loop from row [start] on: the records of the remaining
    rows are appended, in row order, whatever the batch size. *)
Lemma batch_loop_ok : forall df name batch_size,
  0 < batch_size ->
  has_column Object_Text df = true ->
  Forall (fun r => List.length r = List.length (columns df)) (rows df) ->
  forall fuel start w old,
    List.length (skipn start (rows df)) <= fuel ->
    dict_get name (chroma_db w) = Some old ->
    exists recs w',
      for_each (range_from fuel start (List.length (rows df)) batch_size)
        (process_batch model df name batch_size) w
      = (Ok tt, w')
      /\ chroma_db w' = dict_set name (old ++ recs) (chroma_db w)
      /\ uuid_next w'
         = uuid_next w + List.length (skipn start (rows df))
      /\ records_of (columns df) (uuid_next w)
           (skipn start (rows df)) recs.
Proof.
  intros df name batch_size Hbs Hcol Hrows.
  assert (Hdone : forall start w old,
             skipn start (rows df) = [] ->
             dict_get name (chroma_db w) = Some old ->
             exists recs w',
               ret tt w = (Ok tt, w')
               /\ chroma_db w' = dict_set name (old ++ recs) (chroma_db w)
               /\ uuid_next w'
                  = uuid_next w + List.length (skipn start (rows df))
               /\ records_of (columns df) (uuid_next w)
                    (skipn start (rows df)) recs).
  { intros start w old Hnil Hold. exists [], w. rewrite Hnil.
    split; [reflexivity|]. rewrite app_nil_r.
    split; [symmetry; now apply dict_set_same_value|].
    split; [simpl; lia | apply records_of_nil]. }
  induction fuel as [|fuel IH]; intros start w old Hfuel Hold.
  - apply Hdone; [|assumption].
    destruct (skipn start (rows df)); [reflexivity | simpl in Hfuel; lia].
  - cbn [range_from].
    destruct (Nat.ltb start (List.length (rows df))) eqn:Hlt.
    + apply Nat.ltb_lt in Hlt.
      destruct (@process_batch_ok df name batch_size start w old Hcol Hrows Hold)
        as [recs1 [w1 [Hrun [Hdb [Huuid Hrecs]]]]].
      assert (Hold1 : dict_get name (chroma_db w1) = Some (old ++ recs1))
        by (rewrite Hdb; apply dict_get_set_same).
      assert (Hfuel1 :
                List.length (skipn (start + batch_size) (rows df)) <= fuel)
        by (rewrite length_skipn in *; lia).
      destruct (IH (start + batch_size) w1 (old ++ recs1) Hfuel1 Hold1)
        as [recs2 [w2 [Hrun2 [Hdb2 [Huuid2 Hrecs2]]]]].
      exists (recs1 ++ recs2), w2.
      assert (Hsplit :
                skipn start (rows df)
                = slice (rows df) start (start + batch_size)
                  ++ skipn (start + batch_size) (rows df)).
      { unfold slice.
        replace (start + batch_size - start) with batch_size by lia.
        rewrite (Nat.add_comm start batch_size), <- skipn_skipn.
        symmetry. apply firstn_skipn. }
      split.
      { cbn [for_each]. unfold bind at 1. rewrite Hrun. exact Hrun2. }
      split.
      { rewrite Hdb2, Hdb, dict_set_set. now rewrite app_assoc. }
      split.
      { rewrite Huuid2, Huuid, Hsplit at 1. rewrite length_app. lia. }
      rewrite Hsplit. apply records_of_app; [assumption|].
      now rewrite <- Huuid.
    + apply Nat.ltb_ge in Hlt. apply Hdone; [|assumption].
      now apply skipn_all2.
Qed.

(** Create the collection, or get it when it is already there. *)
Lemma create_or_get_ok : forall name w,
  exists w',
    try_except (create_collection name)
      (fun _ => get_collection (PStr name)) w
    = (Ok name, w')
    /\ chroma_db w' = ensure_collection name (chroma_db w)
    /\ uuid_next w' = uuid_next w
    /\ dict_get name (chroma_db w') = Some (stored name (chroma_db w))
    /\ trace w'
       = trace w
         ++ match dict_get name (chroma_db w) with
            | None => [EvStore (OpCreate name)]
            | Some _ =>
                [EvStore (OpCreate name); EvStore (OpGet (PStr name))]
            end.
Proof.
  intros name w.
  unfold try_except, create_collection, get_collection, store_call,
    ensure_collection, stored.
  rewrite store_up.
  destruct (dict_get name (chroma_db w)) as [old|] eqn:Hold.
  - cbn [trace chroma_db uuid_next]. rewrite store_up, Hold.
    eexists. split; [reflexivity|]. cbn [chroma_db uuid_next trace].
    rewrite <- app_assoc. repeat split; assumption.
  - eexists. split; [reflexivity|]. cbn [chroma_db uuid_next trace].
    repeat split.
    rewrite dict_get_app_new by assumption.
    now rewrite String.eqb_refl.
Qed.

Lemma ensure_has : forall name s,
  dict_get name (ensure_collection name s) = Some (stored name s).
Proof.
  intros name s. unfold ensure_collection, stored.
  destruct (dict_get name s) as [old|] eqn:H; [assumption|].
  rewrite dict_get_app_new by assumption. now rewrite String.eqb_refl.
Qed.

Lemma stored_set : forall name c recs s,
  stored c (dict_set name recs s)
  = if String.eqb c name then recs else stored c s.
Proof.
  intros name c recs s. unfold stored.
  destruct (String.eqb c name) eqn:E.
  - apply String.eqb_eq in E. subst. now rewrite dict_get_set_same.
  - apply String.eqb_neq in E. now rewrite dict_get_set_other.
Qed.

(** A successful upload: the collection is there, the records of the
    rows are appended to it in row order, and one identifier is drawn
    per row. *)
Lemma upload_ok : forall batch_size f df w,
  0 < batch_size ->
  PyStr.endswith (filename f) ".csv" = true ->
  read_csv (file f) = Ok df ->
  has_column Object_Text df = true ->
  Forall (fun r => List.length r = List.length (columns df)) (rows df) ->
  exists recs w',
    upload_file_with batch_size f w
    = (Ok (upload_summary (derive_collection_name (filename f))
             (List.length (rows df))), w')
    /\ chroma_db w'
       = dict_set (derive_collection_name (filename f))
           (stored (derive_collection_name (filename f)) (chroma_db w)
              ++ recs)
           (ensure_collection (derive_collection_name (filename f))
              (chroma_db w))
    /\ uuid_next w' = uuid_next w + List.length (rows df)
    /\ records_of (columns df) (uuid_next w) (rows df) recs.
Proof.
  intros batch_size f df w Hbs Hext Hread Hcol Hrows.
  set (name := derive_collection_name (filename f)).
  destruct (create_or_get_ok name w)
    as [w1 [Hcreate [Hdb1 [Huuid1 [Hget1 _]]]]].
  destruct (@batch_loop_ok df name batch_size Hbs Hcol Hrows
              (List.length (rows df)) 0 w1 (stored name (chroma_db w))
              (le_n _) Hget1)
    as [recs [w2 [Hloop [Hdb2 [Huuid2 Hrecs]]]]].
  exists recs, w2.
  split.
  - unfold upload_file_with. rewrite Hext, model_loaded. cbn [negb].
    unfold try_except, ingest. unfold bind at 1, lift at 1.
    rewrite Hread, Hcol. cbn [negb]. fold name.
    unfold bind at 1. rewrite Hcreate.
    unfold bind at 1, lift at 1, py_range.
    destruct batch_size as [|b]; [lia|].
    unfold bind at 1. rewrite Hloop. reflexivity.
  - split; [now rewrite Hdb2, Hdb1|].
    split; [now rewrite Huuid2, Huuid1|].
    now rewrite <- Huuid1.
Qed.

Lemma upload_keys : forall name recs s,
  map fst (dict_set name recs (ensure_collection name s))
  = map fst (ensure_collection name s).
Proof.
  intros name recs s.
  apply dict_set_keys with (old := stored name s). apply ensure_has.
Qed.

(** C2: on a valid table with the text column, uploads with any two
    positive batch sizes (1 and 100 among them) succeed with the same
    summary, leave the same collections, and store in every
    collection the same documents and metadata in the same order; in
    a collection that did not exist before, the record count is the
    number of rows. *)
Theorem batch_size_irrelevant : forall b1 b2 f df w,
  0 < b1 -> 0 < b2 ->
  PyStr.endswith (filename f) ".csv" = true ->
  read_csv (file f) = Ok df ->
  has_column Object_Text df = true ->
  wf_frame df ->
  exists w1 w2,
    upload_file_with b1 f w
    = (Ok (upload_summary (derive_collection_name (filename f))
             (List.length (rows df))), w1)
    /\ upload_file_with b2 f w
       = (Ok (upload_summary (derive_collection_name (filename f))
                (List.length (rows df))), w2)
    /\ map fst (chroma_db w1) = map fst (chroma_db w2)
    /\ (forall c,
          map rec_document (stored c (chroma_db w1))
          = map rec_document (stored c (chroma_db w2))
          /\ map rec_metadata (stored c (chroma_db w1))
             = map rec_metadata (stored c (chroma_db w2)))
    /\ (dict_get (derive_collection_name (filename f)) (chroma_db w) = None ->
        collection_count (derive_collection_name (filename f)) (chroma_db w1)
        = List.length (rows df)
        /\ collection_count (derive_collection_name (filename f))
             (chroma_db w2)
           = List.length (rows df)).
Proof.
  intros b1 b2 f df w Hb1 Hb2 Hext Hread Hcol [_ Hrows].
  set (name := derive_collection_name (filename f)).
  destruct (@upload_ok b1 f df w Hb1 Hext Hread Hcol Hrows)
    as [r1 [w1 [Hrun1 [Hdb1 [_ Hrec1]]]]].
  destruct (@upload_ok b2 f df w Hb2 Hext Hread Hcol Hrows)
    as [r2 [w2 [Hrun2 [Hdb2 [_ Hrec2]]]]].
  fold name in Hrun1, Hrun2, Hdb1, Hdb2.
  exists w1, w2.
  split; [exact Hrun1|]. split; [exact Hrun2|].
  split; [now rewrite Hdb1, Hdb2, !upload_keys|].
  destruct Hrec1 as [Hd1 [Hm1 _]]. destruct Hrec2 as [Hd2 [Hm2 _]].
  split.
  - intros c. rewrite Hdb1, Hdb2, !stored_set.
    destruct (String.eqb c name); [|split; reflexivity].
    rewrite !map_app, Hd1, Hd2, Hm1, Hm2. split; reflexivity.
  - intros Hnew. unfold collection_count.
    rewrite Hdb1, Hdb2, !stored_set, String.eqb_refl.
    unfold stored. rewrite Hnew. cbn [app].
    apply (f_equal (@List.length string)) in Hd1, Hd2.
    rewrite !length_map in Hd1, Hd2. now split.
Qed.

(** C3: two uploads in a row that derive the same collection name
    both succeed, the second keeps the records of the first and
    puts its own after them, and the count grows by N + M; it is
    N + M when the collection did not exist before. *)
Theorem reupload_appends : forall f1 f2 df1 df2 w,
  PyStr.endswith (filename f1) ".csv" = true ->
  PyStr.endswith (filename f2) ".csv" = true ->
  read_csv (file f1) = Ok df1 ->
  read_csv (file f2) = Ok df2 ->
  has_column Object_Text df1 = true ->
  has_column Object_Text df2 = true ->
  wf_frame df1 ->
  wf_frame df2 ->
  derive_collection_name (filename f1)
  = derive_collection_name (filename f2) ->
  exists r1 w1 r2 w2 recs2,
    upload_file f1 w = (Ok r1, w1)
    /\ upload_file f2 w1 = (Ok r2, w2)
    /\ stored (derive_collection_name (filename f1)) (chroma_db w2)
       = stored (derive_collection_name (filename f1)) (chroma_db w1)
         ++ recs2
    /\ List.length recs2 = List.length (rows df2)
    /\ collection_count (derive_collection_name (filename f1))
         (chroma_db w2)
       = collection_count (derive_collection_name (filename f1))
           (chroma_db w)
         + List.length (rows df1) + List.length (rows df2)
    /\ (dict_get (derive_collection_name (filename f1)) (chroma_db w)
        = None ->
        collection_count (derive_collection_name (filename f1))
          (chroma_db w2)
        = List.length (rows df1) + List.length (rows df2)).
Proof.
  intros f1 f2 df1 df2 w Hext1 Hext2 Hread1 Hread2 Hcol1 Hcol2
    [_ Hrows1] [_ Hrows2] Hname.
  set (name := derive_collection_name (filename f1)) in *.
  assert (H100 : 0 < 100) by lia.
  destruct (@upload_ok 100 f1 df1 w H100 Hext1 Hread1 Hcol1 Hrows1)
    as [recs1 [w1 [Hrun1 [Hdb1 [_ Hrec1]]]]].
  destruct (@upload_ok 100 f2 df2 w1 H100 Hext2 Hread2 Hcol2 Hrows2)
    as [recs2 [w2 [Hrun2 [Hdb2 [_ Hrec2]]]]].
  fold name in Hrun1, Hdb1. rewrite <- Hname in Hrun2, Hdb2.
  apply records_of_length in Hrec1, Hrec2.
  assert (Hst1 : stored name (chroma_db w1)
                 = stored name (chroma_db w) ++ recs1)
    by (rewrite Hdb1, stored_set; now rewrite String.eqb_refl).
  assert (Hst2 : stored name (chroma_db w2)
                 = stored name (chroma_db w1) ++ recs2)
    by (rewrite Hdb2, stored_set; now rewrite String.eqb_refl).
  assert (Hcount : collection_count name (chroma_db w2)
                   = collection_count name (chroma_db w)
                     + List.length (rows df1) + List.length (rows df2)).
  { unfold collection_count. rewrite Hst2, Hst1, !length_app. lia. }
  do 5 eexists.
  split; [exact Hrun1|]. split; [exact Hrun2|].
  split; [exact Hst2|]. split; [exact Hrec2|].
  split; [exact Hcount|].
  intros Hnew. rewrite Hcount. unfold collection_count, stored.
  now rewrite Hnew.
Qed.

(** C10: a ".csv" file whose table has the text column and no rows
    is accepted: the summary reports count 0, the collection exists
    afterwards, nothing is added to it, and the only calls made are
    the creation of the collection (and its lookup when it was
    already there): no call to the provider, no write of records. *)
Theorem upload_no_rows : forall f df w,
  PyStr.endswith (filename f) ".csv" = true ->
  read_csv (file f) = Ok df ->
  has_column Object_Text df = true ->
  rows df = [] ->
  exists w' evs,
    upload_file f w
    = (Ok (upload_summary (derive_collection_name (filename f)) 0), w')
    /\ count (upload_summary (derive_collection_name (filename f)) 0) = 0
    /\ dict_get (derive_collection_name (filename f)) (chroma_db w')
       = Some (stored (derive_collection_name (filename f)) (chroma_db w))
    /\ chroma_db w'
       = ensure_collection (derive_collection_name (filename f))
           (chroma_db w)
    /\ trace w' = trace w ++ evs
    /\ Forall no_embedding_no_write evs.
Proof.
  intros f df w Hext Hread Hcol Hempty.
  set (name := derive_collection_name (filename f)).
  destruct (create_or_get_ok name w)
    as [w1 [Hcreate [Hdb1 [_ [Hget1 Htrace]]]]].
  exists w1. eexists.
  split.
  - unfold upload_file, upload_file_with.
    rewrite Hext, model_loaded. cbn [negb].
    unfold try_except, ingest. unfold bind at 1, lift at 1.
    rewrite Hread, Hcol. cbn [negb]. fold name.
    unfold bind at 1. rewrite Hcreate, Hempty. reflexivity.
  - split; [reflexivity|]. split; [exact Hget1|]. split; [exact Hdb1|].
    split; [exact Htrace|].
    destruct (dict_get name (chroma_db w)); repeat constructor.
Qed.

(** A cell passes [pd.notna] exactly when it is not missing. *)
Lemma notna_missing : forall c, notna c = true <-> ~ Spec.missing c.
Proof using Type.
  clear. intros c. unfold Spec.missing. split.
  - intros Hc [Hnone | [f [Hf Hnan]]]; subst c; simpl in Hc;
      [discriminate|]. rewrite Hnan in Hc. discriminate.
  - intros Hc. destruct c as [s | z | f | b |]; try reflexivity.
    + simpl. destruct (PrimFloat.is_nan f) eqn:Hnan; [| reflexivity].
      exfalso. apply Hc. right. now exists f.
    + exfalso. apply Hc. now left.
Qed.

(** [str(val)] of a cell is the cell stringified. *)
Lemma str_cell_stringified : forall c v,
  Spec.stringified float_repr c v <-> v = str_cell float_repr c.
Proof using Type.
  clear. intros c v. split.
  - intros H. destruct H; reflexivity.
  - intros ->. destruct c as [s | z | f | b |]; try constructor.
    destruct b; constructor.
Qed.

(** C4: after a successful upload of a valid table the collection
    holds, after what it held, one record per row, in row order; the
    metadata of a record maps exactly the columns other than the
    text column whose cell in that row is not missing (neither empty
    nor the float that is not a number), each to the cell stringified
    (a text as it is, an integer as its decimal numeral, a truth value
    as True or False, a float as its repr); its document is the text
    cell stringified; and its identifier is a draw of its own from the
    generator: the row at position [k] gets the draw numbered
    [uuid_next w + k], the upload makes exactly one draw per row, so no
    draw is used twice or was used before, and the identifiers are
    pairwise distinct and distinct from every identifier drawn before
    whenever the generator yields no string twice. *)
Theorem row_transformation : forall f df w,
  PyStr.endswith (filename f) ".csv" = true ->
  read_csv (file f) = Ok df ->
  has_column Object_Text df = true ->
  wf_frame df ->
  exists resp recs w',
    upload_file f w = (Ok resp, w')
    /\ stored (derive_collection_name (filename f)) (chroma_db w')
       = stored (derive_collection_name (filename f)) (chroma_db w)
         ++ recs
    /\ List.length recs = List.length (rows df)
    /\ (forall k row rec,
          nth_error (rows df) k = Some row ->
          nth_error recs k = Some rec ->
          (forall col v,
             dict_get col (rec_metadata rec) = Some v
             <-> col <> Object_Text
                 /\ exists c,
                      dict_get col (row_items (columns df) row) = Some c
                      /\ ~ Spec.missing c
                      /\ Spec.stringified float_repr c v)
          /\ (exists c,
                row_get (columns df) row Object_Text = Ok c
                /\ Spec.stringified float_repr c (rec_document rec))
          /\ rec_id rec = uuid4 (uuid_next w + k))
    /\ uuid_next w' = uuid_next w + List.length (rows df)
    /\ ((forall i j, uuid4 i = uuid4 j -> i = j) ->
        NoDup (map rec_id recs)
        /\ (forall j, j < uuid_next w -> ~ In (uuid4 j) (map rec_id recs))).
Proof.
  intros f df w Hext Hread Hcol [Hnodup Hrows].
  assert (H100 : 0 < 100) by lia.
  destruct (@upload_ok 100 f df w H100 Hext Hread Hcol Hrows)
    as [recs [w' [Hrun [Hdb [Hdrawn Hrec]]]]].
  pose proof (records_of_length Hrec) as Hlen.
  destruct Hrec as [Hdocs [Hmetas Hids]].
  exists (upload_summary (derive_collection_name (filename f))
            (List.length (rows df))), recs, w'.
  split; [exact Hrun|].
  split; [rewrite Hdb, stored_set; now rewrite String.eqb_refl|].
  split; [exact Hlen|].
  split; [| split; [exact Hdrawn | intros Hinj; split]].
  - intros k row rec Hrow Hk.
    assert (Hd : rec_document rec = row_document (columns df) row).
    { apply (f_equal (fun l => nth_error l k)) in Hdocs.
      rewrite !nth_error_map, Hrow, Hk in Hdocs. now injection Hdocs. }
    assert (Hm : rec_metadata rec = row_metadata (columns df) row).
    { apply (f_equal (fun l => nth_error l k)) in Hmetas.
      rewrite !nth_error_map, Hrow, Hk in Hmetas. now injection Hmetas. }
    assert (Hi : rec_id rec = uuid4 (uuid_next w + k)).
    { apply (f_equal (fun l => nth_error l k)) in Hids.
      rewrite !nth_error_map, Hk, nth_error_seq in Hids.
      assert (Hlt : k < List.length (rows df))
        by (apply nth_error_Some; congruence).
      apply Nat.ltb_lt in Hlt. rewrite Hlt in Hids.
      now injection Hids. }
    split; [| split; [| exact Hi]].
    + intros col v. rewrite Hm.
      rewrite (@row_metadata_lookup (columns df) row col v Hnodup).
      split; intros [Hne [c [Hc [Hna Hv]]]];
        (split; [exact Hne|]); exists c; (split; [exact Hc|]); split.
      * now apply notna_missing.
      * now apply str_cell_stringified.
      * now apply notna_missing.
      * now apply str_cell_stringified.
    + assert (Hrowlen : List.length row = List.length (columns df)).
      { rewrite Forall_forall in Hrows. apply Hrows.
        eapply nth_error_In; eassumption. }
      destruct (row_get_ok (columns df) row Hcol Hrowlen) as [c Hc].
      exists c. split; [exact Hc|].
      apply str_cell_stringified.
      rewrite Hd. unfold row_document. now rewrite Hc.
  - rewrite Hids. apply map_injective_nodup; [exact Hinj|].
    apply seq_NoDup.
  - intros j Hj Hin. rewrite Hids in Hin.
    apply in_map_iff in Hin. destruct Hin as [y [Hy Hin]].
    apply Hinj in Hy. subst y. apply in_seq in Hin. lia.
Qed.

End Healthy.

(** *** What the store keeps *)

Lemma keeps_ret : forall (J : store -> Prop) (A : Type) (R : A -> Prop) a,
  R a -> keeps J R (ret a).
Proof using Type.
  intros J A R a Ha w Hj. split; [exact Hj|].
  intros a' H. simpl in H. now injection H as <-.
Qed.

Lemma keeps_raise : forall (J : store -> Prop) (A : Type) (R : A -> Prop) e,
  keeps J R (@raise A e).
Proof using Type. intros J A R e w Hj. split; [exact Hj | discriminate]. Qed.

Lemma keeps_lift : forall (J : store -> Prop) (A : Type) (R : A -> Prop)
  (o : outcome A),
  (forall a, o = Ok a -> R a) -> keeps J R (lift o).
Proof using Type. intros J A R o Ho w Hj. split; [exact Hj | exact Ho]. Qed.

Lemma keeps_bind : forall (J : store -> Prop) (A B : Type)
  (R1 : A -> Prop) (R : B -> Prop) (m : M A) (k : A -> M B),
  keeps J R1 m -> (forall a, R1 a -> keeps J R (k a)) -> keeps J R (bind m k).
Proof using Type.
  intros J A B R1 R m k Hm Hk w Hj. unfold bind.
  destruct (Hm w Hj) as [Hj1 Hr1].
  destruct (m w) as [[a|e] w1]; simpl in *.
  - apply Hk; [now apply Hr1 | exact Hj1].
  - split; [exact Hj1 | discriminate].
Qed.

Lemma keeps_try : forall (J : store -> Prop) (A : Type) (R : A -> Prop)
  (m : M A) (h : exn -> M A),
  keeps J R m -> (forall e, keeps J R (h e)) -> keeps J R (try_except m h).
Proof using Type.
  intros J A R m h Hm Hh w Hj. unfold try_except.
  destruct (Hm w Hj) as [Hj1 Hr1].
  destruct (m w) as [[a|e] w1]; simpl in *.
  - split; [exact Hj1 | exact Hr1].
  - now apply Hh.
Qed.

Lemma keeps_store_call : forall (J : store -> Prop) (A : Type)
  (R : A -> Prop) op (run : store -> outcome A * store),
  (forall s, J s ->
             J (snd (run s)) /\ forall a, fst (run s) = Ok a -> R a) ->
  keeps J R (store_call op run).
Proof.
  intros J A R op run Hrun w Hj. unfold store_call.
  destruct (store_fault (trace w) op); simpl.
  - split; [exact Hj | discriminate].
  - destruct (Hrun (chroma_db w) Hj) as [Hj1 Hr].
    destruct (run (chroma_db w)) as [o s']; simpl in *. now split.
Qed.

Lemma keeps_admin_call : forall (J : store -> Prop) (A : Type)
  (R : A -> Prop) op (run : store -> outcome A * store),
  (forall s, J s ->
             J (snd (run s)) /\ forall a, fst (run s) = Ok a -> R a) ->
  keeps J R (admin_call op run).
Proof.
  intros J A R op run Hrun w Hj. unfold admin_call.
  destruct (admin_fault (trace w) op); simpl.
  - split; [exact Hj | discriminate].
  - destruct (Hrun (chroma_db w) Hj) as [Hj1 Hr].
    destruct (run (chroma_db w)) as [o s']; simpl in *. now split.
Qed.

Lemma keeps_encode : forall (J : store -> Prop) model texts,
  keeps J (@anything _) (encode model texts).
Proof.
  intros J model texts w Hj. unfold encode. run_monad.
  split; [exact Hj | intros; exact I].
Qed.

Lemma keeps_prepare_rows : forall (J : store -> Prop) cols batch acc,
  keeps J (@anything _) (prepare_rows cols batch acc).
Proof.
  intros J cols batch. induction batch as [|row batch IH]; intros acc.
  - now apply keeps_ret.
  - cbn [prepare_rows].
    apply keeps_bind with (R1 := @anything _);
      [apply keeps_lift; intros; exact I | intros text _].
    apply keeps_bind with (R1 := @anything _); [| intros id _; apply IH].
    intros w Hj. split; [exact Hj | intros; exact I].
Qed.

Lemma keeps_for_each : forall (J : store -> Prop) (A : Type) (xs : list A)
  (body : A -> M unit),
  (forall x, keeps J (@anything _) (body x)) ->
  keeps J (@anything _) (for_each xs body).
Proof using Type.
  intros J A xs body Hbody. induction xs as [|x xs IH]; cbn [for_each].
  - now apply keeps_ret.
  - apply keeps_bind with (R1 := @anything _); [apply Hbody | intros; exact IH].
Qed.

Lemma keeps_weaken : forall (J : store -> Prop) (A : Type)
  (R R' : A -> Prop) (m : M A),
  (forall a, R a -> R' a) -> keeps J R m -> keeps J R' m.
Proof using Type.
  intros J A R R' m Hr Hm w Hj. destruct (Hm w Hj) as [H1 H2].
  split; [exact H1 | intros a Ha; apply Hr, H2, Ha].
Qed.

(** Whatever an upload does to the store is made of two steps: the new
    collection is added, empty, when its name is free, and records are put
    after those of that collection.  A property of the store that both
    steps keep is kept by the handler, however it ends. *)
Lemma upload_keeps : forall (J : store -> Prop) batch_size f,
  (forall s,
     dict_get (derive_collection_name (filename f)) s = None ->
     J s -> J (s ++ [(derive_collection_name (filename f), [])])) ->
  (forall s old recs,
     dict_get (derive_collection_name (filename f)) s = Some old ->
     J s ->
     J (dict_set (derive_collection_name (filename f)) (old ++ recs) s)) ->
  keeps J (@anything _) (upload_file_with batch_size f).
Proof.
  intros J batch_size f Hcreate Hadd.
  set (name := derive_collection_name (filename f)) in *.
  unfold upload_file_with.
  destruct (negb (PyStr.endswith (filename f) ".csv")); [apply keeps_raise|].
  destruct embedding_model as [model|]; [| apply keeps_raise].
  apply keeps_try; [| intros; apply keeps_raise].
  unfold ingest.
  apply keeps_bind with (R1 := @anything _);
    [apply keeps_lift; intros; exact I | intros df _].
  destruct (negb (has_column Object_Text df)); [apply keeps_raise|].
  fold name.
  apply keeps_bind with (R1 := fun c => c = name).
  - apply keeps_try; [| intros _]; apply keeps_store_call; intros s Hj.
    + destruct (dict_get name s) eqn:E; simpl.
      * split; [exact Hj | discriminate].
      * split; [now apply Hcreate | intros a H; now injection H].
    + destruct (dict_get name s) eqn:E; simpl.
      * split; [exact Hj | intros a H; now injection H].
      * split; [exact Hj | discriminate].
  - intros collection ->.
    apply keeps_bind with (R1 := @anything _);
      [apply keeps_lift; intros; exact I | intros starts _].
    apply keeps_bind with (R1 := @anything _);
      [| intros; apply keeps_ret; exact I].
    apply keeps_for_each. intros i. unfold process_batch.
    apply keeps_bind with (R1 := @anything _);
      [apply keeps_prepare_rows | intros lists _].
    apply keeps_bind with (R1 := @anything _);
      [apply keeps_encode | intros embeddings _].
    apply keeps_store_call. intros s Hj.
    destruct (negb _); simpl; [split; [exact Hj | intros; exact I]|].
    destruct (dict_get name s) eqn:E; simpl.
    + split; [now apply Hadd with (old := l) | intros; exact I].
    + split; [exact Hj | intros; exact I].
Qed.

(** The chat handler only reads the store. *)
Lemma chat_keeps : forall (J : store -> Prop) request,
  keeps J (@anything _) (chat_endpoint request).
Proof.
  intros J request. unfold chat_endpoint.
  apply keeps_bind with (R1 := @anything _);
    [apply keeps_lift; intros; exact I | intros data _].
  apply keeps_bind with (R1 := @anything _);
    [apply keeps_lift; intros; exact I | intros message _].
  destruct (negb (truthy message)); [apply keeps_ret; exact I|].
  destruct embedding_model as [model|]; [| apply keeps_ret; exact I].
  apply keeps_bind with (R1 := @anything _);
    [apply keeps_lift; intros; exact I | intros collection_name _].
  apply keeps_try; [| intros; apply keeps_ret; exact I].
  unfold search.
  apply keeps_bind with (R1 := @anything _).
  { apply keeps_store_call. intros s Hj. simpl. split; [exact Hj | intros; exact I]. }
  intros [|first collections] _; [apply keeps_ret; exact I|].
  apply keeps_bind with (R1 := @anything _).
  { apply keeps_store_call. intros s Hj.
    destruct (if negb (truthy collection_name) then PStr first
              else collection_name);
      try (simpl; split; [exact Hj | intros; exact I]).
    destruct (dict_get s0 s); simpl; split; try exact Hj; intros; exact I. }
  intros collection _.
  apply keeps_bind with (R1 := @anything _);
    [apply keeps_encode | intros vectors _].
  apply keeps_bind with (R1 := @anything _);
    [apply keeps_lift; intros; exact I | intros query_embedding _].
  apply keeps_bind with (R1 := @anything _);
    [| intros; apply keeps_lift; intros; exact I].
  apply keeps_store_call. intros s Hj.
  destruct (dict_get collection s); simpl; split; try exact Hj;
    intros; exact I.
Qed.

(** The listing handler only reads the store. *)
Lemma get_collections_keeps : forall (J : store -> Prop),
  keeps J (@anything _) get_collections.
Proof.
  intros J. unfold get_collections.
  apply keeps_try; [| intros; apply keeps_raise].
  apply keeps_bind with (R1 := @anything _).
  { apply keeps_store_call. intros s Hj. simpl. split; [exact Hj | intros; exact I]. }
  intros collections _. generalize (@nil CollectionInfo).
  induction collections as [|c collections IH]; intros result;
    cbn [count_each]; [apply keeps_ret; exact I|].
  apply keeps_bind with (R1 := @anything _); [| intros; apply IH].
  apply keeps_admin_call. intros s Hj.
  destruct (dict_get c s); simpl; split; try exact Hj; intros; exact I.
Qed.

Lemma dict_get_none_keys : forall (A : Type) k (d : list (string * A)),
  dict_get k d = None -> ~ In k (map fst d).
Proof using Type.
  intros A k d. induction d as [|[k' v] d IH]; cbn [dict_get map fst];
    intros Hnone Hin.
  - destruct Hin.
  - destruct (String.eqb k k') eqn:E; [discriminate|].
    apply String.eqb_neq in E. destruct Hin as [Heq | Hin].
    + apply E. now symmetry.
    + now apply IH.
Qed.

Lemma unique_names_add : forall name (s : store),
  dict_get name s = None -> unique_names s ->
  unique_names (s ++ [(name, [])]).
Proof using Type.
  intros name s Hnone Hu. unfold unique_names in *.
  rewrite map_app. cbn [map fst].
  apply dict_get_none_keys in Hnone.
  apply NoDup_app; repeat split; try assumption.
  - repeat constructor. intros [].
  - intros k Hk [Hin | []]. subst. contradiction.
Qed.

Lemma unique_names_remove : forall name (s : store),
  unique_names s -> unique_names (dict_remove name s).
Proof using Type.
  intros name s. unfold unique_names, dict_remove.
  induction s as [|[k v] s IH]; intros Hu; simpl; [constructor|].
  inversion Hu as [|? ? Hk Hrest]; subst.
  destruct (negb (String.eqb k name)); simpl; [| now apply IH].
  constructor; [| now apply IH].
  intros Hin. apply Hk. apply in_map_iff in Hin.
  destruct Hin as [x [Hx Hin]]. apply filter_In in Hin.
  apply in_map_iff. exists x. destruct Hin as [Hin _]. now split.
Qed.

(** X2: an upload only appends.  However it ends (also when the provider
    or the store fails midway) every other collection is as it was, and
    the collection of the file holds the records it held before, in
    place, followed by whatever was added. *)
Theorem upload_is_append_only : forall f w,
  (forall c, c <> derive_collection_name (filename f) ->
             dict_get c (chroma_db (snd (upload_file f w)))
             = dict_get c (chroma_db w))
  /\ exists added,
       stored (derive_collection_name (filename f))
         (chroma_db (snd (upload_file f w)))
       = stored (derive_collection_name (filename f)) (chroma_db w) ++ added.
Proof.
  intros f w. set (name := derive_collection_name (filename f)).
  split.
  - intros c Hc.
    apply (@upload_keeps (fun s => dict_get c s = dict_get c (chroma_db w))
             100 f); [| | reflexivity].
    + intros s Hnone Hs. fold name in Hnone |- *.
      rewrite dict_get_app_new by assumption.
      apply String.eqb_neq in Hc. now rewrite Hc.
    + intros s old recs Hold Hs. fold name.
      now rewrite dict_get_set_other.
  - apply (@upload_keeps
             (fun s => exists added,
                         stored name s = stored name (chroma_db w) ++ added)
             100 f).
    + intros s Hnone [added Hs]. fold name in Hnone |- *. exists added.
      rewrite <- Hs. unfold stored.
      rewrite dict_get_app_new, String.eqb_refl by assumption.
      now rewrite Hnone.
    + intros s old recs Hold [added Hs]. fold name in Hold |- *.
      exists (added ++ recs). unfold stored in *.
      rewrite dict_get_set_same. rewrite Hold in Hs. rewrite Hs.
      now rewrite app_assoc.
    + exists []. now rewrite app_nil_r.
Qed.

(** X3: the chat and the listing handlers never write: after either, for
    every request and whatever fails, the store is the store as it was. *)
Theorem read_handlers_never_write : forall w,
  (forall request, chroma_db (snd (chat_endpoint request w)) = chroma_db w)
  /\ chroma_db (snd (get_collections w)) = chroma_db w.
Proof.
  intros w. split.
  - intros request.
    now apply (chat_keeps (fun s => s = chroma_db w) request).
  - now apply (get_collections_keeps (fun s => s = chroma_db w)).
Qed.

(** X4: the status of an upload.  It is 400 exactly when the file name
    does not end in ".csv"; that rejection leaves the world untouched;
    every other failure, whatever raised it, is sent as 500. *)
Theorem upload_status_codes : forall f w,
  (http_status (fst (upload_file f w)) = 400%Z
   <-> PyStr.endswith (filename f) ".csv" = false)
  /\ (PyStr.endswith (filename f) ".csv" = false ->
      upload_file f w
      = (Raise (HTTPException 400 "Only CSV files are supported"), w))
  /\ (http_status (fst (upload_file f w)) = 200%Z
      \/ http_status (fst (upload_file f w)) = 400%Z
      \/ http_status (fst (upload_file f w)) = 500%Z).
Proof.
  intros f w. unfold upload_file, upload_file_with.
  destruct (PyStr.endswith (filename f) ".csv") eqn:Hext; cbn [negb].
  - assert (H : http_status
                  (fst (match embedding_model with
                        | Some model =>
                            try_except (ingest model 100 f)
                              (fun e =>
                                 raise (HTTPException 500
                                          ("Error processing file: "
                                             ++ str_exn e)))
                        | None =>
                            raise (HTTPException 500
                                     "Embedding model not loaded")
                        end w)) = 200%Z
                \/ http_status
                     (fst (match embedding_model with
                           | Some model =>
                               try_except (ingest model 100 f)
                                 (fun e =>
                                    raise (HTTPException 500
                                             ("Error processing file: "
                                                ++ str_exn e)))
                           | None =>
                               raise (HTTPException 500
                                        "Embedding model not loaded")
                           end w)) = 500%Z).
    { destruct embedding_model as [model|]; [| right; reflexivity].
      unfold try_except.
      destruct (ingest model 100 f w) as [[r|e] w1]; [left | right];
        reflexivity. }
    split; [| split].
    + split; [| discriminate]. intros H4. destruct H as [H | H]; congruence.
    + discriminate.
    + tauto.
  - split; [| split].
    + split; reflexivity.
    + reflexivity.
    + right; left; reflexivity.
Qed.

(** *** The batches of an upload, one by one *)

Lemma for_each_app : forall (A : Type) (xs ys : list A) (body : A -> M unit) w,
  for_each (xs ++ ys) body w
  = match for_each xs body w with
    | (Ok _, w1) => for_each ys body w1
    | (Raise e, w1) => (Raise e, w1)
    end.
Proof using Type.
  intros A xs ys body. induction xs as [|x xs IH]; intros w; cbn [app for_each].
  - reflexivity.
  - unfold bind. destruct (body x w) as [[[]|e] w1]; [apply IH | reflexivity].
Qed.

(** The batches from row [start] on are the rows from [start] on. *)
Lemma batches_from : forall df batch_size,
  0 < batch_size ->
  forall fuel start,
    List.length (skipn start (rows df)) <= fuel ->
    List.concat (map (batch_at df batch_size)
              (range_from fuel start (List.length (rows df)) batch_size))
    = skipn start (rows df).
Proof using Type.
  intros df batch_size Hbs. induction fuel as [|fuel IH]; intros start Hfuel.
  - destruct (skipn start (rows df)); [reflexivity | simpl in Hfuel; lia].
  - cbn [range_from].
    destruct (Nat.ltb start (List.length (rows df))) eqn:Hlt.
    + cbn [map List.concat]. rewrite IH by (rewrite length_skipn in *;
        apply Nat.ltb_lt in Hlt; lia).
      unfold batch_at, slice.
      replace (start + batch_size - start) with batch_size by lia.
      rewrite (Nat.add_comm start batch_size), <- skipn_skipn.
      apply firstn_skipn.
    + apply Nat.ltb_ge in Hlt. simpl. symmetry. now apply skipn_all2.
Qed.

Lemma range_from_bounds : forall fuel start stop step i,
  In i (range_from fuel start stop step) -> start <= i < stop.
Proof using Type.
  induction fuel as [|fuel IH]; intros start stop step i Hin; [destruct Hin|].
  cbn [range_from] in Hin.
  destruct (Nat.ltb start stop) eqn:Hlt; [| destruct Hin].
  apply Nat.ltb_lt in Hlt. destruct Hin as [<- | Hin]; [lia|].
  apply IH in Hin. lia.
Qed.

Lemma batch_at_length : forall df batch_size i,
  List.length (batch_at df batch_size i)
  = Nat.min batch_size (List.length (rows df) - i).
Proof using Type.
  intros df batch_size i. unfold batch_at, slice.
  rewrite length_firstn, length_skipn. f_equal. lia.
Qed.

(** No batch is empty and none has more than [batch_size] rows. *)
Lemma batches_sizes : forall batch_size df,
  0 < batch_size ->
  Forall (fun b => 0 < List.length b <= batch_size) (batches batch_size df).
Proof using Type.
  intros batch_size df Hbs. unfold batches.
  apply Forall_map, Forall_forall. intros i Hin.
  apply range_from_bounds in Hin. rewrite batch_at_length. lia.
Qed.

(** X5: the batches of the loop split the table: put end to end they are
    its rows, in order, none is empty and none has more than
    [batch_size] rows. *)
Theorem batches_partition : forall batch_size df,
  0 < batch_size ->
  List.concat (batches batch_size df) = rows df
  /\ Forall (fun b => 0 < List.length b <= batch_size) (batches batch_size df).
Proof using Type.
  intros batch_size df Hbs. split.
  - unfold batches. now rewrite batches_from by (simpl; lia).
  - now apply batches_sizes.
Qed.

Section Batches.

Variable model : list pyval -> outcome (list (list float)).
Hypothesis model_loaded : embedding_model = Some model.
Hypothesis store_up : forall t op, store_fault t op = None.

(** A batch the provider answers: its records go after those of the
    collection, one identifier is drawn per row, and the calls made are
    one to the provider and one to the store. *)
Lemma process_batch_run : forall df name batch_size i w old,
  has_column Object_Text df = true ->
  Forall (fun r => List.length r = List.length (columns df)) (rows df) ->
  dict_get name (chroma_db w) = Some old ->
  answers model (columns df) (batch_at df batch_size i) ->
  exists recs,
    process_batch model df name batch_size i w
    = (Ok tt,
       mkWorld (dict_set name (old ++ recs) (chroma_db w))
         (uuid_next w + List.length (batch_at df batch_size i))
         (trace w ++ batch_events (columns df) name (batch_at df batch_size i)))
    /\ records_of (columns df) (uuid_next w) (batch_at df batch_size i) recs.
Proof.
  intros df name batch_size i w old Hcol Hrows Hold [vectors [Henc Hlen]].
  unfold batch_at in *.
  set (batch := slice (rows df) i (i + batch_size)) in *.
  assert (Hb : Forall (fun r => List.length r = List.length (columns df))
                 batch) by now apply Forall_slice.
  unfold process_batch. fold batch.
  unfold bind at 1.
  rewrite (@prepare_rows_ok (columns df) batch empty_batch w Hcol Hb).
  cbn [empty_batch b_documents b_metadatas b_ids app].
  unfold batch_texts in Henc.
  set (docs := map (row_document (columns df)) batch) in *.
  set (metas := map (row_metadata (columns df)) batch).
  set (ids := map uuid4 (seq (uuid_next w) (List.length batch))).
  unfold bind at 1, encode at 1. run_monad. rewrite Henc.
  unfold collection_add, store_call. cbn [trace chroma_db uuid_next].
  rewrite store_up.
  assert (Ld : List.length docs = List.length batch)
    by (unfold docs; now rewrite length_map).
  assert (Lm : List.length metas = List.length batch)
    by (unfold metas; now rewrite length_map).
  assert (Li : List.length ids = List.length batch)
    by (unfold ids; now rewrite length_map, length_seq).
  rewrite Hlen, Ld, Lm, Li, !Nat.eqb_refl. cbn [andb negb].
  rewrite Hold.
  eexists. split.
  - unfold batch_events, batch_texts. fold docs.
    rewrite <- app_assoc. reflexivity.
  - destruct (make_records_fields ids vectors docs metas) as [H1 [H2 H3]];
      try congruence.
    unfold records_of. now rewrite H1, H2, H3.
Qed.

(** A batch on which the provider raises: nothing is written, and the
    exception leaves the loop body. *)
Lemma process_batch_fail : forall df name batch_size i w e,
  has_column Object_Text df = true ->
  Forall (fun r => List.length r = List.length (columns df)) (rows df) ->
  model (batch_texts (columns df) (batch_at df batch_size i)) = Raise e ->
  process_batch model df name batch_size i w
  = (Raise e,
     mkWorld (chroma_db w)
       (uuid_next w + List.length (batch_at df batch_size i))
       (trace w
          ++ [EvEncode (batch_texts (columns df) (batch_at df batch_size i))])).
Proof.
  intros df name batch_size i w e Hcol Hrows Henc.
  unfold batch_at in *.
  set (batch := slice (rows df) i (i + batch_size)) in *.
  assert (Hb : Forall (fun r => List.length r = List.length (columns df))
                 batch) by now apply Forall_slice.
  unfold process_batch. fold batch.
  unfold bind at 1.
  rewrite (@prepare_rows_ok (columns df) batch empty_batch w Hcol Hb).
  cbn [empty_batch b_documents b_metadatas b_ids app].
  unfold batch_texts in Henc.
  unfold bind at 1, encode at 1. run_monad. now rewrite Henc.
Qed.

(** The loop over batches that the provider answers. *)
Lemma batch_loop_run : forall df name batch_size,
  has_column Object_Text df = true ->
  Forall (fun r => List.length r = List.length (columns df)) (rows df) ->
  forall starts w old,
    dict_get name (chroma_db w) = Some old ->
    Forall (answers model (columns df)) (map (batch_at df batch_size) starts) ->
    exists recs w',
      for_each starts (process_batch model df name batch_size) w = (Ok tt, w')
      /\ chroma_db w' = dict_set name (old ++ recs) (chroma_db w)
      /\ uuid_next w'
         = uuid_next w
           + List.length (List.concat (map (batch_at df batch_size) starts))
      /\ trace w'
         = trace w
           ++ flat_map (batch_events (columns df) name)
                (map (batch_at df batch_size) starts)
      /\ records_of (columns df) (uuid_next w)
           (List.concat (map (batch_at df batch_size) starts)) recs.
Proof.
  intros df name batch_size Hcol Hrows.
  induction starts as [|i starts IH]; intros w old Hold Hans.
  - exists [], w. cbn [for_each map List.concat flat_map List.length].
    rewrite !app_nil_r, Nat.add_0_r.
    repeat split; try reflexivity.
    symmetry. now apply dict_set_same_value.
  - cbn [map] in Hans. inversion Hans as [|? ? Hi Hrest]; subst.
    destruct (@process_batch_run df name batch_size i w old
                Hcol Hrows Hold Hi) as [recs1 [Hrun Hrecs1]].
    set (w1 := mkWorld (dict_set name (old ++ recs1) (chroma_db w))
                 (uuid_next w + List.length (batch_at df batch_size i))
                 (trace w
                    ++ batch_events (columns df) name
                         (batch_at df batch_size i))) in *.
    assert (Hold1 : dict_get name (chroma_db w1) = Some (old ++ recs1))
      by apply dict_get_set_same.
    destruct (IH w1 (old ++ recs1) Hold1 Hrest)
      as [recs2 [w2 [Hrun2 [Hdb2 [Huuid2 [Htrace2 Hrecs2]]]]]].
    exists (recs1 ++ recs2), w2.
    split; [cbn [for_each]; unfold bind at 1; rewrite Hrun; exact Hrun2|].
    split.
    { rewrite Hdb2. unfold w1. cbn [chroma_db].
      now rewrite dict_set_set, app_assoc. }
    split.
    { rewrite Huuid2. unfold w1. cbn [uuid_next map List.concat].
      rewrite length_app. lia. }
    split.
    { rewrite Htrace2. unfold w1. cbn [trace map flat_map].
      now rewrite app_assoc. }
    cbn [map List.concat]. now apply records_of_app.
Qed.

(** The start of [ingest] on a readable table with the text column. *)
Lemma ingest_start : forall batch_size f df w,
  0 < batch_size ->
  read_csv (file f) = Ok df ->
  has_column Object_Text df = true ->
  exists w1,
    ingest model batch_size f w
    = bind (for_each
              (range_from (List.length (rows df)) 0 (List.length (rows df))
                 batch_size)
              (process_batch model df (derive_collection_name (filename f))
                 batch_size))
        (fun _ =>
           ret (upload_summary (derive_collection_name (filename f))
                  (List.length (rows df)))) w1
    /\ chroma_db w1
       = ensure_collection (derive_collection_name (filename f)) (chroma_db w)
    /\ uuid_next w1 = uuid_next w
    /\ dict_get (derive_collection_name (filename f)) (chroma_db w1)
       = Some (stored (derive_collection_name (filename f)) (chroma_db w))
    /\ trace w1
       = trace w
         ++ create_events (derive_collection_name (filename f)) (chroma_db w).
Proof.
  intros batch_size f df w Hbs Hread Hcol.
  set (name := derive_collection_name (filename f)).
  destruct (@create_or_get_ok store_up name w)
    as [w1 [Hcreate [Hdb1 [Huuid1 [Hget1 Htrace1]]]]].
  exists w1. split; [| now repeat split].
  unfold ingest. unfold bind at 1, lift at 1.
  rewrite Hread, Hcol. cbn [negb]. fold name.
  unfold bind at 1. rewrite Hcreate.
  unfold bind at 1, lift at 1, py_range.
  destruct batch_size as [|b]; [lia | reflexivity].
Qed.

(** X6: the calls of a successful upload.  When the provider answers
    every batch, the handler makes sure the collection is there and then,
    for each batch in order, calls the provider once with the documents
    of the batch and the store once with its records; no call to the
    provider carries more than [batch_size] texts. *)
Theorem upload_calls : forall batch_size f df w,
  0 < batch_size ->
  PyStr.endswith (filename f) ".csv" = true ->
  read_csv (file f) = Ok df ->
  has_column Object_Text df = true ->
  wf_frame df ->
  Forall (answers model (columns df)) (batches batch_size df) ->
  exists w',
    upload_file_with batch_size f w
    = (Ok (upload_summary (derive_collection_name (filename f))
             (List.length (rows df))), w')
    /\ trace w'
       = trace w
         ++ create_events (derive_collection_name (filename f)) (chroma_db w)
         ++ flat_map
              (batch_events (columns df)
                 (derive_collection_name (filename f)))
              (batches batch_size df)
    /\ Forall (encodes_at_most batch_size)
         (create_events (derive_collection_name (filename f)) (chroma_db w)
            ++ flat_map
                 (batch_events (columns df)
                    (derive_collection_name (filename f)))
                 (batches batch_size df)).
Proof.
  intros batch_size f df w Hbs Hext Hread Hcol [_ Hrows] Hans.
  set (name := derive_collection_name (filename f)) in *.
  destruct (@ingest_start batch_size f df w Hbs Hread Hcol)
    as [w1 [Hingest [_ [_ [Hget1 Htrace1]]]]].
  fold name in Hingest, Hget1, Htrace1.
  destruct (@batch_loop_run df name batch_size Hcol Hrows _ w1 _ Hget1 Hans)
    as [recs [w2 [Hloop [_ [_ [Htrace2 _]]]]]].
  exists w2. split; [| split].
  - unfold upload_file_with. rewrite Hext, model_loaded. cbn [negb].
    unfold try_except. rewrite Hingest. unfold bind at 1.
    now rewrite Hloop.
  - rewrite Htrace2, Htrace1. now rewrite <- app_assoc.
  - apply Forall_app. split.
    + unfold create_events. destruct (dict_get name (chroma_db w));
        repeat constructor.
    + apply Forall_flat_map.
      pose proof (@batches_sizes batch_size df Hbs) as Hsizes.
      eapply Forall_impl; [| exact Hsizes].
      intros b Hb. unfold batch_events, batch_texts.
      repeat constructor. cbn [encodes_at_most].
      rewrite !length_map. cbv beta in Hb. lia.
Qed.

(** X7: no rollback.  When the provider answers the first batches and
    raises on the next one, the upload ends in a 500 that carries the
    provider's message; the records of the batches answered before are in
    the collection, after those it held; the failing call is the last
    call made, so no later batch is sent. *)
Theorem upload_failure_keeps_batches :
  forall batch_size f df w done failed todo e,
  0 < batch_size ->
  PyStr.endswith (filename f) ".csv" = true ->
  read_csv (file f) = Ok df ->
  has_column Object_Text df = true ->
  wf_frame df ->
  batches batch_size df = done ++ failed :: todo ->
  Forall (answers model (columns df)) done ->
  model (batch_texts (columns df) failed) = Raise e ->
  exists recs w',
    upload_file_with batch_size f w
    = (Raise (HTTPException 500 ("Error processing file: " ++ str_exn e)), w')
    /\ stored (derive_collection_name (filename f)) (chroma_db w')
       = stored (derive_collection_name (filename f)) (chroma_db w) ++ recs
    /\ records_of (columns df) (uuid_next w) (List.concat done) recs
    /\ trace w'
       = trace w
         ++ create_events (derive_collection_name (filename f)) (chroma_db w)
         ++ flat_map
              (batch_events (columns df)
                 (derive_collection_name (filename f))) done
         ++ [EvEncode (batch_texts (columns df) failed)].
Proof.
  intros batch_size f df w done failed todo e
    Hbs Hext Hread Hcol [_ Hrows] Hsplit Hans Hfail.
  set (name := derive_collection_name (filename f)) in *.
  destruct (@ingest_start batch_size f df w Hbs Hread Hcol)
    as [w1 [Hingest [_ [Huuid1 [Hget1 Htrace1]]]]].
  fold name in Hingest, Hget1, Htrace1.
  unfold batches in Hsplit.
  apply map_eq_app in Hsplit.
  destruct Hsplit as [s1 [s2' [Hstarts [Hdone Hrest]]]].
  apply map_eq_cons in Hrest. destruct Hrest as [i [s2 [-> [Hi _]]]].
  subst done failed.
  destruct (@batch_loop_run df name batch_size Hcol Hrows s1 w1 _ Hget1 Hans)
    as [recs [w2 [Hloop [Hdb2 [_ [Htrace2 Hrecs]]]]]].
  pose proof (@process_batch_fail df name batch_size i w2 e Hcol Hrows Hfail)
    as Hbatch.
  eexists recs, _. split; [| split; [| split]].
  - unfold upload_file_with. rewrite Hext, model_loaded. cbn [negb].
    unfold try_except. rewrite Hingest. unfold bind at 1.
    rewrite Hstarts, for_each_app, Hloop. cbn [for_each].
    unfold bind at 1. rewrite Hbatch. reflexivity.
  - cbn [chroma_db]. rewrite Hdb2, stored_set. now rewrite String.eqb_refl.
  - now rewrite <- Huuid1.
  - cbn [trace]. rewrite Htrace2, Htrace1. now rewrite <- !app_assoc.
Qed.

End Batches.

(** *** Listing and deleting collections *)

Lemma dict_get_in_unique : forall (s : store) k v,
  unique_names s -> In (k, v) s -> dict_get k s = Some v.
Proof using Type.
  unfold unique_names. induction s as [|[k' v'] s IH]; intros k v Hu Hin;
    [destruct Hin|].
  inversion Hu as [|? ? Hk Hrest]; subst. cbn [dict_get].
  destruct Hin as [Heq | Hin].
  - injection Heq as -> ->. now rewrite String.eqb_refl.
  - destruct (String.eqb k k') eqn:E; [| now apply IH].
    apply String.eqb_eq in E. subst k'. exfalso. apply Hk.
    apply in_map_iff. now exists (k, v).
Qed.

Lemma dict_get_remove_same : forall (A : Type) k (d : list (string * A)),
  dict_get k (dict_remove k d) = None.
Proof using Type.
  intros A k d. unfold dict_remove.
  induction d as [|[k' v] d IH]; [reflexivity|]. cbn [filter fst].
  destruct (String.eqb k' k) eqn:E; cbn [negb dict_get]; [exact IH|].
  rewrite String.eqb_sym, E. exact IH.
Qed.

Lemma dict_get_remove_other : forall (A : Type) k c (d : list (string * A)),
  c <> k -> dict_get c (dict_remove k d) = dict_get c d.
Proof using Type.
  intros A k c d Hne. unfold dict_remove.
  induction d as [|[k' v] d IH]; [reflexivity|]. cbn [filter fst].
  destruct (String.eqb k' k) eqn:E; cbn [negb dict_get].
  - apply String.eqb_eq in E. subst k'.
    apply String.eqb_neq in Hne. now rewrite Hne.
  - now rewrite IH.
Qed.

Lemma dict_remove_fresh : forall (A : Type) k (v : A) d,
  dict_get k d = None -> dict_remove k (d ++ [(k, v)]) = d.
Proof using Type.
  intros A k v d. unfold dict_remove. induction d as [|[k' v'] d IH];
    cbn [app filter fst dict_get]; intros Hnone.
  - now rewrite String.eqb_refl.
  - destruct (String.eqb k k') eqn:E; [discriminate|].
    rewrite String.eqb_sym, E. cbn [negb]. now rewrite IH.
Qed.

Lemma dict_set_fresh : forall (A : Type) k (v0 v : A) d,
  dict_get k d = None -> dict_set k v (d ++ [(k, v0)]) = d ++ [(k, v)].
Proof using Type.
  intros A k v0 v d. induction d as [|[k' v'] d IH];
    cbn [app dict_set dict_get]; intros Hnone.
  - now rewrite String.eqb_refl.
  - destruct (String.eqb k k') eqn:E; [discriminate|]. now rewrite IH.
Qed.

(** The counting loop over collections of the store: it ends in the
    complete list of entries or in an exception, and leaves the store as
    it was. *)
Lemma count_each_outcome : forall (s : store) l result w,
  chroma_db w = s ->
  (forall c, In c l -> dict_get (fst c) s = Some (snd c)) ->
  chroma_db (snd (count_each (map fst l) result w)) = s
  /\ (fst (count_each (map fst l) result w) = Ok (result ++ map info_of l)
      \/ exists e, fst (count_each (map fst l) result w) = Raise e)
  /\ ((forall op, admin_fault (trace w) op = None) ->
      count_each (map fst l) result w = (Ok (result ++ map info_of l), w)).
Proof.
  intros s l. induction l as [|[k v] l IH]; intros result w Hw Hl.
  - cbn [map count_each]. rewrite app_nil_r. simpl.
    split; [exact Hw | split; [now left | reflexivity]].
  - cbn [map fst count_each]. unfold bind, count_call, admin_call.
    destruct (admin_fault (trace w) (OpCount k)) as [e|] eqn:Hf.
    + simpl. split; [exact Hw |]. split; [right; now exists e|].
      intros Hup. rewrite Hup in Hf. discriminate.
    + pose proof (Hl (k, v) (or_introl eq_refl)) as Hk. cbn [fst snd] in Hk.
      rewrite Hw, Hk. cbn [fst snd].
      assert (Hw1 : chroma_db (mkWorld s (uuid_next w) (trace w)) = s)
        by reflexivity.
      destruct (IH (result ++ [mkCollectionInfo k (List.length v)])
                  (mkWorld s (uuid_next w) (trace w)) Hw1
                  (fun c Hc => Hl c (or_intror Hc)))
        as [H1 [H2 H3]].
      rewrite <- app_assoc in H2, H3. cbn [app] in H2, H3.
      split; [exact H1 |]. split; [exact H2 |].
      intros Hup. rewrite (H3 Hup). subst s. now destruct w.
Qed.

(** The listing when nothing faults. *)
Lemma get_collections_run : forall w,
  unique_names (chroma_db w) ->
  store_fault (trace w) OpList = None ->
  (forall t op, admin_fault t op = None) ->
  get_collections w
  = (Ok (map info_of (chroma_db w)),
     mkWorld (chroma_db w) (uuid_next w) (trace w ++ [EvStore OpList])).
Proof.
  intros w Hu Hf Hup.
  unfold get_collections, try_except, bind, list_collections, store_call.
  rewrite Hf. cbn [fst snd].
  set (w1 := mkWorld (chroma_db w) (uuid_next w)
               (trace w ++ [EvStore OpList])).
  destruct (@count_each_outcome (chroma_db w) (chroma_db w) [] w1 eq_refl)
    as [_ [_ H3]].
  { intros [k v] Hin. now apply dict_get_in_unique. }
  rewrite H3 by (intros; apply Hup). reflexivity.
Qed.

(** The counting loop over collections of the store ends in the
    exception of the first count the store fails, or else in the
    complete list of entries. *)
Lemma count_each_fault : forall (s : store) (l : list (string * list record))
  result w,
  chroma_db w = s ->
  (forall c, In c l -> dict_get (fst c) s = Some (snd c)) ->
  fst (count_each (map fst l) result w)
  = match first_count_fault (trace w) (map fst l) with
    | None => Ok (result ++ map info_of l)
    | Some e => Raise e
    end.
Proof.
  intros s l. induction l as [|[k v] l IH]; intros result w Hw Hl.
  - cbn. now rewrite app_nil_r.
  - cbn [map fst count_each first_count_fault].
    unfold bind, count_call, admin_call.
    destruct (admin_fault (trace w) (OpCount k)) as [e|] eqn:Hf;
      [reflexivity|].
    pose proof (Hl (k, v) (or_introl eq_refl)) as Hk. cbn [fst snd] in Hk.
    rewrite Hw, Hk. cbn [fst snd].
    rewrite (IH (result ++ [mkCollectionInfo k (List.length v)])
               (mkWorld s (uuid_next w) (trace w)) eq_refl
               (fun c Hc => Hl c (or_intror Hc))).
    cbn [trace]. now rewrite <- app_assoc.
Qed.

(** X8: the listing is all or nothing.  On a store with distinct names
    [GET /collections] returns one entry per collection, in listing
    order, with its name and the number of its records, unless a call
    to the store fails: then it ends in a 500 whose detail is "Error
    getting collections: " followed by the text of the exception of the
    first call that failed (the listing call, or the first count that
    fails, in listing order), and never in a partial list.  It returns
    the list when the store does not fault. *)
Theorem get_collections_all_or_nothing : forall w,
  unique_names (chroma_db w) ->
  fst (get_collections w)
  = match listing_fault w with
    | None => Ok (map info_of (chroma_db w))
    | Some e =>
        Raise (HTTPException 500
                 ("Error getting collections: " ++ str_exn e))
    end
  /\ (store_fault (trace w) OpList = None ->
      (forall t op, admin_fault t op = None) ->
      fst (get_collections w) = Ok (map info_of (chroma_db w))).
Proof.
  intros w Hu.
  assert (Hrun :
    fst (get_collections w)
    = match listing_fault w with
      | None => Ok (map info_of (chroma_db w))
      | Some e =>
          Raise (HTTPException 500
                   ("Error getting collections: " ++ str_exn e))
      end).
  { unfold get_collections, try_except, bind, list_collections, store_call,
      listing_fault.
    destruct (store_fault (trace w) OpList) as [e|] eqn:Hf; [reflexivity|].
    cbn [fst snd].
    set (w1 := mkWorld (chroma_db w) (uuid_next w)
                 (trace w ++ [EvStore OpList])).
    pose proof (@count_each_fault (chroma_db w) (chroma_db w) [] w1 eq_refl)
      as Hcount.
    cbn [app trace w1] in Hcount.
    assert (Hl : forall c, In c (chroma_db w) ->
                   dict_get (fst c) (chroma_db w) = Some (snd c))
      by (intros [k v] Hin; now apply dict_get_in_unique).
    specialize (Hcount Hl).
    destruct (count_each (map fst (chroma_db w)) [] w1) as [[r|e'] w2];
      cbn [fst] in Hcount;
      destruct (first_count_fault (trace w ++ [EvStore OpList])
                  (map fst (chroma_db w)));
      try discriminate; cbn [fst]; [exact Hcount|].
    injection Hcount as ->. reflexivity. }
  split; [exact Hrun|].
  intros Hf Hup. rewrite Hrun. unfold listing_fault. rewrite Hf.
  assert (Hnone : forall t names, first_count_fault t names = None).
  { intros t names. induction names as [|n names IH]; [reflexivity|].
    cbn [first_count_fault]. now rewrite Hup. }
  now rewrite Hnone.
Qed.

(** X9: what a deletion does.  When it returns, the collection existed
    and the store is the store without it, every other collection being
    as it was; when it fails, the status is 500 and the store is as it
    was.  When the store does not fault it returns exactly when the
    collection exists. *)
Theorem delete_collection_outcome : forall name w,
  match fst (delete_collection name w) with
  | Ok r =>
      dict_get name (chroma_db w) <> None
      /\ chroma_db (snd (delete_collection name w))
         = dict_remove name (chroma_db w)
      /\ dict_get name (chroma_db (snd (delete_collection name w))) = None
      /\ (forall c, c <> name ->
            dict_get c (chroma_db (snd (delete_collection name w)))
            = dict_get c (chroma_db w))
      /\ message_text r
         = ("Collection '" ++ name ++ "' deleted successfully")%string
  | Raise e =>
      http_status (fst (delete_collection name w)) = 500%Z
      /\ chroma_db (snd (delete_collection name w)) = chroma_db w
  end
  /\ (admin_fault (trace w) (OpDelete name) = None ->
      ((exists r, fst (delete_collection name w) = Ok r)
       <-> dict_get name (chroma_db w) <> None)).
Proof using admin_fault.
  clear - admin_fault.
  intros name w.
  unfold delete_collection, try_except, bind, client_delete_collection,
    admin_call.
  destruct (admin_fault (trace w) (OpDelete name)) as [e|] eqn:Hf.
  - simpl. split; [now split | discriminate].
  - destruct (dict_get name (chroma_db w)) as [recs|] eqn:Hget; simpl.
    + split.
      * split; [discriminate|]. split; [reflexivity|].
        split; [apply dict_get_remove_same|].
        split; [| reflexivity].
        intros c Hc. now apply dict_get_remove_other.
      * intros _. split; [discriminate | intros _; eexists; reflexivity].
    + split; [now split|].
      intros _. split; [intros [r Hr]; discriminate |].
      intros H. exfalso. apply H. reflexivity.
Qed.

Section Management.

Hypothesis store_up : forall t op, store_fault t op = None.
Hypothesis admin_up : forall t op, admin_fault t op = None.

(** X10: deleting an existing collection takes it out of the listing.
    With distinct names and a store that does not fault, the listing
    after the deletion is the listing before without the entry of that
    collection, the other entries keeping their order and counts. *)
Theorem delete_then_list : forall name w recs,
  unique_names (chroma_db w) ->
  dict_get name (chroma_db w) = Some recs ->
  exists r w1,
    delete_collection name w = (Ok r, w1)
    /\ fst (get_collections w1)
       = Ok (filter (fun info => negb (String.eqb (info_name info) name))
               (map info_of (chroma_db w)))
    /\ fst (get_collections w) = Ok (map info_of (chroma_db w)).
Proof using store_fault admin_fault store_up admin_up.
  clear - store_fault admin_fault store_up admin_up.
  intros name w recs Hu Hget.
  assert (Hdel : delete_collection name w
                 = (Ok (mkMessageResponse
                          ("Collection '" ++ name ++ "' deleted successfully")),
                    mkWorld (dict_remove name (chroma_db w)) (uuid_next w)
                      (trace w))).
  { unfold delete_collection, try_except, bind, client_delete_collection,
      admin_call. now rewrite admin_up, Hget. }
  eexists _, _. split; [exact Hdel|].
  split.
  - rewrite get_collections_run; cbn [chroma_db trace]; auto;
      [| now apply unique_names_remove].
    cbn [fst]. f_equal.
    unfold dict_remove. clear. induction (chroma_db w) as [|[k v] s IH];
      [reflexivity|].
    cbn [filter map fst info_of info_name].
    destruct (negb (String.eqb k name)); cbn [map]; now rewrite IH.
  - rewrite get_collections_run; auto.
Qed.

Variable model : list pyval -> outcome (list (list float)).
Hypothesis model_loaded : embedding_model = Some model.
Hypothesis encode_total : forall texts,
  exists vectors,
    model texts = Ok vectors
    /\ List.length vectors = List.length texts.

Lemma dict_get_in : forall (A : Type) k (v : A) d,
  dict_get k d = Some v -> In (k, v) d.
Proof using Type.
  intros A k v d. induction d as [|[k' v'] d IH]; cbn [dict_get];
    [discriminate|].
  destruct (String.eqb k k') eqn:E; intros H.
  - apply String.eqb_eq in E. injection H as ->. subst. now left.
  - right. now apply IH.
Qed.

Lemma in_dict_set_other : forall (A : Type) k (v : A) d x,
  fst x <> k -> (In x (dict_set k v d) <-> In x d).
Proof using Type.
  intros A k v d x Hne. induction d as [|[k' v'] d IH]; cbn [dict_set].
  - split; [intros [<- | []]; now simpl in Hne | intros []].
  - destruct (String.eqb k k') eqn:E.
    + apply String.eqb_eq in E. subst k'. simpl.
      split; (intros [<- | H]; [now simpl in Hne | now right]).
    + simpl. now rewrite IH.
Qed.

Lemma in_ensure_other : forall name (s : store) x,
  fst x <> name -> (In x (ensure_collection name s) <-> In x s).
Proof using Type.
  intros name s x Hne. unfold ensure_collection.
  destruct (dict_get name s); [reflexivity|].
  rewrite in_app_iff. split; [| now left].
  intros [H | [<- | []]]; [assumption | now simpl in Hne].
Qed.

(** X11: an upload shows in the listing.  After a successful upload to a
    store with distinct names, [GET /collections] lists the collection of
    the file with its previous count plus the number of rows, and lists
    every other collection with the count it had. *)
Theorem upload_then_list : forall f df w,
  PyStr.endswith (filename f) ".csv" = true ->
  read_csv (file f) = Ok df ->
  has_column Object_Text df = true ->
  wf_frame df ->
  unique_names (chroma_db w) ->
  exists r w1 listing,
    upload_file f w = (Ok r, w1)
    /\ fst (get_collections w1) = Ok listing
    /\ In (mkCollectionInfo (derive_collection_name (filename f))
             (collection_count (derive_collection_name (filename f))
                (chroma_db w)
              + List.length (rows df)))
          listing
    /\ (forall c k,
          c <> derive_collection_name (filename f) ->
          (In (mkCollectionInfo c k) listing
           <-> In (mkCollectionInfo c k) (map info_of (chroma_db w)))).
Proof.
  intros f df w Hext Hread Hcol [_ Hrows] Hu.
  set (name := derive_collection_name (filename f)).
  assert (H100 : 0 < 100) by lia.
  destruct (@upload_ok model model_loaded encode_total store_up
              100 f df w H100 Hext Hread Hcol Hrows)
    as [recs [w1 [Hrun [Hdb [_ Hrec]]]]].
  fold name in Hrun, Hdb.
  assert (Hu1 : unique_names (chroma_db w1)).
  { replace w1 with (snd (upload_file f w))
      by (unfold upload_file; now rewrite Hrun).
    apply (@upload_keeps unique_names 100 f); [| | exact Hu].
    - intros s Hnone Hs. now apply unique_names_add.
    - intros s old recs' Hold Hs. unfold unique_names in *.
      now rewrite dict_set_keys with (old := old). }
  eexists _, w1, (map info_of (chroma_db w1)).
  split; [exact Hrun|].
  split; [now rewrite get_collections_run by auto|].
  split.
  - apply in_map_iff.
    exists (name, stored name (chroma_db w) ++ recs). split.
    + unfold info_of, collection_count. cbn [fst snd]. f_equal.
      rewrite length_app. f_equal. now apply records_of_length in Hrec.
    + apply dict_get_in. rewrite Hdb. apply dict_get_set_same.
  - intros c k Hc. rewrite !in_map_iff.
    split; intros [x [Hx Hin]]; exists x; (split; [exact Hx|]);
      assert (Hfst : fst x <> name)
        by (destruct x as [k' v']; unfold info_of in Hx; cbn [fst snd] in *;
            injection Hx as -> _; exact Hc).
    + rewrite Hdb in Hin. apply in_dict_set_other in Hin; [| exact Hfst].
      now apply in_ensure_other in Hin.
    + rewrite Hdb. apply in_dict_set_other; [exact Hfst|].
      now apply in_ensure_other.
Qed.

(** X12: deleting a collection takes its records with it.  An upload to
    a collection that did not exist, followed by the deletion of that
    collection, leaves the store as it was before the upload. *)
Theorem upload_then_delete_restores : forall f df w,
  PyStr.endswith (filename f) ".csv" = true ->
  read_csv (file f) = Ok df ->
  has_column Object_Text df = true ->
  wf_frame df ->
  dict_get (derive_collection_name (filename f)) (chroma_db w) = None ->
  exists r1 w1 r2 w2,
    upload_file f w = (Ok r1, w1)
    /\ collection_count (derive_collection_name (filename f)) (chroma_db w1)
       = List.length (rows df)
    /\ delete_collection (derive_collection_name (filename f)) w1
       = (Ok r2, w2)
    /\ chroma_db w2 = chroma_db w.
Proof.
  intros f df w Hext Hread Hcol [_ Hrows] Hnew.
  set (name := derive_collection_name (filename f)) in *.
  assert (H100 : 0 < 100) by lia.
  destruct (@upload_ok model model_loaded encode_total store_up
              100 f df w H100 Hext Hread Hcol Hrows)
    as [recs [w1 [Hrun [Hdb [_ Hrec]]]]].
  fold name in Hrun, Hdb.
  assert (Hdb1 : chroma_db w1 = chroma_db w ++ [(name, recs)]).
  { rewrite Hdb. unfold stored, ensure_collection. rewrite Hnew.
    cbn [app]. now apply dict_set_fresh. }
  assert (Hget1 : dict_get name (chroma_db w1) = Some recs).
  { rewrite Hdb1, dict_get_app_new by assumption.
    now rewrite String.eqb_refl. }
  eexists _, w1, _, _.
  split; [exact Hrun|].
  split.
  { unfold collection_count, stored. rewrite Hget1.
    now apply records_of_length in Hrec. }
  split.
  - unfold delete_collection, try_except, bind, client_delete_collection,
      admin_call. rewrite admin_up, Hget1. reflexivity.
  - cbn [chroma_db]. rewrite Hdb1. now apply dict_remove_fresh.
Qed.

End Management.

(** *** The calls of a chat request *)

Section ChatRuns.

Variable model : list pyval -> outcome (list (list float)).
Hypothesis model_loaded : embedding_model = Some model.
Hypothesis store_up : forall t op, store_fault t op = None.

(** X13: the calls of a chat request that reaches the query.  The
    handler lists the collections, gets the one named in the request (the
    first one listed when the request names none), calls the provider
    once with the message alone, and queries that collection for five
    results: these four calls, in this order, whatever the query
    returns. *)
Theorem chat_calls : forall kv w first recs0 rest name recs vec vecs,
  truthy (message_of kv) = true ->
  chroma_db w = (first, recs0) :: rest ->
  (if negb (truthy (collection_of kv)) then PStr first else collection_of kv)
  = PStr name ->
  dict_get name (chroma_db w) = Some recs ->
  model [message_of kv] = Ok (vec :: vecs) ->
  trace (snd (chat_endpoint (mkRequest (Ok (PDict kv))) w))
  = trace w
    ++ [ EvStore OpList;
         EvStore (OpGet (PStr name));
         EvEncode [message_of kv];
         EvStore (OpQuery name 5) ]
  /\ (truthy (collection_of kv) = false -> name = first).
Proof.
  intros kv w first recs0 rest name recs vec vecs
    Hmsg Hdb Htarget Hrecs Henc.
  split.
  - unfold chat_endpoint. run_monad.
    fold (message_of kv). fold (collection_of kv).
    rewrite Hmsg, model_loaded. cbn [negb].
    unfold search, list_collections, get_collection, encode, collection_query,
      store_call.
    run_monad. rewrite store_up. rewrite Hdb in *. cbn [map fst].
    rewrite Htarget.
    repeat (progress (cbn [map fst snd negb first_item
                            chroma_db trace uuid_next];
                      rewrite ?store_up, ?Hrecs, ?Henc)).
    destruct (nearest recs [vec] 5) as [results|e]; cbn [fst snd].
    + destruct (render_results results); cbn [snd trace];
        now rewrite <- !app_assoc.
    + cbn [snd trace]. now rewrite <- !app_assoc.
  - intros Hnone. rewrite Hnone in Htarget. cbn [negb] in Htarget.
    now injection Htarget.
Qed.

(** X14: a request that names a collection the store does not have is
    answered, with status 200, by "Error searching: " followed by the
    text of the exception that the store's lookup of that name raised;
    the lookup is the last call made, so the provider is not called and
    nothing is queried. *)
Theorem chat_missing_collection : forall kv w first recs0 rest name,
  truthy (message_of kv) = true ->
  chroma_db w = (first, recs0) :: rest ->
  store_fault (trace w) OpList = None ->
  collection_of kv = PStr name ->
  name <> "" ->
  dict_get name (chroma_db w) = None ->
  exists e,
    fst (get_collection (PStr name) (snd (list_collections w))) = Raise e
    /\ fst (chat_endpoint (mkRequest (Ok (PDict kv))) w)
       = Ok (mkChatResponse ("Error searching: " ++ str_exn e))
    /\ http_status (fst (chat_endpoint (mkRequest (Ok (PDict kv))) w))
       = 200%Z
    /\ trace (snd (chat_endpoint (mkRequest (Ok (PDict kv))) w))
       = trace w ++ [EvStore OpList; EvStore (OpGet (PStr name))].
Proof using model model_loaded.
  clear store_up.
  intros kv w first recs0 rest name Hmsg Hdb Hlist Hcol Hname Hnone.
  assert (Htruthy : truthy (collection_of kv) = true).
  { rewrite Hcol. cbn [truthy]. apply negb_true_iff.
    now apply String.eqb_neq. }
  assert (Hget : exists e,
    get_collection (PStr name) (snd (list_collections w))
    = (Raise e,
       mkWorld (chroma_db w) (uuid_next w)
         (trace w ++ [EvStore OpList; EvStore (OpGet (PStr name))]))).
  { unfold get_collection, list_collections, store_call.
    rewrite Hlist. cbn [fst snd chroma_db trace uuid_next].
    rewrite <- !app_assoc. cbn [app].
    destruct (store_fault (trace w ++ [EvStore OpList]) (OpGet (PStr name)))
      as [e|]; [now exists e|].
    rewrite Hnone. eexists. reflexivity. }
  destruct Hget as [e Hget]. exists e.
  assert (Hrun :
    chat_endpoint (mkRequest (Ok (PDict kv))) w
    = (Ok (mkChatResponse ("Error searching: " ++ str_exn e)),
       mkWorld (chroma_db w) (uuid_next w)
         (trace w ++ [EvStore OpList; EvStore (OpGet (PStr name))]))).
  { unfold chat_endpoint. run_monad.
    fold (message_of kv). fold (collection_of kv).
    rewrite Hmsg, model_loaded. cbn [negb].
    unfold search. unfold bind at 1, try_except.
    unfold bind at 1.
    assert (Hl : list_collections w
                 = (Ok (map fst (chroma_db w)), snd (list_collections w))).
    { unfold list_collections, store_call. now rewrite Hlist. }
    rewrite Hl, Hdb. cbn [map fst negb].
    rewrite Htruthy. cbn [negb]. unfold bind at 1. rewrite Hcol, Hget.
    now rewrite Hdb. }
  rewrite Hrun, Hget. repeat split.
Qed.

(** X15: an empty answer.  When the store answers the query with no
    list of documents, or with an empty one, the response is "No relevant
    results found for your query." *)
Theorem chat_no_results :
  forall kv w first recs0 rest name recs vec vecs results,
  truthy (message_of kv) = true ->
  chroma_db w = (first, recs0) :: rest ->
  (if negb (truthy (collection_of kv)) then PStr first else collection_of kv)
  = PStr name ->
  dict_get name (chroma_db w) = Some recs ->
  model [message_of kv] = Ok (vec :: vecs) ->
  nearest recs [vec] 5 = Ok results ->
  (documents results = [] \/ exists more, documents results = [] :: more) ->
  fst (chat_endpoint (mkRequest (Ok (PDict kv))) w)
  = Ok (mkChatResponse "No relevant results found for your query.").
Proof.
  intros kv w first recs0 rest name recs vec vecs results
    Hmsg Hdb Htarget Hrecs Henc Hnear Hempty.
  rewrite (@chat_renders_answer model kv w first recs0 rest name recs
             vec vecs results model_loaded Hmsg store_up Hdb Htarget Hrecs
             Henc Hnear).
  unfold render_results.
  destruct Hempty as [-> | [more ->]]; reflexivity.
Qed.

End ChatRuns.

End Service.


(** ** The collection name *)

Lemma length_append : forall a b : string,
  String.length (a ++ b) = String.length a + String.length b.
Proof.
  induction a as [|c a IH]; intros b; simpl; [reflexivity|]. now rewrite IH.
Qed.

(** When ".csv" occurs in a file name at its end only, removing every
    occurrence removes the extension. *)
Lemma replace_trailing_extension : forall stem,
  Spec.occurs_within (String.length stem) ".csv" (stem ++ ".csv") = false ->
  PyStr.replace ".csv" "" (stem ++ ".csv") = stem.
Proof.
  unfold PyStr.replace.
  induction stem as [|c stem IH]; intros Hocc; [reflexivity|].
  cbn [String.length Spec.occurs_within] in Hocc.
  apply orb_false_iff in Hocc. destruct Hocc as [Hpre Hrest].
  change (String c stem ++ ".csv")%string with (String c (stem ++ ".csv")) in *.
  cbn [PyStr.replace_from]. rewrite Hpre. f_equal. now apply IH.
Qed.

Lemma strip_trailing_extension : forall stem,
  Spec.strip_suffix ".csv" (stem ++ ".csv") = stem.
Proof.
  induction stem as [|c stem IH]; [reflexivity|].
  change (String c stem ++ ".csv")%string with (String c (stem ++ ".csv")).
  cbn [Spec.strip_suffix].
  destruct (String.eqb (String c (stem ++ ".csv")) ".csv") eqn:E.
  - apply String.eqb_eq in E.
    apply (f_equal String.length) in E.
    cbn [String.length] in E. rewrite length_append in E. simpl in E. lia.
  - now rewrite IH.
Qed.

Lemma lower_ascii_space : forall c,
  Ascii.eqb (PyStr.lower_ascii c) " " = Ascii.eqb c " ".
Proof.
  intros [[] [] [] [] [] [] [] []]; vm_compute; reflexivity.
Qed.

(** Replacing spaces and lower-casing commute. *)
Lemma lower_replace_spaces : forall s,
  PyStr.lower (PyStr.replace " " "_" s)
  = Spec.map_string Spec.space_to_underscore (PyStr.lower s).
Proof.
  unfold PyStr.replace.
  induction s as [|c s IH]; [reflexivity|].
  cbn [PyStr.replace_from String.prefix String.length Nat.sub PyStr.lower
         Spec.map_string].
  unfold Spec.space_to_underscore at 1. rewrite lower_ascii_space.
  destruct (ascii_dec " " c) as [<-|Hne].
  - destruct s; cbn [String.prefix append PyStr.lower]; rewrite IH;
      reflexivity.
  - assert (E : Ascii.eqb c " " = false)
      by (apply Ascii.eqb_neq; congruence).
    rewrite E. cbn [PyStr.lower]. now rewrite IH.
Qed.

(** On such names the derived name is the stated one. *)
Lemma derive_name_plain : forall stem,
  Spec.occurs_within (String.length stem) ".csv" (stem ++ ".csv") = false ->
  derive_collection_name (stem ++ ".csv")
  = Spec.collection_name_of (stem ++ ".csv").
Proof.
  intros stem Hocc. unfold derive_collection_name, Spec.collection_name_of.
  rewrite replace_trailing_extension by assumption.
  rewrite strip_trailing_extension. apply lower_replace_spaces.
Qed.

(** C5: the accepted name "my.csv.backup.csv" goes to the collection
    "my.backup": [replace] removes both occurrences of ".csv", while the
    name with only its extension stripped is "my.csv.backup". *)
Theorem derive_name_drops_inner_extension :
  PyStr.endswith "my.csv.backup.csv" ".csv" = true
  /\ derive_collection_name "my.csv.backup.csv" = "my.backup"
  /\ Spec.collection_name_of "my.csv.backup.csv" = "my.csv.backup".
Proof. repeat split; reflexivity. Qed.

Lemma replace_spaces_char : forall s,
  string_forall (fun c => negb (Ascii.eqb c " ")) (PyStr.replace " " "_" s)
  = true.
Proof.
  unfold PyStr.replace. induction s as [|c s IH]; [reflexivity|].
  cbn [PyStr.replace_from String.prefix String.length Nat.sub].
  destruct (ascii_dec " " c) as [<-|Hne].
  - destruct s; cbn [String.prefix append string_forall]; rewrite ?IH;
      reflexivity.
  - cbn [string_forall]. rewrite IH.
    assert (E : Ascii.eqb c " " = false)
      by (apply Ascii.eqb_neq; congruence).
    now rewrite E.
Qed.

Lemma lower_ascii_normal : forall c,
  Ascii.eqb c " " = false -> normal_char (PyStr.lower_ascii c) = true.
Proof.
  intros [[] [] [] [] [] [] [] []]; vm_compute; intros H;
    first [reflexivity | discriminate].
Qed.

(** X16: a derived collection name has no space and no ASCII capital,
    whatever the file name. *)
Theorem derived_name_is_normal : forall fname,
  string_forall normal_char (derive_collection_name fname) = true.
Proof.
  intros fname. unfold derive_collection_name.
  generalize (replace_spaces_char (PyStr.replace ".csv" "" fname)).
  generalize (PyStr.replace " " "_" (PyStr.replace ".csv" "" fname)).
  induction s as [|c s IH]; [reflexivity|].
  cbn [string_forall PyStr.lower]. intros H.
  apply andb_true_iff in H. destruct H as [Hc Hs].
  apply negb_true_iff in Hc.
  now rewrite lower_ascii_normal, IH.
Qed.

(** ** The deployment checker *)

Lemma scan_files_missing : forall h model_path files st,
  DockerCheck.missing_files (DockerCheck.scan_files h model_path files st)
  = DockerCheck.missing_files st ++ DockerCheck.absent h model_path files.
Proof.
  intros h model_path files. unfold DockerCheck.absent.
  induction files as [|n files IH]; intros st; cbn [DockerCheck.scan_files filter].
  - now rewrite app_nil_r.
  - destruct (DockerCheck.path_exists h (DockerCheck.path_join model_path n));
      cbn [negb]; rewrite IH; cbn [DockerCheck.missing_files];
      [reflexivity | now rewrite <- app_assoc].
Qed.

Lemma scan_files_load : forall h load model_path files st,
  DockerCheck.scan_files (DockerCheck.with_load h load) model_path files st
  = DockerCheck.scan_files h model_path files st.
Proof.
  intros h load model_path files.
  induction files as [|n files IH]; intros st; cbn [DockerCheck.scan_files];
    [reflexivity|].
  cbn [DockerCheck.with_load DockerCheck.path_exists DockerCheck.st_size].
  destruct (DockerCheck.path_exists h (DockerCheck.path_join model_path n));
    apply IH.
Qed.

Lemma absent_nil : forall h model_path files,
  DockerCheck.absent h model_path files = []
  <-> Forall (fun n =>
                DockerCheck.path_exists h (DockerCheck.path_join model_path n)
                = true) files.
Proof.
  intros h model_path files. unfold DockerCheck.absent.
  induction files as [|n files IH]; cbn [filter].
  - split; [constructor | reflexivity].
  - destruct (DockerCheck.path_exists h (DockerCheck.path_join model_path n))
      eqn:E; cbn [negb].
    + rewrite IH. split; [now constructor | now inversion 1].
    + split; [discriminate | inversion 1; congruence].
Qed.

(** X17: the verdict of [check_model].  It is True exactly when the
    directory "models" exists, the model directory exists in it, each of
    the seven required files exists in the model directory, and the model
    loads and encodes the test sentence. *)
Theorem check_model_verdict : forall h,
  fst (DockerCheck.check_model h) = true
  <-> DockerCheck.path_exists h "models" = true
      /\ DockerCheck.path_exists h "models/all-MiniLM-L6-v2" = true
      /\ Forall (fun n =>
                   DockerCheck.path_exists h
                     (DockerCheck.path_join "models/all-MiniLM-L6-v2" n)
                   = true)
           DockerCheck.required_files
      /\ exists shape,
           DockerCheck.load_model h "models/all-MiniLM-L6-v2" = Ok shape.
Proof.
  intros h. unfold DockerCheck.check_model.
  change (DockerCheck.path_join "models" "all-MiniLM-L6-v2")
    with "models/all-MiniLM-L6-v2".
  destruct (DockerCheck.path_exists h "models"); cbn [negb];
    [| split; [discriminate | intros [H _]; discriminate]].
  destruct (DockerCheck.path_exists h "models/all-MiniLM-L6-v2"); cbn [negb];
    [| split; [discriminate | intros [_ [H _]]; discriminate]].
  cbv zeta. rewrite <- absent_nil.
  pose proof (scan_files_missing h "models/all-MiniLM-L6-v2"
                DockerCheck.required_files
                (DockerCheck.mkScan [] 0%float
                   ([ "🔍 Checking local model for Docker deployment...";
                      DockerCheck.repeat_string "=" 50 ]
                      ++ [ "📁 Checking model files..." ]))) as Hm.
  cbn [DockerCheck.missing_files app] in Hm.
  cbn [app]. rewrite Hm.
  destruct (DockerCheck.absent h "models/all-MiniLM-L6-v2"
              DockerCheck.required_files) as [|n ns].
  - destruct (DockerCheck.load_model h "models/all-MiniLM-L6-v2")
      as [shape|e]; cbn [fst].
    + split; [intros _; repeat split; now exists shape | reflexivity].
    + split; [discriminate | intros [_ [_ [_ [shape H]]]]; discriminate].
  - cbn [fst]. split; [discriminate | intros [_ [_ [H _]]]; discriminate].
Qed.

(** X18: an incomplete model is reported and not loaded.  When both
    directories exist and some required file does not, the verdict is
    False, the last two lines printed are the list of the missing
    required files, in the order of the list and separated by commas, and
    the hint; and the result does not depend on what loading the model
    would give. *)
Theorem check_model_reports_missing : forall h,
  DockerCheck.path_exists h "models" = true ->
  DockerCheck.path_exists h "models/all-MiniLM-L6-v2" = true ->
  DockerCheck.absent h "models/all-MiniLM-L6-v2" DockerCheck.required_files
  <> [] ->
  fst (DockerCheck.check_model h) = false
  /\ (exists lines,
        snd (DockerCheck.check_model h)
        = lines
          ++ [ (PyStr.nl ++ "❌ Missing files: "
                  ++ PyStr.join ", "
                       (DockerCheck.absent h "models/all-MiniLM-L6-v2"
                          DockerCheck.required_files))%string;
               "💡 Model appears to be incomplete" ])
  /\ (forall load,
        DockerCheck.check_model (DockerCheck.with_load h load)
        = DockerCheck.check_model h).
Proof.
  intros h Hmodels Hdir Habsent.
  assert (Hm : forall h0,
             DockerCheck.missing_files
               (DockerCheck.scan_files h0 "models/all-MiniLM-L6-v2"
                  DockerCheck.required_files
                  (DockerCheck.mkScan [] 0%float
                     [ "🔍 Checking local model for Docker deployment...";
                       DockerCheck.repeat_string "=" 50;
                       "📁 Checking model files..." ]))
             = DockerCheck.absent h0 "models/all-MiniLM-L6-v2"
                 DockerCheck.required_files).
  { intros h0. now rewrite scan_files_missing. }
  unfold DockerCheck.check_model.
  change (DockerCheck.path_join "models" "all-MiniLM-L6-v2")
    with "models/all-MiniLM-L6-v2".
  cbn [DockerCheck.with_load DockerCheck.path_exists].
  rewrite Hmodels, Hdir. cbn [negb app]. cbv zeta.
  rewrite Hm.
  destruct (DockerCheck.absent h "models/all-MiniLM-L6-v2"
              DockerCheck.required_files) as [|n ns] eqn:Ha; [congruence|].
  split; [reflexivity|]. split.
  - eexists. cbn [snd]. reflexivity.
  - intros load. rewrite scan_files_load, Hm, Ha. reflexivity.
Qed.

Lemma check_docker_files_true : forall h files printed,
  fst (DockerCheck.check_docker_files h files printed) = true
  <-> Forall (fun n => DockerCheck.path_exists h n = true) files.
Proof.
  intros h files. induction files as [|n files IH]; intros printed;
    cbn [DockerCheck.check_docker_files].
  - split; [constructor | reflexivity].
  - destruct (DockerCheck.path_exists h n) eqn:E.
    + rewrite IH. split; [now constructor | now inversion 1].
    + split; [discriminate | inversion 1; congruence].
Qed.

(** X19: the verdict of [check_docker_ready].  It is True exactly when
    "Dockerfile" and "docker-compose.yml" exist, the directory "static"
    exists and holds at least one HTML file, and "main.py" exists. *)
Theorem check_docker_ready_verdict : forall h,
  fst (DockerCheck.check_docker_ready h) = true
  <-> DockerCheck.path_exists h "Dockerfile" = true
      /\ DockerCheck.path_exists h "docker-compose.yml" = true
      /\ DockerCheck.path_exists h "static" = true
      /\ DockerCheck.html_files h <> []
      /\ DockerCheck.path_exists h "main.py" = true.
Proof.
  intros h. unfold DockerCheck.check_docker_ready.
  pose proof (check_docker_files_true h ["Dockerfile"; "docker-compose.yml"]
                [ (PyStr.nl ++ "🐳 Checking Docker readiness...")%string;
                  DockerCheck.repeat_string "=" 30 ]) as Hfiles.
  destruct (DockerCheck.check_docker_files h
              ["Dockerfile"; "docker-compose.yml"] _) as [[] out1];
    cbn [fst] in Hfiles.
  - assert (Hd : Forall (fun n => DockerCheck.path_exists h n = true)
                   ["Dockerfile"; "docker-compose.yml"])
      by now apply Hfiles.
    inversion Hd as [|? ? H1 Hd']; subst.
    inversion Hd' as [|? ? H2 _]; subst.
    destruct (DockerCheck.path_exists h "static");
      [| split; [discriminate | intros [_ [_ [H _]]]; discriminate]].
    destruct (DockerCheck.html_files h) as [|x xs];
      [split; [discriminate | intros [_ [_ [_ [H _]]]]; congruence]|].
    destruct (DockerCheck.path_exists h "main.py"); cbn [fst].
    + split; [intros _; repeat split; auto; discriminate | reflexivity].
    + split; [discriminate | intros [_ [_ [_ [_ H]]]]; discriminate].
  - cbn [fst]. split; [discriminate|].
    intros [H1 [H2 _]].
    assert (Hd : Forall (fun n => DockerCheck.path_exists h n = true)
                   ["Dockerfile"; "docker-compose.yml"])
      by (repeat constructor; assumption).
    apply Hfiles in Hd. discriminate.
Qed.

Lemma scan_files_printed : forall h model_path files st,
  Forall DockerCheck.other_line (DockerCheck.scan_printed st) ->
  Forall DockerCheck.other_line
    (DockerCheck.scan_printed (DockerCheck.scan_files h model_path files st)).
Proof.
  intros h model_path files. induction files as [|n files IH]; intros st Hst;
    cbn [DockerCheck.scan_files]; [exact Hst|].
  destruct (DockerCheck.path_exists h (DockerCheck.path_join model_path n));
    apply IH; cbn [DockerCheck.scan_printed]; apply Forall_app;
    (split; [exact Hst | repeat constructor]).
Qed.

Lemma check_model_lines : forall h,
  Forall DockerCheck.other_line (snd (DockerCheck.check_model h)).
Proof.
  intros h. unfold DockerCheck.check_model.
  destruct (negb (DockerCheck.path_exists h "models"));
    [repeat constructor|].
  destruct (negb (DockerCheck.path_exists h _)); [repeat constructor|].
  cbv zeta.
  match goal with
  | |- context [DockerCheck.scan_files h ?p ?fs ?st0] =>
      pose proof (@scan_files_printed h p fs st0) as Hscan;
      destruct (DockerCheck.scan_files h p fs st0) as [missing total printed]
  end.
  cbn [DockerCheck.scan_printed DockerCheck.missing_files
         DockerCheck.total_size] in *.
  assert (Hp : Forall DockerCheck.other_line printed)
    by (apply Hscan; repeat constructor).
  destruct missing as [|n ns].
  - destruct (DockerCheck.load_model h _); cbn [snd];
      repeat (apply Forall_app; split); try exact Hp; repeat constructor.
  - cbn [snd]. apply Forall_app. split; [exact Hp | repeat constructor].
Qed.

Lemma check_docker_files_lines : forall h files printed,
  Forall DockerCheck.other_line printed ->
  Forall DockerCheck.other_line
    (snd (DockerCheck.check_docker_files h files printed)).
Proof.
  intros h files. induction files as [|n files IH]; intros printed Hp;
    cbn [DockerCheck.check_docker_files]; [exact Hp|].
  destruct (DockerCheck.path_exists h n).
  - apply IH. apply Forall_app. split; [exact Hp | repeat constructor].
  - cbn [snd]. apply Forall_app. split; [exact Hp | repeat constructor].
Qed.

Lemma check_docker_ready_lines : forall h,
  Forall DockerCheck.other_line (snd (DockerCheck.check_docker_ready h)).
Proof.
  intros h. unfold DockerCheck.check_docker_ready.
  match goal with
  | |- context [DockerCheck.check_docker_files h ?fs ?out0] =>
      pose proof (@check_docker_files_lines h fs out0) as Hfiles;
      destruct (DockerCheck.check_docker_files h fs out0) as [[] out1]
  end; cbn [snd] in *;
    assert (Hp : Forall DockerCheck.other_line out1)
      by (apply Hfiles; repeat constructor);
    [| exact Hp].
  destruct (DockerCheck.path_exists h "static");
    [| apply Forall_app; split; [exact Hp | repeat constructor]].
  destruct (DockerCheck.html_files h);
    [apply Forall_app; split; [exact Hp | repeat constructor]|].
  destruct (DockerCheck.path_exists h "main.py"); cbn [snd];
    repeat (apply Forall_app; split); try exact Hp; repeat constructor.
Qed.

(** X20: the script announces a deployable state only when both checks
    pass.  The line "Everything is ready for Docker deployment!" is among
    the lines printed exactly when [check_model] and [check_docker_ready]
    both return True: no other line printed, whatever the host puts in
    it, is that line. *)
Theorem main_announces_ready : forall h,
  In DockerCheck.ready_line (DockerCheck.main h)
  <-> fst (DockerCheck.check_model h) = true
      /\ fst (DockerCheck.check_docker_ready h) = true.
Proof.
  intros h. unfold DockerCheck.main.
  pose proof (check_model_lines h) as Hm.
  pose proof (check_docker_ready_lines h) as Hd.
  destruct (DockerCheck.check_model h) as [model_ok out_model].
  destruct (DockerCheck.check_docker_ready h) as [docker_ok out_docker].
  cbn [fst snd] in *.
  assert (Hnot : forall lines,
             Forall DockerCheck.other_line lines ->
             ~ In DockerCheck.ready_line lines).
  { intros lines Hl Hin. rewrite Forall_forall in Hl.
    apply Hl in Hin. discriminate Hin. }
  split.
  - intros Hin.
    destruct model_ok, docker_ok; try (split; reflexivity); exfalso;
      repeat (apply in_app_iff in Hin; destruct Hin as [Hin | Hin]);
      try (revert Hin; apply Hnot; first [exact Hm | exact Hd]);
      cbn [andb negb app] in Hin;
      repeat (destruct Hin as [Hin | Hin]; [discriminate Hin|]);
      try destruct Hin.
  - intros [-> ->]. cbn [andb].
    repeat (apply in_app_iff; right). now left.
Qed.

(** ** Concrete runs *)

Lemma demo_model_total : forall texts,
  exists vectors,
    Demo.model texts = Ok vectors
    /\ List.length vectors = List.length texts.
Proof.
  intros texts. eexists. split; [reflexivity | apply length_map].
Qed.

Lemma demo_store_up : forall (t : list event) (op : store_op),
  Demo.no_fault t op = None.
Proof. reflexivity. Qed.

Lemma demo_uuid4_injective : forall i j, Demo.uuid4 i = Demo.uuid4 j -> i = j.
Proof.
  induction i as [|i IH]; intros [|j] H; simpl in H;
    try discriminate; [reflexivity|].
  injection H as H. f_equal. now apply IH.
Qed.

Lemma demo_parts_wf : wf_frame Demo.parts.
Proof.
  split.
  - repeat constructor; simpl; intuition discriminate.
  - repeat constructor.
Qed.

Lemma demo_more_parts_wf : wf_frame Demo.more_parts.
Proof.
  split.
  - repeat constructor; simpl; intuition discriminate.
  - repeat constructor.
Qed.

Lemma chat_missing_message_key_witness :
  chat_endpoint (Some Demo.model) Demo.no_fault Demo.nearest
    (mkRequest (Ok (PDict [("collection", PStr "parts")]))) Demo.empty_world
  = (Ok (mkChatResponse "Please provide a message to search."),
     Demo.empty_world).
Proof.
  apply (@chat_missing_message_key (Some Demo.model) Demo.no_fault
           Demo.nearest [("collection", PStr "parts")] Demo.empty_world).
  reflexivity.
Defined.

Lemma chat_preconditions_in_order_witness :
  chat_endpoint (Some Demo.model) Demo.no_fault Demo.nearest
    (Demo.ask "") Demo.empty_world
  = (Ok (mkChatResponse "Please provide a message to search."),
     Demo.empty_world)
  /\ chat_endpoint None Demo.no_fault Demo.nearest
       (Demo.ask "brake") Demo.empty_world
     = (Ok (mkChatResponse
              "Embedding model not loaded. Please check the server logs."),
        Demo.empty_world)
  /\ chat_endpoint (Some Demo.model) Demo.no_fault Demo.nearest
       (Demo.ask "brake") Demo.empty_world
     = (Ok (mkChatResponse
              "No data collections available. Please upload a CSV file first."),
        mkWorld [] 0 [EvStore OpList]).
Proof.
  split; [| split].
  - apply (@chat_preconditions_in_order (Some Demo.model) Demo.no_fault
             Demo.nearest (Demo.ask "") (PDict [("message", PStr "")])
             (PStr "") Demo.empty_world eq_refl eq_refl).
    reflexivity.
  - apply (@chat_preconditions_in_order None Demo.no_fault
             Demo.nearest (Demo.ask "brake")
             (PDict [("message", PStr "brake")])
             (PStr "brake") Demo.empty_world eq_refl eq_refl);
      reflexivity.
  - apply (@chat_preconditions_in_order (Some Demo.model) Demo.no_fault
             Demo.nearest (Demo.ask "brake")
             (PDict [("message", PStr "brake")])
             (PStr "brake") Demo.empty_world eq_refl eq_refl);
      try reflexivity.
    now exists Demo.model.
Defined.

Lemma chat_object_body_is_200_witness :
  http_status
    (fst (chat_endpoint (Some Demo.model) Demo.no_fault Demo.nearest
            (mkRequest (Ok (PDict [("message", PStr "brake");
                                   ("collection", PStr "nope")])))
            (mkWorld [("parts", [])] 0 [])))
  = 200%Z.
Proof.
  destruct (@chat_object_body_is_200 (Some Demo.model) Demo.no_fault
              Demo.nearest
              (mkRequest (Ok (PDict [("message", PStr "brake");
                                     ("collection", PStr "nope")])))
              [("message", PStr "brake"); ("collection", PStr "nope")]
              (mkWorld [("parts", [])] 0 []) eq_refl)
    as [text [w' [_ [Hstatus _]]]].
  exact Hstatus.
Defined.

(** Against C7 as stated for every request: a body that is valid JSON but
    not an object makes [data.get] raise outside the [try], and the
    framework answers 500. *)
Lemma chat_array_body_is_500 :
  http_status
    (fst (chat_endpoint (Some Demo.model) Demo.no_fault Demo.nearest
            (mkRequest (Ok (PList []))) Demo.empty_world))
  = 500%Z.
Proof. reflexivity. Qed.

(** A body that is not JSON at all: the decoder's exception leaves the
    handler as well. *)
Example chat_undecodable_body_is_500 :
  http_status
    (fst (chat_endpoint (Some Demo.model) Demo.no_fault Demo.nearest
            (mkRequest (Raise (PyExc "JSONDecodeError" "Expecting value")))
            Demo.empty_world))
  = 500%Z.
Proof. reflexivity. Qed.

Lemma upload_missing_column_is_500_witness :
  upload_file (Some Demo.model) Demo.read_csv Demo.uuid4 Demo.float_repr
    Demo.no_fault (mkUploadFile "parts.csv" "no text column") Demo.empty_world
  = (Raise (HTTPException 500
              "Error processing file: 400: CSV must contain 'Object_Text' column"),
     Demo.empty_world)
  /\ http_status
       (fst (upload_file (Some Demo.model) Demo.read_csv Demo.uuid4
               Demo.float_repr Demo.no_fault
               (mkUploadFile "parts.csv" "no text column") Demo.empty_world))
     = 500%Z.
Proof.
  apply (@upload_missing_column_is_500 (Some Demo.model) Demo.read_csv
           Demo.uuid4 Demo.float_repr Demo.no_fault Demo.model
           (mkUploadFile "parts.csv" "no text column") Demo.no_text_column
           Demo.empty_world); reflexivity.
Defined.

Lemma chat_response_format_witness :
  render_results Demo.answer
  = Ok (mkChatResponse
"**Result 1** (Similarity: 75.00%)
Brake pad model X123
Additional info: Part: X123

**Result 2** (Similarity: 50.00%)
Disc
")
  /\ fst (chat_endpoint (Some Demo.model) Demo.no_fault
            (fun _ _ _ => Ok Demo.answer) (Demo.ask "X123 brake pad")
            (mkWorld [("parts", [])] 0 []))
     = Ok (mkChatResponse
"**Result 1** (Similarity: 75.00%)
Brake pad model X123
Additional info: Part: X123

**Result 2** (Similarity: 50.00%)
Disc
")
  /\ exists percent,
       Spec.header 2 0.5%float
       = ("**Result 2** (Similarity: " ++ percent ++ ")")%string
       /\ Spec.is_percent2 (1 - 0.5)%float percent.
Proof.
  destruct (@chat_response_format (Some Demo.model) Demo.no_fault
              (fun _ _ _ => Ok Demo.answer) Demo.answer
              ["Brake pad model X123"; "Disc"]
              [Some [("Part", "X123");
                     ("Object_Text", "Brake pad model X123")]; Some []]
              [0.25%float; 0.5%float] [] [] []
              eq_refl ltac:(discriminate) eq_refl eq_refl eq_refl eq_refl)
    as [Hrender [Hchat [_ [_ Hpercent]]]].
  split; [exact Hrender|]. split; [| exact (Hpercent 2 0.5%float)].
  exact (Hchat Demo.model [("message", PStr "X123 brake pad")]
           (mkWorld [("parts", [])] 0 []) "parts" [] [] "parts" []
           [0.5%float] [] eq_refl eq_refl demo_store_up eq_refl eq_refl
           eq_refl eq_refl eq_refl).
Defined.

Lemma batch_size_irrelevant_witness :
  exists w1 w2,
    upload_file_with (Some Demo.model) Demo.read_csv Demo.uuid4
      Demo.float_repr Demo.no_fault 1
      (mkUploadFile "My Parts.csv" "parts") Demo.empty_world
    = (Ok (upload_summary "my_parts" 3), w1)
    /\ upload_file (Some Demo.model) Demo.read_csv Demo.uuid4
         Demo.float_repr Demo.no_fault
         (mkUploadFile "My Parts.csv" "parts") Demo.empty_world
       = (Ok (upload_summary "my_parts" 3), w2)
    /\ map rec_document (stored "my_parts" (chroma_db w1))
       = map rec_document (stored "my_parts" (chroma_db w2))
    /\ collection_count "my_parts" (chroma_db w1) = 3.
Proof.
  destruct (@batch_size_irrelevant (Some Demo.model) Demo.read_csv Demo.uuid4
              Demo.float_repr Demo.no_fault Demo.model eq_refl
              demo_model_total demo_store_up 1 100
              (mkUploadFile "My Parts.csv" "parts") Demo.parts
              Demo.empty_world ltac:(lia) ltac:(lia) eq_refl eq_refl eq_refl
              demo_parts_wf)
    as [w1 [w2 [H1 [H2 [_ [Hsame Hcount]]]]]].
  exists w1, w2.
  split; [exact H1|]. split; [exact H2|].
  split; [exact (proj1 (Hsame "my_parts"))|].
  exact (proj1 (Hcount eq_refl)).
Defined.

Lemma reupload_appends_witness :
  exists r1 w1 r2 w2,
    upload_file (Some Demo.model) Demo.read_csv Demo.uuid4 Demo.float_repr
      Demo.no_fault (mkUploadFile "My Parts.csv" "parts") Demo.empty_world
    = (Ok r1, w1)
    /\ upload_file (Some Demo.model) Demo.read_csv Demo.uuid4 Demo.float_repr
         Demo.no_fault (mkUploadFile "my_parts.csv" "more parts") w1
       = (Ok r2, w2)
    /\ collection_count "my_parts" (chroma_db w2) = 3 + 2.
Proof.
  destruct (@reupload_appends (Some Demo.model) Demo.read_csv Demo.uuid4
              Demo.float_repr Demo.no_fault Demo.model eq_refl
              demo_model_total demo_store_up
              (mkUploadFile "My Parts.csv" "parts")
              (mkUploadFile "my_parts.csv" "more parts")
              Demo.parts Demo.more_parts Demo.empty_world
              eq_refl eq_refl eq_refl eq_refl eq_refl eq_refl
              demo_parts_wf demo_more_parts_wf eq_refl)
    as [r1 [w1 [r2 [w2 [recs2 [H1 [H2 [_ [_ [_ Hnew]]]]]]]]]].
  exists r1, w1, r2, w2.
  split; [exact H1|]. split; [exact H2|]. exact (Hnew eq_refl).
Defined.

Lemma upload_no_rows_witness :
  exists w',
    upload_file (Some Demo.model) Demo.read_csv Demo.uuid4 Demo.float_repr
      Demo.no_fault (mkUploadFile "empty.csv" "no rows") Demo.empty_world
    = (Ok (upload_summary "empty" 0), w')
    /\ chroma_db w' = [("empty", [])]
    /\ trace w' = [EvStore (OpCreate "empty")].
Proof.
  destruct (@upload_no_rows (Some Demo.model) Demo.read_csv Demo.uuid4
              Demo.float_repr Demo.no_fault Demo.model eq_refl demo_store_up
              (mkUploadFile "empty.csv" "no rows") Demo.no_rows
              Demo.empty_world eq_refl eq_refl eq_refl eq_refl)
    as [w' [evs [Hrun [_ [_ [Hdb _]]]]]].
  exists w'. split; [exact Hrun|]. split; [exact Hdb|].
  assert (E : w' = snd (upload_file (Some Demo.model) Demo.read_csv Demo.uuid4
                          Demo.float_repr Demo.no_fault
                          (mkUploadFile "empty.csv" "no rows")
                          Demo.empty_world))
    by (rewrite Hrun; reflexivity).
  rewrite E. reflexivity.
Defined.

Lemma catalog_wf : wf_frame Scenario.catalog.
Proof.
  split.
  - repeat constructor; simpl; intuition discriminate.
  - repeat constructor.
Qed.

Lemma row_transformation_witness :
  exists w',
    upload_file (Some Demo.model) Scenario.read_csv Demo.uuid4
      Demo.float_repr Demo.no_fault
      (mkUploadFile "Catalog.csv" "catalog") Demo.empty_world
    = (Ok (upload_summary "catalog" 3), w')
    /\ map (fun r => (rec_id r, rec_document r, rec_metadata r))
         (stored "catalog" (chroma_db w'))
       = [ ("", "Brake pad model X123", [("Part", "X123"); ("Qty", "4")]);
           ("u", "Disc",
            [("Part", "D9"); ("Qty", "12"); ("In stock", "True")]);
           ("uu", "Hose", [("Qty", "-2"); ("In stock", "False")]) ]
    /\ uuid_next w' = 3
    /\ NoDup (map rec_id (stored "catalog" (chroma_db w'))).
Proof.
  destruct (@row_transformation (Some Demo.model) Scenario.read_csv
              Demo.uuid4 Demo.float_repr Demo.no_fault Demo.model eq_refl
              demo_model_total demo_store_up
              (mkUploadFile "Catalog.csv" "catalog") Scenario.catalog
              Demo.empty_world eq_refl eq_refl eq_refl catalog_wf)
    as [resp [recs [w' [Hrun [Hstored [_ [_ [Hdrawn Hfresh]]]]]]]].
  destruct (Hfresh demo_uuid4_injective) as [Hnodup _].
  exists w'.
  assert (Hw : w' = snd (upload_file (Some Demo.model) Scenario.read_csv
                           Demo.uuid4 Demo.float_repr Demo.no_fault
                           (mkUploadFile "Catalog.csv" "catalog")
                           Demo.empty_world))
    by (rewrite Hrun; reflexivity).
  assert (Hresp : Ok resp
                  = fst (upload_file (Some Demo.model) Scenario.read_csv
                           Demo.uuid4 Demo.float_repr Demo.no_fault
                           (mkUploadFile "Catalog.csv" "catalog")
                           Demo.empty_world))
    by (rewrite Hrun; reflexivity).
  split; [rewrite Hrun, Hresp; reflexivity|].
  split; [rewrite Hw; reflexivity|].
  split; [exact Hdrawn|].
  change (NoDup
            (map rec_id
               (stored
                  (derive_collection_name
                     (filename (mkUploadFile "Catalog.csv" "catalog")))
                  (chroma_db w')))).
  rewrite Hstored. exact Hnodup.
Defined.

(** The two-result answer, rendered. *)
Example rendered_answer :
  render_results Demo.answer
  = Ok (mkChatResponse
"**Result 1** (Similarity: 75.00%)
Brake pad model X123
Additional info: Part: X123

**Result 2** (Similarity: 50.00%)
Disc
").
Proof. vm_compute. reflexivity. Qed.

(** An upload followed by a question, end to end. *)
Example chat_after_upload :
  response_of
    (fst (chat_endpoint (Some Demo.model) Demo.no_fault Demo.nearest
            (Demo.ask "X123 brake pad")
            (snd (upload_file (Some Demo.model) Demo.read_csv Demo.uuid4
                    Demo.float_repr Demo.no_fault
                    (mkUploadFile "My Parts.csv" "parts")
                    Demo.empty_world))))
  = Some
"**Result 1** (Similarity: 75.00%)
Brake pad model X123
Additional info: Part: X123, Qty: 4

**Result 2** (Similarity: 75.00%)
Disc

**Result 3** (Similarity: 75.00%)
7
Additional info: Part: Y, Qty: True
".
Proof. vm_compute. reflexivity. Qed.

(** The records of the three-row table, batch size 2. *)
Example stored_parts :
  map (fun r => (rec_id r, rec_document r, rec_metadata r))
    (stored "my_parts"
       (chroma_db
          (snd (upload_file_with (Some Demo.model) Demo.read_csv Demo.uuid4
                  Demo.float_repr Demo.no_fault 2
                  (mkUploadFile "My Parts.csv" "parts") Demo.empty_world))))
  = [ ("", "Brake pad model X123", [("Part", "X123"); ("Qty", "4")]);
      ("u", "Disc", []);
      ("uu", "7", [("Part", "Y"); ("Qty", "True")]) ].
Proof. vm_compute. reflexivity. Qed.

Example format_percent2_exact : PyFloat.format_percent2 0.75%float = "75.00%".
Proof. vm_compute. reflexivity. Qed.

Example format_percent2_negative :
  PyFloat.format_percent2 (-0.5)%float = "-50.00%".
Proof. vm_compute. reflexivity. Qed.

Example format_percent2_small :
  PyFloat.format_percent2 0.001953125%float = "0.20%".
Proof. vm_compute. reflexivity. Qed.

Example format_percent2_nan : PyFloat.format_percent2 nan = "nan%".
Proof. vm_compute. reflexivity. Qed.

Example replace_all_occurrences : PyStr.replace ".csv" "" "a.csvb.csv" = "ab".
Proof. reflexivity. Qed.

(** ** Concrete runs of the other endpoints *)

Lemma scenario_admin_up : forall (t : list event) (op : admin_op),
  Scenario.no_admin_fault t op = None.
Proof. reflexivity. Qed.

Lemma two_collections_unique : unique_names (chroma_db Scenario.two_collections).
Proof.
  unfold unique_names. repeat constructor; simpl; intuition discriminate.
Qed.

Lemma batches_partition_witness :
  List.concat (batches 2 Demo.parts) = rows Demo.parts
  /\ Forall (fun b => 0 < List.length b <= 2) (batches 2 Demo.parts).
Proof. apply (@batches_partition 2 Demo.parts). lia. Defined.

Lemma parts_batches_answered :
  Forall (answers Demo.float_repr Demo.model (columns Demo.parts))
    (batches 2 Demo.parts).
Proof.
  repeat constructor; eexists; (split; [reflexivity | reflexivity]).
Qed.

Lemma upload_calls_witness :
  exists w',
    upload_file_with (Some Demo.model) Demo.read_csv Demo.uuid4
      Demo.float_repr Demo.no_fault 2
      (mkUploadFile "My Parts.csv" "parts") Demo.empty_world
    = (Ok (upload_summary "my_parts" 3), w')
    /\ trace w'
       = [ EvStore (OpCreate "my_parts");
           EvEncode [PStr "Brake pad model X123"; PStr "Disc"];
           EvStore (OpAdd "my_parts" 2);
           EvEncode [PStr "7"];
           EvStore (OpAdd "my_parts" 1) ].
Proof.
  destruct (@upload_calls (Some Demo.model) Demo.read_csv Demo.uuid4
              Demo.float_repr Demo.no_fault Demo.model eq_refl demo_store_up
              2 (mkUploadFile "My Parts.csv" "parts") Demo.parts
              Demo.empty_world ltac:(lia) eq_refl eq_refl eq_refl
              demo_parts_wf parts_batches_answered)
    as [w' [Hrun [Htrace _]]].
  exists w'. split; [exact Hrun | exact Htrace].
Defined.

Lemma upload_failure_keeps_batches_witness :
  exists recs w',
    upload_file_with (Some Scenario.flaky_model) Demo.read_csv Demo.uuid4
      Demo.float_repr Demo.no_fault 2
      (mkUploadFile "My Parts.csv" "parts") Demo.empty_world
    = (Raise (HTTPException 500 "Error processing file: provider failed"), w')
    /\ stored "my_parts" (chroma_db w') = recs
    /\ map rec_document recs = ["Brake pad model X123"; "Disc"].
Proof.
  destruct (@upload_failure_keeps_batches (Some Scenario.flaky_model)
              Demo.read_csv Demo.uuid4 Demo.float_repr Demo.no_fault
              Scenario.flaky_model eq_refl demo_store_up
              2 (mkUploadFile "My Parts.csv" "parts") Demo.parts
              Demo.empty_world
              [ [ [CStr "X123"; CStr "Brake pad model X123"; CInt 4];
                  [CNone; CStr "Disc"; CFloat nan] ] ]
              [ [CStr "Y"; CInt 7; CBool true] ] []
              (PyExc "RuntimeError" "provider failed")
              ltac:(lia) eq_refl eq_refl eq_refl demo_parts_wf eq_refl
              ltac:(repeat constructor; eexists; split; reflexivity)
              eq_refl)
    as [recs [w' [Hrun [Hstored [[Hdocs _] _]]]]].
  exists recs, w'. split; [exact Hrun|]. split; [exact Hstored | exact Hdocs].
Defined.

Lemma get_collections_all_or_nothing_witness :
  fst (get_collections Demo.no_fault Scenario.count_fault
         Scenario.two_collections)
  = Raise (HTTPException 500 "Error getting collections: store is down")
  /\ fst (get_collections Demo.no_fault Scenario.no_admin_fault
            Scenario.two_collections)
     = Ok [mkCollectionInfo "parts" 1; mkCollectionInfo "tools" 0].
Proof.
  destruct (@get_collections_all_or_nothing Demo.no_fault
              Scenario.count_fault Scenario.two_collections
              two_collections_unique) as [Hfails _].
  destruct (@get_collections_all_or_nothing Demo.no_fault
              Scenario.no_admin_fault Scenario.two_collections
              two_collections_unique) as [_ Hlist].
  split; [exact Hfails | exact (Hlist eq_refl scenario_admin_up)].
Defined.

Lemma delete_then_list_witness :
  exists r w1,
    delete_collection Scenario.no_admin_fault "parts" Scenario.two_collections
    = (Ok r, w1)
    /\ fst (get_collections Demo.no_fault Scenario.no_admin_fault w1)
       = Ok [mkCollectionInfo "tools" 0].
Proof.
  destruct (@delete_then_list Demo.no_fault Scenario.no_admin_fault
              demo_store_up scenario_admin_up "parts"
              Scenario.two_collections [Scenario.brake_pad]
              two_collections_unique eq_refl)
    as [r [w1 [Hdel [Hlist _]]]].
  exists r, w1. split; [exact Hdel | exact Hlist].
Defined.

Lemma upload_then_list_witness :
  exists r w1 listing,
    upload_file (Some Demo.model) Demo.read_csv Demo.uuid4 Demo.float_repr
      Demo.no_fault (mkUploadFile "parts.csv" "more parts")
      Scenario.two_collections
    = (Ok r, w1)
    /\ fst (get_collections Demo.no_fault Scenario.no_admin_fault w1)
       = Ok listing
    /\ In (mkCollectionInfo "parts" (1 + 2)) listing.
Proof.
  destruct (@upload_then_list (Some Demo.model) Demo.read_csv Demo.uuid4
              Demo.float_repr Demo.no_fault Scenario.no_admin_fault
              demo_store_up scenario_admin_up Demo.model eq_refl
              demo_model_total
              (mkUploadFile "parts.csv" "more parts") Demo.more_parts
              Scenario.two_collections eq_refl eq_refl eq_refl
              demo_more_parts_wf two_collections_unique)
    as [r [w1 [listing [Hrun [Hlist [Hin _]]]]]].
  exists r, w1, listing. split; [exact Hrun|]. split; [exact Hlist|].
  exact Hin.
Defined.

Lemma upload_then_delete_restores_witness :
  exists r1 w1 r2 w2,
    upload_file (Some Demo.model) Demo.read_csv Demo.uuid4 Demo.float_repr
      Demo.no_fault (mkUploadFile "My Parts.csv" "parts")
      Scenario.two_collections
    = (Ok r1, w1)
    /\ delete_collection Scenario.no_admin_fault "my_parts" w1 = (Ok r2, w2)
    /\ chroma_db w2 = chroma_db Scenario.two_collections.
Proof.
  destruct (@upload_then_delete_restores (Some Demo.model) Demo.read_csv
              Demo.uuid4 Demo.float_repr Demo.no_fault
              Scenario.no_admin_fault demo_store_up scenario_admin_up
              Demo.model eq_refl demo_model_total
              (mkUploadFile "My Parts.csv" "parts") Demo.parts
              Scenario.two_collections eq_refl eq_refl eq_refl
              demo_parts_wf eq_refl)
    as [r1 [w1 [r2 [w2 [Hrun [_ [Hdel Hdb]]]]]]].
  exists r1, w1, r2, w2.
  split; [exact Hrun|]. split; [exact Hdel | exact Hdb].
Defined.

Lemma chat_calls_witness :
  trace
    (snd (chat_endpoint (Some Demo.model) Demo.no_fault Demo.nearest
            (mkRequest (Ok (PDict [("message", PStr "wrench");
                                   ("collection", PStr "tools")])))
            Scenario.two_collections))
  = [ EvStore OpList;
      EvStore (OpGet (PStr "tools"));
      EvEncode [PStr "wrench"];
      EvStore (OpQuery "tools" 5) ].
Proof.
  apply (@chat_calls (Some Demo.model) Demo.no_fault Demo.nearest Demo.model
           eq_refl demo_store_up
           [("message", PStr "wrench"); ("collection", PStr "tools")]
           Scenario.two_collections "parts" [Scenario.brake_pad]
           [("tools", [])] "tools" [] [0.5%float] []
           eq_refl eq_refl eq_refl eq_refl eq_refl).
Defined.

Lemma chat_missing_collection_witness :
  fst (chat_endpoint (Some Demo.model) Scenario.lookup_fault Demo.nearest
         (mkRequest (Ok (PDict [("message", PStr "wrench");
                                ("collection", PStr "nope")])))
         Scenario.two_collections)
  = Ok (mkChatResponse
          "Error searching: Collection [nope] does not exist")
  /\ http_status
       (fst (chat_endpoint (Some Demo.model) Scenario.lookup_fault
               Demo.nearest
               (mkRequest (Ok (PDict [("message", PStr "wrench");
                                      ("collection", PStr "nope")])))
               Scenario.two_collections))
     = 200%Z
  /\ trace
       (snd (chat_endpoint (Some Demo.model) Scenario.lookup_fault
               Demo.nearest
               (mkRequest (Ok (PDict [("message", PStr "wrench");
                                      ("collection", PStr "nope")])))
               Scenario.two_collections))
     = [EvStore OpList; EvStore (OpGet (PStr "nope"))].
Proof.
  destruct (@chat_missing_collection (Some Demo.model) Scenario.lookup_fault
              Demo.nearest Demo.model eq_refl
              [("message", PStr "wrench"); ("collection", PStr "nope")]
              Scenario.two_collections "parts" [Scenario.brake_pad]
              [("tools", [])] "nope"
              eq_refl eq_refl eq_refl eq_refl ltac:(discriminate) eq_refl)
    as [e [Hget [Hresponse [Hstatus Htrace]]]].
  cbv in Hget. injection Hget as <-.
  split; [exact Hresponse | split; [exact Hstatus | exact Htrace]].
Defined.

Lemma chat_no_results_witness :
  fst (chat_endpoint (Some Demo.model) Demo.no_fault Scenario.nothing_near
         (Demo.ask "wrench") Scenario.two_collections)
  = Ok (mkChatResponse "No relevant results found for your query.").
Proof.
  apply (@chat_no_results (Some Demo.model) Demo.no_fault
           Scenario.nothing_near Demo.model eq_refl demo_store_up
           [("message", PStr "wrench")]
           Scenario.two_collections "parts" [Scenario.brake_pad]
           [("tools", [])] "parts" [Scenario.brake_pad] [0.5%float] []
           (mkQueryResult [[]] [[]] [[]])
           eq_refl eq_refl eq_refl eq_refl eq_refl eq_refl).
  right. now exists [].
Defined.

Lemma check_model_reports_missing_witness :
  fst (DockerCheck.check_model Scenario.incomplete_host) = false
  /\ exists lines,
       snd (DockerCheck.check_model Scenario.incomplete_host)
       = lines
         ++ [ (PyStr.nl ++ "❌ Missing files: pytorch_model.bin, vocab.txt")%string;
              "💡 Model appears to be incomplete" ].
Proof.
  destruct (@check_model_reports_missing Scenario.incomplete_host
              eq_refl eq_refl ltac:(discriminate))
    as [Hverdict [Hlines _]].
  split; [exact Hverdict | exact Hlines].
Defined.

(** The report on the incomplete host, line by line. *)
Example incomplete_host_report :
  snd (DockerCheck.check_model Scenario.incomplete_host)
  = [ "🔍 Checking local model for Docker deployment...";
      "==================================================";
      "📁 Checking model files...";
      "   ✅ config.json: 1.0 MB";
      "   ❌ pytorch_model.bin: MISSING";
      "   ✅ sentence_bert_config.json: 1.0 MB";
      "   ✅ special_tokens_map.json: 1.0 MB";
      "   ✅ tokenizer_config.json: 1.0 MB";
      "   ✅ tokenizer.json: 1.0 MB";
      "   ❌ vocab.txt: MISSING";
      (PyStr.nl ++ "❌ Missing files: pytorch_model.bin, vocab.txt")%string;
      "💡 Model appears to be incomplete" ].
Proof. vm_compute. reflexivity. Qed.

Example format_fixed1_size :
  DockerCheck.format_fixed1
    (DockerCheck.float_of_Z 90868376 / 1048576)%float = "86.7".
Proof. vm_compute. reflexivity. Qed.
